(** * Repository index and relationship inference: a shallow embedding

    The development follows the Python sources file by file:

    - [Py]               the Python built-ins the sources rely on
                         (string predicates, [os.path], [re.search] for the
                         one pattern used);
    - [Json], [Runtime]  JSON values, exceptions, the log, and a small
                         state-and-exception monad over the file system;
    - [ConfigUtils]      [utils/config_utils.py];
    - [ParseJava]        [utils/parse_java.py];
    - [ImpactAnalysis]   [impactanalysis.py];
    - [ClassDiagram]     [diagrams/generate_class_diagram.py];
    - [SequenceDiagram]  [diagrams/generate_diagrams.py]
                         ([generate_sequence_diagram]).

    Definitions come first; the facts proved about them follow. *)

From Stdlib Require Import Ascii String ZArith Lia.
From stdpp Require Import gmap strings list fin_maps pretty sorting.

Set Warnings "-register-all,-clear-no-such-hyp".

Open Scope string_scope.
Open Scope list_scope.

(* ===================================================================== *)
(** * Python built-ins *)
(* ===================================================================== *)

(** Python [str] is modelled by [string]; only ASCII case mapping is used
    ([str.lower] maps [A-Z] to [a-z] and leaves the other characters).  *)
Module Py.

(** [if s:] on a string. *)
Definition truthy (s : string) : bool := negb (String.eqb s "").

(** [if x:] on a value that is [None] or a string. *)
Definition truthy_opt (o : option string) : bool :=
  match o with
  | None => false
  | Some s => truthy s
  end.

(** [s.startswith(pattern)] *)
Definition startswith (s pattern : string) : bool := String.prefix pattern s.

(** [any(s.startswith(p) for p in patterns)], also [s.startswith(tuple)] *)
Definition startswith_any (s : string) (patterns : list string) : bool :=
  existsb (startswith s) patterns.

(** [s.endswith(suffix)] *)
Definition endswith (s suffix : string) : bool :=
  String.prefix (String.rev suffix) (String.rev s).

(** [sub in s] *)
Fixpoint contains (sub s : string) : bool :=
  String.prefix sub s ||
  match s with
  | EmptyString => false
  | String _ rest => contains sub rest
  end.

(** [s in (a, b, ...)] and [s in {a, b, ...}] *)
Definition str_in (s : string) (l : list string) : bool :=
  existsb (String.eqb s) l.

Definition lower_ascii (c : ascii) : ascii :=
  let n := nat_of_ascii c in
  if (65 <=? n)%nat && (n <=? 90)%nat then ascii_of_nat (n + 32) else c.

(** [s.lower()] *)
Fixpoint lower (s : string) : string :=
  match s with
  | EmptyString => EmptyString
  | String c rest => String (lower_ascii c) (lower rest)
  end.

(** [sep.join(l)] *)
Fixpoint join (sep : string) (l : list string) : string :=
  match l with
  | [] => ""
  | [x] => x
  | x :: rest => x +:+ sep +:+ join sep rest
  end.

(** [s[n:]] *)
Fixpoint drop (n : nat) (s : string) : string :=
  match n, s with
  | O, _ => s
  | S n', String _ rest => drop n' rest
  | S _, EmptyString => EmptyString
  end.

(** [s[:-n]] for [n > 0] *)
Definition drop_end (n : nat) (s : string) : string :=
  String.rev (drop n (String.rev s)).

(** [s.replace(old, new)] for a non-empty [old]: occurrences are replaced
    left to right without overlap.  [skip] counts the characters of an
    occurrence still to be passed over. *)
Fixpoint replace_go (old new : string) (skip : nat) (s : string) : string :=
  match s with
  | EmptyString => EmptyString
  | String c rest =>
      match skip with
      | S k => replace_go old new k rest
      | O =>
          if String.prefix old s
          then new +:+ replace_go old new (String.length old - 1) rest
          else String c (replace_go old new 0 rest)
      end
  end.

Definition replace (s old new : string) : string := replace_go old new 0 s.

(** The part of [s] after the last occurrence of [sep], all of [s] when
    there is none: [s.split(sep)[-1]] for a one-character [sep], and
    [os.path.basename] for ["/"]. *)
Fixpoint after_last (sep : ascii) (acc s : string) : string :=
  match s with
  | EmptyString => acc
  | String c rest =>
      if Ascii.eqb c sep then after_last sep "" rest
      else after_last sep (acc +:+ String c "") rest
  end.

Definition basename (p : string) : string := after_last "/" "" p.

(** [s.lstrip("/")] and [s.rstrip("/")] *)
Fixpoint lstrip_slash (s : string) : string :=
  match s with
  | String c rest => if Ascii.eqb c "/" then lstrip_slash rest else s
  | EmptyString => EmptyString
  end.

Definition rstrip_slash (s : string) : string :=
  String.rev (lstrip_slash (String.rev s)).

(** [posixpath.dirname]: the head up to and including the last slash,
    with trailing slashes removed unless it consists of slashes only. *)
Definition dirname (p : string) : string :=
  let head := drop_end (String.length (basename p)) p in
  if truthy head && truthy (rstrip_slash head) then rstrip_slash head else head.

(** [posixpath.join(a, b)] *)
Definition path_join (a b : string) : string :=
  if startswith b "/" then b
  else if negb (truthy a) || endswith a "/" then a +:+ b
  else a +:+ "/" +:+ b.

(** [re.search(r'<([^>]+)>', s)] and [.group(1)].  From a ["<"], the
    greedy class [[^>]+] takes every character up to the next [">"]; the
    attempt fails when that run is empty or the string ends first, and
    the search resumes at the next position. *)
Fixpoint until_gt (s : string) : option string :=
  match s with
  | EmptyString => None
  | String c rest =>
      if Ascii.eqb c ">" then Some ""
      else String c <$> until_gt rest
  end.

Fixpoint search_angle (s : string) : option string :=
  match s with
  | EmptyString => None
  | String c rest =>
      if Ascii.eqb c "<" then
        match until_gt rest with
        | Some (String g gs) => Some (String g gs)
        | _ => search_angle rest
        end
      else search_angle rest
  end.

End Py.

(* ===================================================================== *)
(** * JSON values *)
(* ===================================================================== *)

(** What [json.load] returns and [json.dump] accepts, for the values an
    index holds: objects keep their keys in order. *)
Module Json.

Inductive json : Type :=
| JNull
| JBool (b : bool)
| JInt (n : Z)
| JStr (s : string)
| JList (l : list json)
| JDict (d : list (string * json)).

(** [d.get(key)] *)
Fixpoint assoc (key : string) (d : list (string * json)) : option json :=
  match d with
  | [] => None
  | (k, v) :: rest => if String.eqb k key then Some v else assoc key rest
  end.

(** [if not data:] on a loaded value *)
Definition falsy (v : json) : bool :=
  match v with
  | JNull => true
  | JBool b => negb b
  | JInt n => Z.eqb n 0
  | JStr s => negb (Py.truthy s)
  | JList l => match l with [] => true | _ => false end
  | JDict d => match d with [] => true | _ => false end
  end.

End Json.
Export Json.

(** The [json] library: [json.dump(v, f, indent=i)] writes [json_dump i v],
    [json.load(f)] returns [json_load] of the contents, [None] standing for
    [JSONDecodeError]. *)
Class JsonLib := {
  text : Type;
  json_dump : option nat → json → text;
  json_load : text → option json;
}.

(** The contract of the library on the values above. *)
Definition json_roundtrip `{JsonLib} : Prop :=
  ∀ (indent : option nat) (v : json), json_load (json_dump indent v) = Some v.

(* ===================================================================== *)
(** * The parse tree handed over by [javalang] *)
(* ===================================================================== *)

(** Iterating over a [javalang] tree yields pairs [(path, node)], [path]
    being the ancestors of [node] from the root down.  Only the node
    classes and attributes the indexer looks at are kept. *)
Module Javalang.

Inductive node : Type :=
| PackageDeclaration (name : string)
| ClassDeclaration (name : string)
| MethodDeclaration (name : string)
    (parameters : list string)      (* [p.type.name], or [str(p.type)] *)
    (return_type : option string)   (* [str(node.return_type)], [None] for void *)
| Import (path : string)
| MethodInvocation
    (qualifier : string)            (* [""] also for [None]: only [if node.qualifier] reads it *)
    (member : string)
| OtherNode.

Definition tree : Type := list (list node * node).

End Javalang.
Export Javalang.

(* ===================================================================== *)
(** * Exceptions, log, file system; the monad of effects *)
(* ===================================================================== *)

Module Runtime.

Inductive exn : Type :=
| FileNotFoundError     (* [os.makedirs("")], [open] of a missing file *)
| IsADirectoryError     (* [open] for writing of a path that names a directory *)
| JSONDecodeError       (* [json.load] of text that is not JSON *)
| JavaParseError        (* [open] or [javalang.parse.parse] failed *)
| SnapshotShapeError.   (* a loaded value that is no index: outside the model *)

Inductive level : Type := INFO | WARNING | ERROR.

(** One constructor per [logging] call of the sources. *)
Inductive message : Type :=
| FileNotFoundCreating (file_path : string)
| ErrorLoadingFile (file_path : string) (e : exn)
| ParsingJavaFile (file_path : string)
| ErrorParsing (file_path : string) (e : exn)
| DirectoryDoesNotExist (directory : string)
| NoJavaFilesFound (directory : string)
| FoundJavaFiles (n : nat) (directory : string)
| ErrorsOccurred (n : nat)
| FileError (file : string) (error : exn)
| StartingDiagram (diagram : string)
| NoDataSkipping (diagram : string).

#[global] Instance exn_eq_dec : EqDecision exn.
Proof. solve_decision. Defined.
#[global] Instance level_eq_dec : EqDecision level.
Proof. solve_decision. Defined.
#[global] Instance message_eq_dec : EqDecision message.
Proof. solve_decision. Defined.

Section Effects.
Context `{JsonLib}.

(** [fs]: the text files written and read through [config_utils];
    [java]: the Java files that open and parse, with their tree;
    [walk]: for an existing directory, the [(root, files)] pairs of
    [os.walk]; [log]: the records emitted so far, oldest first. *)
Record world : Type := World {
  fs : gmap string text;
  java : gmap string tree;
  walk : gmap string (list (string * list string));
  log : list (level * message);
}.

Inductive outcome (A : Type) : Type :=
| Ok (a : A)
| Raise (e : exn).
#[global] Arguments Ok {A} a.
#[global] Arguments Raise {A} e.

Definition M (A : Type) : Type := world → outcome A * world.

Definition ret {A} (a : A) : M A := fun w => (Ok a, w).

Definition bind {A B} (m : M A) (k : A → M B) : M B :=
  fun w =>
    match m w with
    | (Ok a, w') => k a w'
    | (Raise e, w') => (Raise e, w')
    end.

Definition raise {A} (e : exn) : M A := fun w => (Raise e, w).

(** [try: m  except Exception as e: h e]; what [m] did to the world
    before raising stays done. *)
Definition try_except {A} (m : M A) (h : exn → M A) : M A :=
  fun w =>
    match m w with
    | (Ok a, w') => (Ok a, w')
    | (Raise e, w') => h e w'
    end.

Definition logging (l : level) (msg : message) : M unit :=
  fun w => (Ok tt, World (fs w) (java w) (walk w) (log w ++ [(l, msg)])).

(** [os.path.exists] of a file kept in [fs] *)
Definition os_path_exists (file_path : string) : M bool :=
  fun w => (Ok (bool_decide (is_Some (fs w !! file_path))), w).

(** [os.path.exists] of a source directory *)
Definition os_path_exists_dir (directory : string) : M bool :=
  fun w => (Ok (bool_decide (is_Some (walk w !! directory))), w).

(** [os.makedirs(d, exist_ok=True)]: the empty path cannot be made. *)
Definition os_makedirs (d : string) : M unit :=
  if Py.truthy d then ret tt else raise FileNotFoundError.

(** A path whose last component is empty (the path ends with a slash),
    [.] or [..] names a directory once its directory part has been made,
    as it is before every [open] for writing of [config_utils]. *)
Definition names_directory (file_path : string) : bool :=
  let name := Py.basename file_path in
  String.eqb name "" || String.eqb name "." || String.eqb name "..".

(** [with open(file_path, "w") as f: f.write(t)]: the empty path names
    no file, and a path that names a directory cannot be opened for
    writing; nothing is written then. *)
Definition write_text (file_path : string) (t : text) : M unit :=
  fun w =>
    if negb (Py.truthy file_path) then (Raise FileNotFoundError, w)
    else if names_directory file_path then (Raise IsADirectoryError, w)
    else (Ok tt, World (<[file_path := t]> (fs w)) (java w) (walk w) (log w)).

(** [with open(file_path, "r") as f: f.read()] *)
Definition read_text (file_path : string) : M text :=
  fun w =>
    match fs w !! file_path with
    | Some t => (Ok t, w)
    | None => (Raise FileNotFoundError, w)
    end.

(** [json.load(f)] *)
Definition json_load_text (t : text) : M json :=
  match json_load t with
  | Some v => ret v
  | None => raise JSONDecodeError
  end.

(** [javalang.parse.parse(open(file_path).read())] *)
Definition open_and_parse (file_path : string) : M tree :=
  fun w =>
    match java w !! file_path with
    | Some t => (Ok t, w)
    | None => (Raise JavaParseError, w)
    end.

(** [os.walk(directory)] *)
Definition os_walk (directory : string) : M (list (string * list string)) :=
  fun w => (Ok (default [] (walk w !! directory)), w).

End Effects.

Declare Scope py_scope.
Delimit Scope py_scope with py.
Notation "x <- m ;; k" := (bind m (fun x => k))
  (at level 100, m at next level, right associativity) : py_scope.
Notation "m ;;; k" := (bind m (fun _ => k))
  (at level 100, right associativity) : py_scope.

End Runtime.
Export Runtime.
Open Scope py_scope.

(* ===================================================================== *)
(** * utils/config_utils.py *)
(* ===================================================================== *)

Module ConfigUtils.
Section ConfigUtils.
Context `{JsonLib}.

(** The body of the [try] block of [load_from_file]. *)
Definition load_from_file_try (file_path : string) : M json :=
  present <- os_path_exists file_path ;;
  if negb present then
    logging WARNING (FileNotFoundCreating file_path) ;;;
    os_makedirs (Py.dirname file_path) ;;;
    write_text file_path (json_dump None (JDict [])) ;;;
    ret (JDict [])
  else
    t <- read_text file_path ;;
    json_load_text t.

(** The three [except] clauses log the same record and return [{}]. *)
Definition load_from_file (file_path : string) : M json :=
  try_except (load_from_file_try file_path)
    (fun e => logging ERROR (ErrorLoadingFile file_path e) ;;; ret (JDict [])).

Definition save_to_file (file_path : string) (data : json) : M unit :=
  os_makedirs (Py.dirname file_path) ;;;
  write_text file_path (json_dump (Some 4%nat) data).

End ConfigUtils.
End ConfigUtils.

(* ===================================================================== *)
(** * The index *)
(* ===================================================================== *)

(** The dictionaries [parse_java_file] builds, as records: the keys of
    [method_info], of [call_info], and of the per-file entry. *)
Module Index.

Record method_info : Type := MethodInfo {
  method_name : string;        (* "name" *)
  method_class : string;       (* "class" *)
  signature : string;
  return_type : string;
}.

Record call_info : Type := CallInfo {
  caller_class : string;
  caller_method : string;
  callee_class : string;
  callee_method : string;
  sequence : Z;
}.

Record file_data : Type := FileData {
  classes : list string;
  methods : list method_info;
  dependencies : list string;
  call_graph : list call_info;
  package : string;
}.

#[global] Instance method_info_eq_dec : EqDecision method_info.
Proof. solve_decision. Defined.
#[global] Instance call_info_eq_dec : EqDecision call_info.
Proof. solve_decision. Defined.
#[global] Instance file_data_eq_dec : EqDecision file_data.
Proof. solve_decision. Defined.

(** [index_data]: file path to entry. *)
Abbreviation index := (gmap string file_data).

(** ** The index as the JSON value that is saved and loaded *)

Definition json_of_method (m : method_info) : json :=
  JDict [("name", JStr (method_name m)); ("class", JStr (method_class m));
         ("signature", JStr (signature m)); ("return_type", JStr (return_type m))].

Definition json_of_call (c : call_info) : json :=
  JDict [("caller_class", JStr (caller_class c));
         ("caller_method", JStr (caller_method c));
         ("callee_class", JStr (callee_class c));
         ("callee_method", JStr (callee_method c));
         ("sequence", JInt (sequence c))].

Definition json_of_file_data (d : file_data) : json :=
  JDict [("classes", JList (JStr <$> classes d));
         ("methods", JList (json_of_method <$> methods d));
         ("dependencies", JList (JStr <$> dependencies d));
         ("call_graph", JList (json_of_call <$> call_graph d));
         ("package", JStr (package d))].

Definition json_of_index (i : index) : json :=
  JDict (prod_map id json_of_file_data <$> map_to_list i).

Definition str_of_json (v : json) : option string :=
  match v with JStr s => Some s | _ => None end.

Definition int_of_json (v : json) : option Z :=
  match v with JInt n => Some n | _ => None end.

Definition list_of_json {A} (f : json → option A) (v : json) : option (list A) :=
  match v with JList l => mapM f l | _ => None end.

Definition field {A} (f : json → option A) (key : string) (v : json) : option A :=
  match v with
  | JDict d => assoc key d ≫= f
  | _ => None
  end.

Definition method_of_json (v : json) : option method_info :=
  n ← field str_of_json "name" v;
  c ← field str_of_json "class" v;
  s ← field str_of_json "signature" v;
  r ← field str_of_json "return_type" v;
  Some (MethodInfo n c s r).

Definition call_of_json (v : json) : option call_info :=
  a ← field str_of_json "caller_class" v;
  b ← field str_of_json "caller_method" v;
  c ← field str_of_json "callee_class" v;
  d ← field str_of_json "callee_method" v;
  n ← field int_of_json "sequence" v;
  Some (CallInfo a b c d n).

Definition file_data_of_json (v : json) : option file_data :=
  cs ← field (list_of_json str_of_json) "classes" v;
  ms ← field (list_of_json method_of_json) "methods" v;
  ds ← field (list_of_json str_of_json) "dependencies" v;
  cg ← field (list_of_json call_of_json) "call_graph" v;
  p ← field str_of_json "package" v;
  Some (FileData cs ms ds cg p).

(** A loaded snapshot read as an index; [None] when it does not have the
    shape [parse_java_file] writes. *)
Definition index_of_json (v : json) : option index :=
  match v with
  | JDict d =>
      list_to_map <$> mapM (fun kv => pair kv.1 <$> file_data_of_json kv.2) d
  | _ => None
  end.

End Index.
Export Index.

(* ===================================================================== *)
(** * utils/parse_java.py *)
(* ===================================================================== *)

Module ParseJava.

Definition INDEX_DIR : string := "code_index".
Definition INDEX_JSON : string := Py.path_join INDEX_DIR "index.json".

(** The entry created for a path that is not yet indexed. *)
Definition empty_entry : file_data := FileData [] [] [] [] "".

(** ** The three loops over the tree, on the entry [parsed_data] *)

(** First loop: the first [PackageDeclaration] sets ["package"]. *)
Fixpoint extract_package (t : tree) (parsed_data : file_data) : file_data :=
  match t with
  | [] => parsed_data
  | (_, PackageDeclaration name) :: _ =>
      FileData (classes parsed_data) (methods parsed_data)
               (dependencies parsed_data) (call_graph parsed_data) name
  | _ :: rest => extract_package rest parsed_data
  end.

(** [for p in path: if isinstance(p, ClassDeclaration): ...; break] *)
Fixpoint parent_class_of (path : list node) : option string :=
  match path with
  | [] => None
  | ClassDeclaration name :: _ => Some name
  | _ :: rest => parent_class_of rest
  end.

Definition method_signature (name : string) (parameters : list string) : string :=
  name +:+ "(" +:+ Py.join ", " parameters +:+ ")".

(** Second loop, one iteration. *)
Definition extract_class_or_method (parsed_data : file_data)
    (item : list node * node) : file_data :=
  match item.2 with
  | ClassDeclaration name =>
      FileData (classes parsed_data ++ [name]) (methods parsed_data)
               (dependencies parsed_data) (call_graph parsed_data)
               (package parsed_data)
  | MethodDeclaration name parameters ret =>
      let parent_class := parent_class_of item.1 in
      if Py.truthy_opt parent_class then
        let method_info :=
          MethodInfo name (default "" parent_class)
                     (method_signature name parameters)
                     (default "void" ret) in
        FileData (classes parsed_data) (methods parsed_data ++ [method_info])
                 (dependencies parsed_data) (call_graph parsed_data)
                 (package parsed_data)
      else parsed_data
  | _ => parsed_data
  end.

(** [for p in reversed(path)]: the enclosing class and method, the walk
    stopping as soon as both are known. *)
Fixpoint caller_context (rpath : list node)
    (caller_class caller_method : option string) : option string * option string :=
  match rpath with
  | [] => (caller_class, caller_method)
  | p :: rest =>
      let '(caller_class, caller_method) :=
        match p with
        | ClassDeclaration name => (Some name, caller_method)
        | MethodDeclaration name _ _ => (caller_class, Some name)
        | _ => (caller_class, caller_method)
        end in
      if Py.truthy_opt caller_class && Py.truthy_opt caller_method
      then (caller_class, caller_method)
      else caller_context rest caller_class caller_method
  end.

(** Third loop, one iteration. *)
Definition extract_dependency_or_call (file_path : string)
    (parsed_data : file_data) (item : list node * node) : file_data :=
  match item.2 with
  | Import full_import =>
      if Py.startswith full_import "java." then parsed_data
      else
        FileData (classes parsed_data) (methods parsed_data)
                 (dependencies parsed_data ++ [full_import])
                 (call_graph parsed_data) (package parsed_data)
  | MethodInvocation qualifier member =>
      let '(found_class, found_method) :=
        caller_context (rev item.1) None None in
      let caller_class :=
        if negb (Py.truthy_opt found_class)
        then Py.replace (Py.basename file_path) ".java" ""
        else default "" found_class in
      let caller_method :=
        if negb (Py.truthy_opt found_method) then "unknown"
        else default "" found_method in
      let callee_class :=
        if Py.truthy qualifier then qualifier else caller_class in
      let callee_method := member in
      let call_info :=
        CallInfo caller_class caller_method callee_class callee_method
                 (Z.of_nat (length (call_graph parsed_data)) + 1) in
      FileData (classes parsed_data) (methods parsed_data)
               (dependencies parsed_data)
               (call_graph parsed_data ++ [call_info]) (package parsed_data)
  | _ => parsed_data
  end.

(** Everything after the [try] block, on the tree of the file. *)
Definition index_tree (file_path : string) (t : tree) (index_data : index) : index :=
  let index_data :=
    match index_data !! file_path with
    | None => <[file_path := empty_entry]> index_data
    | Some _ => index_data
    end in
  let parsed_data := default empty_entry (index_data !! file_path) in
  let parsed_data := extract_package t parsed_data in
  let parsed_data := foldl extract_class_or_method parsed_data t in
  let parsed_data := foldl (extract_dependency_or_call file_path) parsed_data t in
  <[file_path := parsed_data]> index_data.

(** What the three loops make of the tree of a file in a fresh entry:
    the entry of a path indexed for the first time. *)
Definition contribution (file_path : string) (t : tree) : file_data :=
  foldl (extract_dependency_or_call file_path)
        (foldl extract_class_or_method (extract_package t empty_entry) t) t.

(** Calls numbered on from [offset]. *)
Definition shift_sequence (offset : nat) (calls : list call_info) : list call_info :=
  (fun c => CallInfo (caller_class c) (caller_method c) (callee_class c)
                     (callee_method c) (sequence c + Z.of_nat offset)) <$> calls.

(** The entry [e] with the lists of [d] appended to its own, the calls of
    [d] numbered on from those of [e]. *)
Definition append_entry (e d : file_data) : file_data :=
  FileData (classes e ++ classes d) (methods e ++ methods d)
           (dependencies e ++ dependencies d)
           (call_graph e ++ shift_sequence (length (call_graph e)) (call_graph d))
           (package e).

Section ParseJava.
Context `{JsonLib}.

(** [index_data] is the dictionary shared by all calls; the updated
    dictionary is returned. *)
Definition parse_java_file (file_path repo_path : string)
    (index_data : index) : M index :=
  logging INFO (ParsingJavaFile file_path) ;;;
  parsed <- try_except (t <- open_and_parse file_path ;; ret (Some t))
              (fun e => logging ERROR (ErrorParsing file_path e) ;;; ret None) ;;
  match parsed with
  | None => ret index_data
  | Some t => ret (index_tree file_path t index_data)
  end.

End ParseJava.
End ParseJava.

(* ===================================================================== *)
(** * impactanalysis.py *)
(* ===================================================================== *)

Module ImpactAnalysis.
Import ConfigUtils ParseJava.

(** [[os.path.join(root, file) for root, _, files in os.walk(directory)
      for file in files if file.endswith(".java")]] *)
Definition java_files_of (walked : list (string * list string)) : list string :=
  walked ≫= (fun entry =>
    Py.path_join entry.1 <$> filter (fun file => Py.endswith file ".java" = true) entry.2).

(** The index after the tasks of [completed] have run on [index_data]:
    a file that parses is indexed, the others leave the index alone. *)
Definition index_after (java : gmap string tree) (index_data : index)
    (completed : list string) : index :=
  foldl (fun i f => match java !! f with
                    | Some t => index_tree f t i
                    | None => i
                    end) index_data completed.

(** The records one task adds to the log. *)
Definition task_log (java : gmap string tree) (f : string) : list (level * message) :=
  (INFO, ParsingJavaFile f)
  :: match java !! f with
     | Some _ => []
     | None => [(ERROR, ErrorParsing f JavaParseError)]
     end.

(** The records of level ERROR among [records]. *)
Definition error_records (records : list (level * message)) : list (level * message) :=
  filter (fun r => r.1 = ERROR) records.

Section ImpactAnalysis.
Context `{JsonLib}.

(** One future: the task, and the [try/except] around
    [future.result()] that files an escaping exception under the path
    of the task. *)
Definition run_task (directory : string)
    (state : index * list (string * exn)) (f : string)
    : M (index * list (string * exn)) :=
  try_except
    (index_data <- parse_java_file f directory state.1 ;;
     ret (index_data, state.2))
    (fun e => ret (state.1, state.2 ++ [(f, e)])).

(** The pool.  Each task works on the entry of its own path, so the
    tasks are taken to run one after the other, in the order
    [completed] in which [as_completed] yields them. *)
Fixpoint run_tasks (directory : string) (completed : list string)
    (state : index * list (string * exn)) : M (index * list (string * exn)) :=
  match completed with
  | [] => ret state
  | f :: rest =>
      state <- run_task directory state f ;;
      run_tasks directory rest state
  end.

(** [for file, error in errors: logging.error(...)] *)
Fixpoint log_errors (errors : list (string * exn)) : M unit :=
  match errors with
  | [] => ret tt
  | (file, error) :: rest =>
      logging ERROR (FileError file error) ;;; log_errors rest
  end.

(** [scan_directory_incremental(directory)].  The Python function
    returns nothing; the model returns the final values of its locals
    [index_data] and [errors], or [None] where the function returns
    early.  [schedule] maps the submitted [java_files] to the order in
    which the tasks complete.  The tasks work on an index of records; a
    snapshot that holds JSON of another shape (none is written by
    [save_to_file] here) is not followed further and ends the model with
    [SnapshotShapeError]. *)
Definition scan_directory_incremental
    (schedule : list string → list string) (directory : string)
    : M (option (index * list (string * exn))) :=
  present <- os_path_exists_dir directory ;;
  if negb present then
    logging ERROR (DirectoryDoesNotExist directory) ;;; ret None
  else
    loaded <- load_from_file INDEX_JSON ;;
    walked <- os_walk directory ;;
    let java_files := java_files_of walked in
    match java_files with
    | [] => logging WARNING (NoJavaFilesFound directory) ;;; ret None
    | _ =>
        logging INFO (FoundJavaFiles (length java_files) directory) ;;;
        match index_of_json loaded with
        | None => raise SnapshotShapeError
        | Some index_data =>
            state <- run_tasks directory (schedule java_files) (index_data, []) ;;
            (match state.2 with
             | [] => ret tt
             | _ => logging ERROR (ErrorsOccurred (length state.2)) ;;;
                    log_errors state.2
             end) ;;;
            save_to_file INDEX_JSON (json_of_index state.1) ;;;
            ret (Some state)
        end
    end.

End ImpactAnalysis.
End ImpactAnalysis.

(* ===================================================================== *)
(** * diagrams/generate_class_diagram.py *)
(* ===================================================================== *)

Module ClassDiagram.
Import ConfigUtils.

(** The dictionary [relationships]: one set of [(source, target)] pairs
    per kind. *)
Record relationships : Type := Relationships {
  inheritance : gset (string * string);
  composition : gset (string * string);
  aggregation : gset (string * string);
  association : gset (string * string);
}.

Inductive edge_kind : Type :=
| InheritanceEdge     (* arrowhead "onormal" *)
| CompositionEdge     (* arrowhead "diamond" *)
| AggregationEdge     (* arrowhead "odiamond" *)
| AssociationEdge.    (* arrowhead "vee", dashed *)

Record edge : Type := Edge {
  edge_kind_of : edge_kind;
  edge_source : string;
  edge_target : string;
}.

(** The graph handed to the renderer: node names and edges, in the order
    of the [add_node] and [add_edge] calls; styling is left out. *)
Record graph : Type := Graph {
  graph_nodes : list string;
  graph_edges : list edge;
}.

#[global] Instance edge_kind_eq_dec : EqDecision edge_kind.
Proof. solve_decision. Defined.
#[global] Instance edge_eq_dec : EqDecision edge.
Proof. solve_decision. Defined.

Definition excluded_patterns : list string :=
  ["java."; "javax."; "org.springframework";
   "junit"; "org.junit"; "org.assertj"; "org.mockito";
   "org.slf4j"; "lombok"; "android."; "com.google.common"].

Definition full_class_name_of (package_name class_name : string) : string :=
  if Py.truthy package_name then package_name +:+ "." +:+ class_name
  else class_name.

(** [if "." not in name and package_name: name = f"{package_name}.{name}"] *)
Definition qualify (package_name name : string) : string :=
  if negb (Py.contains "." name) && Py.truthy package_name
  then package_name +:+ "." +:+ name
  else name.

(** ** First pass: nodes and inheritance *)

(** "Track inheritance relationships", for a given [parent_class]. *)
Definition track_parent (package_name full_class_name parent_class : string)
    (r : relationships) : relationships :=
  if Py.truthy parent_class
     && negb (Py.str_in parent_class ["Object"; "java.lang.Object"])
  then
    let parent_class := qualify package_name parent_class in
    Relationships ({[ (full_class_name, parent_class) ]} ∪ inheritance r)
                  (composition r) (aggregation r) (association r)
  else r.

(** "Track interface implementations", one iteration. *)
Definition track_interface (package_name full_class_name : string)
    (r : relationships) (interface : string) : relationships :=
  let interface := qualify package_name interface in
  Relationships ({[ (full_class_name, interface) ]} ∪ inheritance r)
                (composition r) (aggregation r) (association r).

Record first_pass_state : Type := FirstPass {
  nodes : list string;
  processed_classes : gset string;
  tracked : relationships;
}.

(** The body of the inner loop of the first pass.  The parent class and
    the implemented interfaces are the placeholders of the source: the
    empty string and the empty list. *)
Definition first_pass_class (package_name : string)
    (st : first_pass_state) (class_info : string) : first_pass_state :=
  let class_name := class_info in
  if negb (Py.truthy class_name) then st
  else
    let full_class_name := full_class_name_of package_name class_name in
    if bool_decide (full_class_name ∈ processed_classes st)
       || Py.startswith_any full_class_name excluded_patterns
    then st
    else
      let processed := {[ full_class_name ]} ∪ processed_classes st in
      let graph_nodes := nodes st ++ [full_class_name] in
      let parent_class := "" in
      let r := track_parent package_name full_class_name parent_class (tracked st) in
      let r := foldl (track_interface package_name full_class_name) r [] in
      FirstPass graph_nodes processed r.

Definition first_pass_file (st : first_pass_state)
    (item : string * file_data) : first_pass_state :=
  foldl (first_pass_class (package item.2)) st (classes item.2).

(** ** Second pass: field relationships *)

Definition primitive_types : list string :=
  ["int"; "long"; "boolean"; "String"; "double"; "float"].

Definition boxed_types : list string :=
  ["String"; "Integer"; "Long"; "Boolean"].

Definition collection_prefixes : list string :=
  ["List<"; "Set<"; "Map<"; "Collection<"].

(** The body of the loop over the attributes, for a field of declared
    type [attr_type] that is final or not. *)
Definition track_field (package_name full_class_name attr_type : string)
    (is_final : bool) (r : relationships) : relationships :=
  if negb (Py.truthy attr_type)
     || Py.str_in attr_type primitive_types
     || Py.startswith_any attr_type excluded_patterns
  then r
  else
    let attr_type := qualify package_name attr_type in
    let is_collection := Py.startswith_any attr_type collection_prefixes in
    let collection_type :=
      if is_collection then qualify package_name <$> Py.search_angle attr_type
      else None in
    if is_collection && Py.truthy_opt collection_type then
      let collection_type := default "" collection_type in
      if negb (String.eqb full_class_name collection_type)
         && negb (Py.str_in collection_type boxed_types)
      then Relationships (inheritance r) (composition r)
             ({[ (full_class_name, collection_type) ]} ∪ aggregation r)
             (association r)
      else r
    else if Py.endswith attr_type "[]" then
      let base_type := qualify package_name (Py.drop_end 2 attr_type) in
      if negb (String.eqb full_class_name base_type)
         && negb (Py.str_in base_type boxed_types)
      then Relationships (inheritance r) (composition r)
             ({[ (full_class_name, base_type) ]} ∪ aggregation r)
             (association r)
      else r
    else if is_final then
      if negb (String.eqb full_class_name attr_type)
      then Relationships (inheritance r)
             ({[ (full_class_name, attr_type) ]} ∪ composition r)
             (aggregation r) (association r)
      else r
    else
      if negb (String.eqb full_class_name attr_type)
      then Relationships (inheritance r) (composition r) (aggregation r)
             ({[ (full_class_name, attr_type) ]} ∪ association r)
      else r.

(** The body of the inner loop of the second pass.  The attribute list,
    the attribute type and the final flag are the placeholders of the
    source: [[]], ["String"] and [False]. *)
Definition second_pass_class (package_name : string)
    (r : relationships) (class_info : string) : relationships :=
  let class_name := class_info in
  if negb (Py.truthy class_name) then r
  else
    let full_class_name := full_class_name_of package_name class_name in
    if Py.startswith_any full_class_name excluded_patterns then r
    else
      foldl (fun r (attr : string) =>
               let attr_type := "String" in
               let is_final := false in
               track_field package_name full_class_name attr_type is_final r)
            r [].

Definition second_pass_file (r : relationships)
    (item : string * file_data) : relationships :=
  foldl (second_pass_class (package item.2)) r (classes item.2).

(** ** Edges *)

Definition both_processed (processed : gset string) (p : string * string) : bool :=
  bool_decide (p.1 ∈ processed) && bool_decide (p.2 ∈ processed).

(** The loops over the inheritance, composition and aggregation sets. *)
Definition add_edges (processed : gset string) (k : edge_kind)
    (pairs : list (string * string)) : list edge :=
  (fun p => Edge k p.1 p.2) <$> filter (fun p => both_processed processed p = true) pairs.

Definition max_associations : nat := 30.

(** The loop over the association set, [association_count] counting the
    edges added so far. *)
Fixpoint add_association_edges (processed : gset string) (max_associations : nat)
    (association_count : nat) (pairs : list (string * string)) : list edge :=
  match pairs with
  | [] => []
  | p :: rest =>
      if (max_associations <=? association_count)%nat then []
      else if both_processed processed p
      then Edge AssociationEdge p.1 p.2
           :: add_association_edges processed max_associations (S association_count) rest
      else add_association_edges processed max_associations association_count rest
  end.

Definition empty_relationships : relationships := Relationships ∅ ∅ ∅ ∅.

(** The relationship sets after both passes over [index_data.items()]. *)
Definition classify (index_data : index) : first_pass_state :=
  let st := foldl first_pass_file (FirstPass [] ∅ empty_relationships)
                  (map_to_list index_data) in
  FirstPass (nodes st) (processed_classes st)
            (foldl second_pass_file (tracked st) (map_to_list index_data)).

(** The graph built from a non-empty index.  A Python set is iterated in
    an order of its own; [elements] fixes one. *)
Definition class_graph (index_data : index) : graph :=
  let st := classify index_data in
  let processed := processed_classes st in
  let r := tracked st in
  Graph (nodes st ++ ["legend"])
        (add_edges processed InheritanceEdge (elements (inheritance r))
         ++ add_edges processed CompositionEdge (elements (composition r))
         ++ add_edges processed AggregationEdge (elements (aggregation r))
         ++ add_association_edges processed max_associations 0
              (elements (association r))).

Section ClassDiagram.
Context `{JsonLib}.

(** [generate_class_diagram(index_dir, index_json)], up to the call of
    the renderer; the graph is returned, [None] when the diagram is
    skipped.  As in [scan_directory_incremental], a loaded value that is
    no index of records is not followed further. *)
Definition generate_class_diagram (index_dir index_json : string)
    : M (option graph) :=
  logging INFO (StartingDiagram "class") ;;;
  loaded <- load_from_file index_json ;;
  if falsy loaded then
    logging WARNING (NoDataSkipping "class") ;;; ret None
  else
    match index_of_json loaded with
    | None => raise SnapshotShapeError
    | Some index_data => ret (Some (class_graph index_data))
    end.

End ClassDiagram.
End ClassDiagram.

(* ===================================================================== *)
(** * diagrams/generate_diagrams.py: [generate_sequence_diagram] *)
(* ===================================================================== *)

Module SequenceDiagram.
Import ConfigUtils ParseJava.

Definition excluded_patterns : list string :=
  ["java."; "javax."; "org.springframework"; "junit";
   "org.junit"; "org.assertj"; "org.mockito"; "org.slf4j";
   "lombok"; "android."; "com.google.common"].

Definition utility_methods : list string :=
  ["save"; "print"; "ifPresent"; "orElse"; "forEach"; "map";
   "equals"; "toString"; "hashCode"; "get"; "set"; "is";
   "build"; "of"; "from"; "clone"; "compareTo"; "builder";
   "add"; "remove"; "clear"; "put"; "create"; "find"].

(** The dictionary appended to [calls_by_relation[relation]]. *)
Record call_label : Type := CallLabel {
  label_caller_method : string;
  label_callee_method : string;
}.

#[global] Instance call_label_eq_dec : EqDecision call_label.
Proof. solve_decision. Defined.

Record first_pass_state : Type := FirstPass {
  participants : gset string;
  calls_by_relation : gmap (string * string) (list call_label);
}.

(** "Skip standard library and utility method calls" *)
Definition is_noise (call : call_info) : bool :=
  Py.startswith_any (caller_class call) excluded_patterns
  || Py.startswith_any (callee_class call) excluded_patterns
  || Py.str_in (Py.lower (callee_method call)) utility_methods
  || Py.str_in (Py.lower (caller_method call)) utility_methods.

(** "Skip self-references to getter/setter/common methods" *)
Definition is_trivial_self_call (call : call_info) : bool :=
  String.eqb (caller_class call) (callee_class call)
  && (Py.startswith_any (callee_method call) ["get"; "set"; "is"]
      || Py.str_in (callee_method call) utility_methods).

(** The body of the inner loop of the first pass. *)
Definition record_call (st : first_pass_state) (call : call_info) : first_pass_state :=
  if negb (Py.truthy (caller_class call) && Py.truthy (callee_class call)
           && Py.truthy (caller_method call) && Py.truthy (callee_method call))
  then st
  else if is_noise call then st
  else if is_trivial_self_call call then st
  else
    let relation := (caller_class call, callee_class call) in
    let participants :=
      {[ callee_class call ]} ∪ ({[ caller_class call ]} ∪ participants st) in
    let calls := default [] (calls_by_relation st !! relation) in
    FirstPass participants
      (<[relation := calls ++ [CallLabel (caller_method call) (callee_method call)]]>
         (calls_by_relation st)).

Definition record_file (st : first_pass_state) (file_data : file_data)
    : first_pass_state :=
  foldl record_call st (call_graph file_data).

(** The first pass over [index_data.values()]. *)
Definition first_pass (index_data : index) : first_pass_state :=
  foldl record_file (FirstPass ∅ ∅) (map_to_list index_data).*2.

(** [calls[:min(3, len(calls))]] *)
Definition important_calls (calls : list call_label) : list call_label :=
  take (min 3 (length calls)) calls.

(** The label of the edge of a class pair. *)
Definition edge_label (calls : list call_label) : string :=
  match important_calls calls with
  | [c] => label_caller_method c +:+ " -> " +:+ label_callee_method c
  | _ => pretty (length calls) +:+ " calls"
  end.

Record edge : Type := Edge {
  edge_caller : string;
  edge_callee : string;
  label : string;
}.

(** The loop over [calls_by_relation.items()], one iteration. *)
Definition add_edge (edges : list edge)
    (item : (string * string) * list call_label) : list edge :=
  let '((caller, callee), calls) := item in
  if String.eqb caller callee then edges
  else edges ++ [Edge caller callee (edge_label calls)].

(** The graph handed to the renderer: for each participant in sorted
    order its name and displayed simple name, and the labelled edges. *)
Record graph : Type := Graph {
  graph_nodes : list (string * string);
  graph_edges : list edge;
}.

Definition sequence_graph (index_data : index) : graph :=
  let st := first_pass index_data in
  Graph ((fun participant => (participant, Py.after_last "." "" participant))
           <$> merge_sort (fun a b : string => String.leb a b)
                          (elements (participants st)))
        (foldl add_edge [] (map_to_list (calls_by_relation st))).

Section SequenceDiagram.
Context `{JsonLib}.

(** [generate_sequence_diagram()], up to the call of the renderer. *)
Definition generate_sequence_diagram : M (option graph) :=
  logging INFO (StartingDiagram "sequence") ;;;
  loaded <- load_from_file INDEX_JSON ;;
  if falsy loaded then
    logging WARNING (NoDataSkipping "sequence") ;;; ret None
  else
    match index_of_json loaded with
    | None => raise SnapshotShapeError
    | Some index_data => ret (Some (sequence_graph index_data))
    end.

End SequenceDiagram.
End SequenceDiagram.

(* ===================================================================== *)
(** * A library instance to run the definitions *)
(* ===================================================================== *)

(** The file holds the dumped value itself, or [None] for contents that
    are not JSON; [json.load] of a dumped value gives the value back. *)
Definition value_codec : JsonLib :=
  {| text := option json;
     json_dump := fun _ v => Some v;
     json_load := fun t => t |}.

(* ===================================================================== *)
(** * Notions used to state the facts *)
(* ===================================================================== *)

(** A relationship record without an edge from a class to itself. *)
Definition no_self_edge (r : ClassDiagram.relationships) : Prop :=
  ∀ X : string,
    ((X, X) ∉ ClassDiagram.inheritance r) ∧ ((X, X) ∉ ClassDiagram.composition r)
    ∧ ((X, X) ∉ ClassDiagram.aggregation r) ∧ ((X, X) ∉ ClassDiagram.association r).

(** An entry without the calls made from a method whose lowercased name is
    in the utility set. *)
Definition without_utility_callers (d : file_data) : file_data :=
  FileData (classes d) (methods d) (dependencies d)
    (filter (fun call =>
               Py.str_in (Py.lower (caller_method call))
                         SequenceDiagram.utility_methods = false)
            (call_graph d))
    (package d).

(** Every label kept for a class pair comes from a call whose caller and
    callee method passed the utility test. *)
Definition labels_pass (st : SequenceDiagram.first_pass_state) : Prop :=
  ∀ relation calls c,
    SequenceDiagram.calls_by_relation st !! relation = Some calls → c ∈ calls →
    Py.str_in (Py.lower (SequenceDiagram.label_caller_method c))
              SequenceDiagram.utility_methods = false
    ∧ Py.str_in (Py.lower (SequenceDiagram.label_callee_method c))
                SequenceDiagram.utility_methods = false.

(* ===================================================================== *)
(** * Scenarios *)
(* ===================================================================== *)

(** An empty file system, and one whose snapshot is not JSON. *)
Definition empty_world : @world value_codec := @World value_codec ∅ ∅ ∅ [].

Definition corrupt_snapshot_world : @world value_codec :=
  @World value_codec {[ ParseJava.INDEX_JSON := None ]} ∅ ∅ [].

(** Ten Java files in a directory ["repo"], next to a file that is not
    Java; all but the fourth open and parse. *)
Definition ten_files : list string :=
  ["F1.java"; "F2.java"; "F3.java"; "F4.java"; "F5.java";
   "F6.java"; "F7.java"; "F8.java"; "F9.java"; "F10.java"].

Definition class_tree (name : string) : tree :=
  [([], PackageDeclaration "app"); ([], ClassDeclaration name)].

Definition ten_files_world : @world value_codec :=
  @World value_codec ∅
    (list_to_map ((fun f => (Py.path_join "repo" f,
                             class_tree (Py.replace f ".java" "")))
                    <$> filter (fun f => f ≠ "F4.java") ten_files))
    {[ "repo" := [("repo", ten_files ++ ["README.md"])] ]}
    [].

(** The two files of the order scenario.  The field declarations of
    [Order] are nodes the indexer does not look at. *)
Definition order_tree : tree :=
  [([], PackageDeclaration "app"); ([], ClassDeclaration "Order");
   ([ClassDeclaration "Order"], OtherNode);     (* Customer customer; *)
   ([ClassDeclaration "Order"], OtherNode);     (* final OrderId id; *)
   ([ClassDeclaration "Order"], OtherNode)].    (* List<Item> items; *)

Definition customer_tree : tree :=
  [([], PackageDeclaration "app"); ([], ClassDeclaration "Customer")].

Definition order_index : index :=
  ParseJava.index_tree "Customer.java" customer_tree
    (ParseJava.index_tree "Order.java" order_tree ∅).

(** [class Base] and [class Derived extends Base implements Flag]; the
    [extends] and [implements] clauses are attributes of the class node
    that the indexer does not read. *)
Definition base_derived_index : index :=
  ParseJava.index_tree "Derived.java" [([], ClassDeclaration "Derived")]
    (ParseJava.index_tree "Base.java" [([], ClassDeclaration "Base")] ∅).

(** Five calls from [Shop] to [Stock], one of them made from a method
    named [Save], and one call from [Shop] to [Bank]. *)
Definition shop_index : index :=
  {[ "Shop.java" :=
       FileData ["Shop"] [] []
         [CallInfo "Shop" "checkout" "Stock" "reserve" 1;
          CallInfo "Shop" "checkout" "Stock" "release" 2;
          CallInfo "Shop" "Save" "Stock" "flush" 3;
          CallInfo "Shop" "refund" "Stock" "restock" 4;
          CallInfo "Shop" "checkout" "Stock" "count" 5;
          CallInfo "Shop" "checkout" "Bank" "charge" 6]
         "app" ]}.

(** Two calls from [Shop] to [Bank]. *)
Definition two_calls_index : index :=
  {[ "Shop.java" :=
       FileData ["Shop"] [] []
         [CallInfo "Shop" "checkout" "Bank" "charge" 1;
          CallInfo "Shop" "refund" "Bank" "credit" 2]
         "app" ]}.

(** The calls of an entry are numbered by their place: the first is
    call 1, the next call 2, and so on. *)
Definition well_numbered (calls : list call_info) : Prop :=
  ∀ k c, calls !! k = Some c → sequence c = (Z.of_nat k + 1)%Z.

(** The names of the class declarations of a tree, and the paths of its
    imports, in the order of the traversal. *)
Definition tree_classes (t : tree) : list string :=
  omap (fun item : list node * node =>
          match item.2 with ClassDeclaration name => Some name | _ => None end) t.

Definition tree_imports (t : tree) : list string :=
  omap (fun item : list node * node =>
          match item.2 with Import path => Some path | _ => None end) t.

(** A call with a class on both sides and a caller method. *)
Definition call_complete (c : call_info) : Prop :=
  Py.truthy (caller_class c) = true ∧ Py.truthy (caller_method c) = true
  ∧ Py.truthy (callee_class c) = true.

(** A method with a class, whose signature is made of its name. *)
Definition method_complete (m : method_info) : Prop :=
  Py.truthy (method_class m) = true
  ∧ ∃ parameters, signature m = ParseJava.method_signature (method_name m) parameters.

(** A directory with one Java file next to a snapshot that holds the
    index of the order scenario; and a directory without Java files. *)
Definition rescan_world : @world value_codec :=
  @World value_codec
    {[ ParseJava.INDEX_JSON := Some (json_of_index order_index) ]}
    {[ "repo/Invoice.java" := class_tree "Invoice" ]}
    {[ "repo" := [("repo", ["Invoice.java"; "notes.txt"])] ]}
    [].

Definition no_java_world : @world value_codec :=
  @World value_codec ∅ ∅ {[ "docs" := [("docs", ["README.md"])] ]} [].



(** The classes of an index that get a node in the class diagram: those
    with a name, whose full name starts with none of the excluded
    patterns. *)
Definition drawn_class (index_data : index) (full_class_name : string) : Prop :=
  ∃ file_path data class_name,
    index_data !! file_path = Some data
    ∧ class_name ∈ classes data
    ∧ Py.truthy class_name = true
    ∧ full_class_name = ClassDiagram.full_class_name_of (package data) class_name
    ∧ Py.startswith_any full_class_name ClassDiagram.excluded_patterns = false.

(** The class pair of an edge of the sequence diagram. *)
Definition edge_pair (e : SequenceDiagram.edge) : string * string :=
  (SequenceDiagram.edge_caller e, SequenceDiagram.edge_callee e).

(** The entries of the utility set that are their own lowercase form. *)
Definition lowercase_utility_methods : list string :=
  filter (fun u => Py.lower u = u) SequenceDiagram.utility_methods.

(* ===================================================================== *)
(** * Splitting a dotted name *)
(* ===================================================================== *)

Module PySplit.

(** [".".join(s.split(".")[:-1])]: the part of [s] before its last dot,
    empty when [s] has no dot.  ([s.split(".")[-1]] is
    [Py.after_last "." "" s].) *)
Fixpoint before_last_dot (s : string) : string :=
  match s with
  | EmptyString => EmptyString
  | String c rest =>
      if Py.contains "." rest then String c (before_last_dot rest) else EmptyString
  end.

End PySplit.

(* ===================================================================== *)
(** * diagrams/generate_diagrams.py: [generate_container_diagram] *)
(* ===================================================================== *)

(** The graph built once the index is loaded and found non-empty.  The
    entries of the index are records, so [data.get("package", "default")]
    is the package of the entry: the key is always there. *)
Module ContainerDiagram.

Definition excluded_dependencies : list string :=
  ["org.springframework"; "junit"; "org.junit"; "org.assertj"].

(** The loop that fills [containers], one iteration; the dictionary is
    kept as the list of its keys, in the order in which they were added. *)
Definition add_container (containers : list string)
    (item : string * file_data) : list string :=
  let package_name := package item.2 in
  if bool_decide (package_name ∈ containers) then containers
  else containers ++ [package_name].

(** The inner loop over the dependencies of a file, one iteration. *)
Definition add_dependency_edge (source_package : string)
    (edges : gset (string * string)) (dep : string) : gset (string * string) :=
  if Py.startswith_any dep excluded_dependencies then edges
  else if Py.contains "." dep then
    let target_package := PySplit.before_last_dot dep in
    if Py.truthy target_package && negb (String.eqb target_package source_package)
    then {[ (source_package, target_package) ]} ∪ edges
    else edges
  else edges.

Definition add_file_edges (edges : gset (string * string))
    (item : string * file_data) : gset (string * string) :=
  foldl (add_dependency_edge (package item.2)) edges (dependencies item.2).

(** Nodes with their label, and the edges, each labelled "depends on". *)
Record graph : Type := Graph {
  graph_nodes : list (string * string);
  graph_edges : list (string * string);
}.

Definition container_graph (index_data : index) : graph :=
  let containers := foldl add_container [] (map_to_list index_data) in
  let edges := foldl add_file_edges ∅ (map_to_list index_data) in
  Graph ((fun container_id => (container_id, container_id +:+ " (Package)")) <$> containers)
        (elements edges).

End ContainerDiagram.

(* ===================================================================== *)
(** * diagrams/generate_diagrams.py: [generate_component_diagram] *)
(* ===================================================================== *)

(** The graph built once the index is loaded and found non-empty, on an
    index of records as for the container diagram. *)
Module ComponentDiagram.

Definition excluded_patterns : list string :=
  ["java."; "javax."; "org.springframework"; "junit";
   "org.junit"; "org.assertj"; "org.mockito"; "org.slf4j";
   "lombok"; "android."; "com.google.common"].

(** An entry of the dictionary [packages]. *)
Record package_entry : Type := PackageEntry {
  package_files : list string;
  package_classes : list string;
  package_dependencies : gset string;
}.

(** [package_name = data.get("package", ""); if not package_name:
    package_name = "default"] *)
Definition package_name_of (data : file_data) : string :=
  if Py.truthy (package data) then package data else "default".

(** [if class_name not in ...["classes"]: ...["classes"].append(class_name)] *)
Definition add_class (class_list : list string) (class_name : string) : list string :=
  if bool_decide (class_name ∈ class_list) then class_list
  else class_list ++ [class_name].

(** The loop over the dependencies in the first pass, one iteration. *)
Definition add_dependency (package_name : string) (deps : gset string)
    (dep : string) : gset string :=
  if Py.startswith_any dep excluded_patterns then deps
  else if Py.truthy dep && negb (String.eqb dep package_name)
  then {[ dep ]} ∪ deps
  else deps.

(** The first pass, one file. *)
Definition add_file (packages : gmap string package_entry)
    (item : string * file_data) : gmap string package_entry :=
  let package_name := package_name_of item.2 in
  let entry := default (PackageEntry [] [] ∅) (packages !! package_name) in
  <[package_name :=
      PackageEntry (package_files entry ++ [item.1])
        (foldl add_class (package_classes entry) (classes item.2))
        (foldl (add_dependency package_name) (package_dependencies entry)
               (dependencies item.2))]> packages.

(** A cluster: its id and label, and its nodes with their label. *)
Record cluster : Type := Cluster {
  cluster_id : string;
  cluster_label : string;
  cluster_nodes : list (string * string);
}.

Definition component_id_of (package_name class_name : string) : string :=
  package_name +:+ "." +:+ class_name.

(** The second pass, one package: a cluster for a package with classes,
    and its classes registered in [components]. *)
Definition add_cluster (st : list cluster * gmap string string)
    (item : string * package_entry) : list cluster * gmap string string :=
  let package_name := item.1 in
  match package_classes item.2 with
  | [] => st
  | class_list =>
      let package_id := "cluster_" +:+ Py.replace package_name "." "_" in
      (st.1 ++ [Cluster package_id ("Package: " +:+ package_name)
                  ((fun class_name =>
                      (component_id_of package_name class_name,
                       "[Component]" +:+ String "010" class_name)) <$> class_list)],
       foldl (fun components class_name =>
                <[component_id_of package_name class_name := class_name]> components)
             st.2 class_list)
  end.

(** The id of the component a dependency points to. *)
Definition target_id_of (source_package dep : string) : string :=
  if Py.contains "." dep
  then component_id_of (PySplit.before_last_dot dep) (Py.after_last "." "" dep)
  else component_id_of source_package dep.

(** The innermost loop of the third pass, one iteration: the edges added
    so far, in order, and [edge_set]. *)
Definition add_edge (components : gmap string string) (source_package source_id : string)
    (st : list (string * string) * gset (string * string)) (dep : string)
    : list (string * string) * gset (string * string) :=
  if Py.startswith_any dep excluded_patterns then st
  else
    let target_id := target_id_of source_package dep in
    if bool_decide (source_id ∈ dom components)
       && bool_decide (target_id ∈ dom components)
       && negb (String.eqb source_id target_id)
       && negb (bool_decide ((source_id, target_id) ∈ st.2))
    then (st.1 ++ [(source_id, target_id)], {[ (source_id, target_id) ]} ∪ st.2)
    else st.

Definition add_class_edges (components : gmap string string) (data : file_data)
    (st : list (string * string) * gset (string * string)) (source_class : string)
    : list (string * string) * gset (string * string) :=
  foldl (add_edge components (package data) (component_id_of (package data) source_class))
        st (dependencies data).

(** The third pass, one file; a file without classes is skipped. *)
Definition add_file_edges (components : gmap string string)
    (st : list (string * string) * gset (string * string))
    (item : string * file_data) : list (string * string) * gset (string * string) :=
  match classes item.2 with
  | [] => st
  | class_list => foldl (add_class_edges components item.2) st class_list
  end.

(** The clusters, and the edges, each labelled "uses". *)
Record graph : Type := Graph {
  graph_clusters : list cluster;
  graph_edges : list (string * string);
}.

Definition packages_of (index_data : index) : gmap string package_entry :=
  foldl add_file ∅ (map_to_list index_data).

Definition clusters_of (index_data : index) : list cluster * gmap string string :=
  foldl add_cluster ([], ∅) (map_to_list (packages_of index_data)).

Definition component_graph (index_data : index) : graph :=
  let st := clusters_of index_data in
  Graph st.1 (foldl (add_file_edges st.2) ([], ∅) (map_to_list index_data)).1.

(** The ids of the nodes of a graph. *)
Definition node_ids (g : graph) : list string :=
  graph_clusters g ≫= fun c => (cluster_nodes c).*1.

End ComponentDiagram.

(** An index with two packages that import from each other and from a
    library. *)
Definition shop_packages_index : index :=
  {[ "shop/Shop.java" :=
       FileData ["Shop"] [] ["stock.Stock"; "org.slf4j.Logger"; "shop.Cart"] [] "shop";
     "stock/Stock.java" :=
       FileData ["Stock"] [] ["shop.Shop"; "Helper"] [] "stock" ]}.

(** The same with a file that declares no package. *)
Definition shop_main_index : index :=
  <[ "Main.java" := FileData ["Main"] [] ["shop.Shop"] [] "" ]> shop_packages_index.

(** An edge of the container diagram that comes from a dependency of a
    file among [items]. *)
Definition from_dependency (items : list (string * file_data)) (e : string * string) : Prop :=
  ∃ item dep,
    item ∈ items ∧ dep ∈ dependencies item.2
    ∧ e.1 = package item.2
    ∧ Py.startswith_any dep ContainerDiagram.excluded_dependencies = false
    ∧ Py.contains "." dep = true
    ∧ e.2 = PySplit.before_last_dot dep
    ∧ Py.truthy e.2 = true
    ∧ e.2 ≠ e.1.
(** What the first pass of the component diagram has gathered once the
    files [items] are processed: every package of a file has an entry, and
    an entry lists, once each, the classes of the files of its package. *)
Definition packages_gathered (items : list (string * file_data))
    (packages : gmap string ComponentDiagram.package_entry) : Prop :=
  (∀ item, item ∈ items →
      is_Some (packages !! ComponentDiagram.package_name_of item.2))
  ∧ ∀ p e, packages !! p = Some e →
      NoDup (ComponentDiagram.package_classes e)
      ∧ ∀ c, c ∈ ComponentDiagram.package_classes e
             ↔ ∃ item, item ∈ items
                 ∧ ComponentDiagram.package_name_of item.2 = p
                 ∧ c ∈ classes item.2.

(** The edge list and [edge_set] of the third pass agree. *)
Definition edges_tracked (st : list (string * string) * gset (string * string)) : Prop :=
  NoDup st.1 ∧ st.2 = list_to_set st.1.

(* ===================================================================== *)
(** * diagrams/generate_diagrams.py: [generate_diagram_from_index] *)
(* ===================================================================== *)

(** The graph built once the index is loaded and found non-empty, for the
    three functions that the caller passes.  The dictionary [packages],
    the clusters and the graph are those of the component diagram. *)
Module DiagramFromIndex.
Section Getters.
Variable get_package_name : file_data → string.
Variable get_classes : file_data → list string.
Variable get_dependencies : file_data → list string.

(** [package_name = get_package_name(data); if not package_name:
    package_name = "default"], and [get_package_name(data) or "default"]
    of the third pass. *)
Definition package_name_of (data : file_data) : string :=
  if Py.truthy (get_package_name data) then get_package_name data else "default".

Definition add_dependency (package_name : string) (deps : gset string)
    (dep : string) : gset string :=
  if Py.truthy dep && negb (String.eqb dep package_name)
  then {[ dep ]} ∪ deps
  else deps.

(** The first pass, one file; the classes are added with [extend]. *)
Definition add_file (packages : gmap string ComponentDiagram.package_entry)
    (item : string * file_data) : gmap string ComponentDiagram.package_entry :=
  let package_name := package_name_of item.2 in
  let entry := default (ComponentDiagram.PackageEntry [] [] ∅) (packages !! package_name) in
  <[package_name :=
      ComponentDiagram.PackageEntry
        (ComponentDiagram.package_files entry ++ [item.1])
        (ComponentDiagram.package_classes entry ++ get_classes item.2)
        (foldl (add_dependency package_name)
               (ComponentDiagram.package_dependencies entry)
               (get_dependencies item.2))]> packages.

(** The second pass, one package; a node is labelled by its class name. *)
Definition add_cluster (st : list ComponentDiagram.cluster * gmap string string)
    (item : string * ComponentDiagram.package_entry)
    : list ComponentDiagram.cluster * gmap string string :=
  let package_name := item.1 in
  match ComponentDiagram.package_classes item.2 with
  | [] => st
  | class_list =>
      let package_id := "cluster_" +:+ Py.replace package_name "." "_" in
      (st.1 ++ [ComponentDiagram.Cluster package_id ("Package: " +:+ package_name)
                  ((fun class_name =>
                      (ComponentDiagram.component_id_of package_name class_name,
                       class_name)) <$> class_list)],
       foldl (fun components class_name =>
                <[ComponentDiagram.component_id_of package_name class_name := class_name]>
                  components)
             st.2 class_list)
  end.

(** The id of the component a dependency points to. *)
Definition target_id_of (dep : string) : string :=
  if Py.contains "." dep
  then ComponentDiagram.component_id_of (PySplit.before_last_dot dep)
                                        (Py.after_last "." "" dep)
  else ComponentDiagram.component_id_of "default" dep.

(** The inner loop of the third pass, one iteration. *)
Definition add_edge (components : gmap string string) (source_id : string)
    (edges : list (string * string)) (dep : string) : list (string * string) :=
  if Py.truthy dep then
    let target_id := target_id_of dep in
    if bool_decide (source_id ∈ dom components)
       && bool_decide (target_id ∈ dom components)
    then edges ++ [(source_id, target_id)]
    else edges
  else edges.

(** The third pass, one file: a file without classes is skipped, and the
    source is the first class of the file. *)
Definition add_file_edges (components : gmap string string)
    (edges : list (string * string)) (item : string * file_data)
    : list (string * string) :=
  match get_classes item.2 with
  | [] => edges
  | source_class :: _ =>
      foldl (add_edge components
               (ComponentDiagram.component_id_of (package_name_of item.2) source_class))
            edges (get_dependencies item.2)
  end.

Definition packages_of (index_data : index) : gmap string ComponentDiagram.package_entry :=
  foldl add_file ∅ (map_to_list index_data).

Definition clusters_of (index_data : index)
    : list ComponentDiagram.cluster * gmap string string :=
  foldl add_cluster ([], ∅) (map_to_list (packages_of index_data)).

Definition diagram_graph (index_data : index) : ComponentDiagram.graph :=
  let st := clusters_of index_data in
  ComponentDiagram.Graph st.1
    (foldl (add_file_edges st.2) [] (map_to_list index_data)).

End Getters.
End DiagramFromIndex.

(* ===================================================================== *)
(** * diagrams/generate_diagrams.py: [generate_context_diagram] *)
(* ===================================================================== *)

Module ContextDiagram.

(** The three functions passed to [generate_diagram_from_index]. *)
Definition get_package_name (data : file_data) : string := package data.
Definition get_classes (data : file_data) : list string := classes data.
Definition get_dependencies (data : file_data) : list string :=
  PySplit.before_last_dot <$> dependencies data.

Definition context_graph (index_data : index) : ComponentDiagram.graph :=
  DiagramFromIndex.diagram_graph get_package_name get_classes get_dependencies index_data.

End ContextDiagram.

(* ===================================================================== *)
(** * diagrams/generate_diagrams.py: [generate_c4_diagram] *)
(* ===================================================================== *)

(** The graph built once the index is loaded and found non-empty.  The
    second pass is that of the component diagram. *)
Module C4Diagram.

Definition add_dependency (package_name : string) (deps : gset string)
    (dep : string) : gset string :=
  if Py.contains "." dep then
    let target_package := PySplit.before_last_dot dep in
    if Py.truthy target_package && negb (String.eqb target_package package_name)
    then {[ target_package ]} ∪ deps
    else deps
  else deps.

(** The first pass, one file; the classes are added with [extend]. *)
Definition add_file (packages : gmap string ComponentDiagram.package_entry)
    (item : string * file_data) : gmap string ComponentDiagram.package_entry :=
  let package_name := ComponentDiagram.package_name_of item.2 in
  let entry := default (ComponentDiagram.PackageEntry [] [] ∅) (packages !! package_name) in
  <[package_name :=
      ComponentDiagram.PackageEntry
        (ComponentDiagram.package_files entry ++ [item.1])
        (ComponentDiagram.package_classes entry ++ classes item.2)
        (foldl (add_dependency package_name)
               (ComponentDiagram.package_dependencies entry)
               (dependencies item.2))]> packages.

(** The inner loop of the third pass, one iteration. *)
Definition add_edge (components : gmap string string) (source_id : string)
    (edges : list (string * string)) (dep : string) : list (string * string) :=
  if Py.contains "." dep then
    let target_id :=
      ComponentDiagram.component_id_of (PySplit.before_last_dot dep)
                                       (Py.after_last "." "" dep) in
    if bool_decide (source_id ∈ dom components)
       && bool_decide (target_id ∈ dom components)
    then edges ++ [(source_id, target_id)]
    else edges
  else edges.

(** The third pass, one file: a file without classes is skipped, and the
    source is the first class of the file, qualified by the package as the
    file records it. *)
Definition add_file_edges (components : gmap string string)
    (edges : list (string * string)) (item : string * file_data)
    : list (string * string) :=
  match classes item.2 with
  | [] => edges
  | source_class :: _ =>
      foldl (add_edge components
               (ComponentDiagram.component_id_of (package item.2) source_class))
            edges (dependencies item.2)
  end.

Definition packages_of (index_data : index) : gmap string ComponentDiagram.package_entry :=
  foldl add_file ∅ (map_to_list index_data).

Definition clusters_of (index_data : index)
    : list ComponentDiagram.cluster * gmap string string :=
  foldl ComponentDiagram.add_cluster ([], ∅) (map_to_list (packages_of index_data)).

Definition c4_graph (index_data : index) : ComponentDiagram.graph :=
  let st := clusters_of index_data in
  ComponentDiagram.Graph st.1
    (foldl (add_file_edges st.2) [] (map_to_list index_data)).

End C4Diagram.

(** What a first pass that adds the classes of each file with [extend]
    has gathered once the files [items] are processed, for the package
    name [package_name_of] and the classes [get_classes] of a file. *)
Definition classes_gathered (package_name_of : file_data → string)
    (get_classes : file_data → list string)
    (items : list (string * file_data))
    (packages : gmap string ComponentDiagram.package_entry) : Prop :=
  (∀ item, item ∈ items → is_Some (packages !! package_name_of item.2))
  ∧ ∀ p e, packages !! p = Some e →
      ∀ c, c ∈ ComponentDiagram.package_classes e
           ↔ ∃ item, item ∈ items ∧ package_name_of item.2 = p ∧ c ∈ get_classes item.2.

(* ===================================================================== *)
(** * Facts: the effect monad *)
(* ===================================================================== *)

Section RuntimeFacts.
Context `{JsonLib}.

Lemma world_eta (w : world) : World (fs w) (java w) (walk w) (log w) = w.
Proof. by destruct w. Qed.

Lemma bind_ok {A B} (m : M A) (k : A → M B) w a w' :
  m w = (Ok a, w') → bind m k w = k a w'.
Proof. intros Hm. unfold bind. by rewrite Hm. Qed.

Lemma bind_raise {A B} (m : M A) (k : A → M B) w e w' :
  m w = (Raise e, w') → bind m k w = (Raise e, w').
Proof. intros Hm. unfold bind. by rewrite Hm. Qed.

Lemma try_except_ok {A} (m : M A) h w a w' :
  m w = (Ok a, w') → try_except m h w = (Ok a, w').
Proof. intros Hm. unfold try_except. by rewrite Hm. Qed.

Lemma try_except_raise {A} (m : M A) h w e w' :
  m w = (Raise e, w') → try_except m h w = h e w'.
Proof. intros Hm. unfold try_except. by rewrite Hm. Qed.

End RuntimeFacts.

(* ===================================================================== *)
(** * Facts: utils/config_utils.py *)
(* ===================================================================== *)

Section ConfigUtilsFacts.
Context `{JsonLib}.
Import ConfigUtils.

(** A path with a directory part is not empty. *)
Lemma dirname_truthy file_path :
  Py.truthy (Py.dirname file_path) = true → Py.truthy file_path = true.
Proof. by destruct file_path. Qed.

(** A missing file whose directory can be made and whose path names a
    file: a warning, the file is created holding [{}], and [{}] is
    returned. *)
Lemma load_from_file_missing w file_path :
  fs w !! file_path = None →
  names_directory file_path = false →
  Py.truthy (Py.dirname file_path) = true →
  load_from_file file_path w =
    (Ok (JDict []),
     World (<[file_path := json_dump None (JDict [])]> (fs w)) (java w) (walk w)
           (log w ++ [(WARNING, FileNotFoundCreating file_path)])).
Proof.
  intros Hfs Hfile Hdir.
  unfold load_from_file, load_from_file_try, try_except, bind,
    os_path_exists, os_makedirs, logging, write_text, ret.
  rewrite Hfs, Hdir, Hfile, (dirname_truthy _ Hdir). simpl. done.
Qed.

(** A missing path that names a directory: [open] raises inside the
    [try], the handler logs the error and [{}] is returned; no file is
    created. *)
Lemma load_from_file_missing_directory w file_path :
  fs w !! file_path = None →
  names_directory file_path = true →
  Py.truthy (Py.dirname file_path) = true →
  load_from_file file_path w =
    (Ok (JDict []),
     World (fs w) (java w) (walk w)
           (log w ++ [(WARNING, FileNotFoundCreating file_path)]
                  ++ [(ERROR, ErrorLoadingFile file_path IsADirectoryError)])).
Proof.
  intros Hfs Hfile Hdir.
  unfold load_from_file, load_from_file_try, try_except, bind,
    os_path_exists, os_makedirs, logging, write_text, ret.
  rewrite Hfs, Hdir, Hfile, (dirname_truthy _ Hdir). simpl. by rewrite <- app_assoc.
Qed.

(** A missing file given by a bare name: [os.makedirs("")] raises inside
    the [try], the handler logs the error and [{}] is returned. *)
Lemma load_from_file_missing_bare w file_path :
  fs w !! file_path = None →
  Py.truthy (Py.dirname file_path) = false →
  load_from_file file_path w =
    (Ok (JDict []),
     World (fs w) (java w) (walk w)
           (log w ++ [(WARNING, FileNotFoundCreating file_path)]
                  ++ [(ERROR, ErrorLoadingFile file_path FileNotFoundError)])).
Proof.
  intros Hfs Hdir.
  unfold load_from_file, load_from_file_try, try_except, bind,
    os_path_exists, os_makedirs, logging, write_text, ret, raise.
  rewrite Hfs, Hdir. simpl. by rewrite <- app_assoc.
Qed.

(** A file that is not JSON: the handler logs the error and [{}] is
    returned; the file is left as it is. *)
Lemma load_from_file_malformed w file_path t :
  fs w !! file_path = Some t →
  json_load t = None →
  load_from_file file_path w =
    (Ok (JDict []),
     World (fs w) (java w) (walk w)
           (log w ++ [(ERROR, ErrorLoadingFile file_path JSONDecodeError)])).
Proof.
  intros Hfs Hload.
  unfold load_from_file, load_from_file_try, try_except, bind,
    os_path_exists, read_text, json_load_text, logging, ret, raise.
  rewrite Hfs. simpl. rewrite Hfs, Hload. done.
Qed.

(** A file that holds JSON: its value, and nothing else happens. *)
Lemma load_from_file_wellformed w file_path t v :
  fs w !! file_path = Some t →
  json_load t = Some v →
  load_from_file file_path w = (Ok v, w).
Proof.
  intros Hfs Hload.
  unfold load_from_file, load_from_file_try, try_except, bind,
    os_path_exists, read_text, json_load_text, ret.
  rewrite Hfs. simpl. rewrite Hfs, Hload. done.
Qed.

(** No exception leaves [load_from_file], whatever the file holds. *)
Lemma load_from_file_never_raises w file_path :
  ∃ v w', load_from_file file_path w = (Ok v, w').
Proof.
  destruct (fs w !! file_path) as [t|] eqn:Hfs.
  - destruct (json_load t) as [v|] eqn:Hload.
    + eexists _, _. by eapply load_from_file_wellformed.
    + eexists _, _. by eapply load_from_file_malformed.
  - destruct (Py.truthy (Py.dirname file_path)) eqn:Hdir.
    + destruct (names_directory file_path) eqn:Hfile.
      * eexists _, _. by eapply load_from_file_missing_directory.
      * eexists _, _. by eapply load_from_file_missing.
    + eexists _, _. by eapply load_from_file_missing_bare.
Qed.

Lemma save_to_file_ok w file_path data :
  names_directory file_path = false →
  Py.truthy (Py.dirname file_path) = true →
  save_to_file file_path data w =
    (Ok tt, World (<[file_path := json_dump (Some 4%nat) data]> (fs w))
                  (java w) (walk w) (log w)).
Proof.
  intros Hfile Hdir. unfold save_to_file, bind, os_makedirs, write_text, ret.
  by rewrite Hdir, Hfile, (dirname_truthy _ Hdir).
Qed.

(** A path that names a directory cannot be saved: [open] raises and
    nothing is written. *)
Lemma save_to_file_directory w file_path data :
  names_directory file_path = true →
  Py.truthy (Py.dirname file_path) = true →
  save_to_file file_path data w = (Raise IsADirectoryError, w).
Proof.
  intros Hfile Hdir. unfold save_to_file, bind, os_makedirs, write_text, ret.
  by rewrite Hdir, Hfile, (dirname_truthy _ Hdir).
Qed.

(** A bare file name cannot be saved: [os.makedirs("")] raises and
    nothing is written. *)
Lemma save_to_file_bare w file_path data :
  Py.truthy (Py.dirname file_path) = false →
  save_to_file file_path data w = (Raise FileNotFoundError, w).
Proof.
  intros Hdir. unfold save_to_file, bind, os_makedirs, raise.
  by rewrite Hdir.
Qed.

(** A save that returns has written the file, and nothing else. *)
Lemma save_to_file_returns w file_path data w1 :
  save_to_file file_path data w = (Ok tt, w1) →
  w1 = World (<[file_path := json_dump (Some 4%nat) data]> (fs w))
             (java w) (walk w) (log w).
Proof.
  intros Hsave.
  destruct (Py.truthy (Py.dirname file_path)) eqn:Hdir;
    [|by rewrite save_to_file_bare in Hsave].
  destruct (names_directory file_path) eqn:Hfile;
    [by rewrite save_to_file_directory in Hsave|].
  rewrite save_to_file_ok in Hsave by done. by injection Hsave as <-.
Qed.

(** Saving a value and loading the file again gives the value back. *)
Lemma load_save_json w file_path data :
  json_roundtrip →
  names_directory file_path = false →
  Py.truthy (Py.dirname file_path) = true →
  ∃ w1, save_to_file file_path data w = (Ok tt, w1)
        ∧ load_from_file file_path w1 = (Ok data, w1).
Proof.
  intros Hrt Hfile Hdir. eexists. split; [by apply save_to_file_ok|].
  eapply load_from_file_wellformed; simpl.
  - apply lookup_insert_eq.
  - apply Hrt.
Qed.

End ConfigUtilsFacts.

(* ===================================================================== *)
(** * Facts: the index as a JSON value *)
(* ===================================================================== *)

Section IndexFacts.

Lemma mapM_decode {A} (enc : A → json) (dec : json → option A) (l : list A) :
  (∀ x, dec (enc x) = Some x) → mapM dec (enc <$> l) = Some l.
Proof.
  intros Hdec. apply mapM_Some, Forall2_fmap_l, Forall_Forall2_diag.
  apply Forall_forall. intros x _. apply Hdec.
Qed.

Lemma method_of_json_of_method m : method_of_json (json_of_method m) = Some m.
Proof. by destruct m. Qed.

Lemma call_of_json_of_call c : call_of_json (json_of_call c) = Some c.
Proof. by destruct c. Qed.

Lemma file_data_of_json_of_file_data d :
  file_data_of_json (json_of_file_data d) = Some d.
Proof.
  destruct d as [cs ms ds cg p].
  unfold file_data_of_json, json_of_file_data, field, list_of_json. cbn.
  rewrite (mapM_decode JStr str_of_json cs) by done. cbn.
  rewrite (mapM_decode _ _ ms method_of_json_of_method). cbn.
  rewrite (mapM_decode JStr str_of_json ds) by done. cbn.
  rewrite (mapM_decode _ _ cg call_of_json_of_call). done.
Qed.

Lemma entries_of_json_of_entries (l : list (string * file_data)) :
  mapM (fun kv : string * json => pair kv.1 <$> file_data_of_json kv.2)
       (prod_map id json_of_file_data <$> l) = Some l.
Proof.
  apply mapM_Some, Forall2_fmap_l, Forall_Forall2_diag, Forall_forall.
  intros [k d] _. simpl. by rewrite file_data_of_json_of_file_data.
Qed.

(** Every index is read back from its JSON value. *)
Lemma index_of_json_of_index (i : index) : index_of_json (json_of_index i) = Some i.
Proof.
  unfold index_of_json, json_of_index.
  rewrite entries_of_json_of_entries. cbn.
  by rewrite list_to_map_to_list.
Qed.

Lemma json_of_index_empty : json_of_index ∅ = JDict [].
Proof. unfold json_of_index. by rewrite map_to_list_empty. Qed.

Lemma index_of_json_empty : index_of_json (JDict []) = Some ∅.
Proof. done. Qed.

End IndexFacts.

(* ===================================================================== *)
(** * Facts: utils/parse_java.py *)
(* ===================================================================== *)

Section ParseJavaFacts.
Import ParseJava.

Lemma shift_sequence_0 calls : shift_sequence 0 calls = calls.
Proof.
  unfold shift_sequence. induction calls as [|[a b c d n] calls IH]; [done|].
  cbn. rewrite IH. do 2 f_equal. lia.
Qed.

Lemma shift_sequence_app n l1 l2 :
  shift_sequence n (l1 ++ l2) = shift_sequence n l1 ++ shift_sequence n l2.
Proof. unfold shift_sequence. apply fmap_app. Qed.

Lemma shift_sequence_length n l : length (shift_sequence n l) = length l.
Proof. unfold shift_sequence. apply length_fmap. Qed.

Lemma append_entry_empty e : append_entry e empty_entry = e.
Proof. destruct e. unfold append_entry. cbn. by rewrite !app_nil_r. Qed.

(** The first loop touches the package only. *)
Lemma extract_package_lists t e :
  classes (extract_package t e) = classes e
  ∧ methods (extract_package t e) = methods e
  ∧ dependencies (extract_package t e) = dependencies e
  ∧ call_graph (extract_package t e) = call_graph e.
Proof.
  induction t as [|[path n] t IH]; [done|].
  destruct n; cbn; done.
Qed.

Lemma extract_package_idempotent t e :
  extract_package t (extract_package t e) = extract_package t e.
Proof.
  induction t as [|[path n] t IH]; [by destruct e|].
  destruct n; cbn; done.
Qed.

Lemma extract_package_append t e d :
  extract_package t (append_entry e d) = append_entry (extract_package t e) d.
Proof.
  induction t as [|[path n] t IH]; [done|].
  destruct n; cbn; done.
Qed.

(** One iteration of the second loop works at the end of the lists. *)
Lemma extract_class_or_method_append e d item :
  extract_class_or_method (append_entry e d) item
  = append_entry e (extract_class_or_method d item).
Proof.
  destruct item as [path n]. unfold extract_class_or_method. cbn.
  destruct n; try done.
  - unfold append_entry. cbn. by rewrite <- app_assoc.
  - destruct (Py.truthy_opt (parent_class_of path)); [|done].
    unfold append_entry. cbn. by rewrite <- app_assoc.
Qed.

(** One iteration of the third loop does too, and numbers the call by
    the length of the whole list. *)
Lemma extract_dependency_or_call_append file_path e d item :
  extract_dependency_or_call file_path (append_entry e d) item
  = append_entry e (extract_dependency_or_call file_path d item).
Proof.
  destruct item as [path n]. unfold extract_dependency_or_call. cbn.
  destruct n; try done.
  - destruct (Py.startswith path0 "java."); [done|].
    unfold append_entry. cbn. by rewrite <- app_assoc.
  - destruct (caller_context (rev path) None None) as [fc fm].
    unfold append_entry, shift_sequence. cbn.
    f_equal. rewrite fmap_app, app_assoc. f_equal. cbn.
    do 2 f_equal. rewrite length_app, length_fmap. lia.
Qed.

Lemma foldl_append {X} (step : file_data → X → file_data) (l : list X) :
  (∀ e d x, step (append_entry e d) x = append_entry e (step d x)) →
  ∀ e d, foldl step (append_entry e d) l = append_entry e (foldl step d l).
Proof.
  intros Hstep. induction l as [|x l IH]; intros e d; [done|].
  cbn. by rewrite Hstep, IH.
Qed.

(** The three loops, run on an entry [e], leave what [e] held in place
    and append what they append to a fresh entry. *)
Lemma loops_append file_path t e :
  foldl (extract_dependency_or_call file_path)
        (foldl extract_class_or_method (extract_package t e) t) t
  = append_entry (extract_package t e)
      (foldl (extract_dependency_or_call file_path)
             (foldl extract_class_or_method empty_entry t) t).
Proof.
  rewrite <- (append_entry_empty (extract_package t e)) at 1.
  rewrite (foldl_append _ _ extract_class_or_method_append).
  by rewrite (foldl_append _ _ (extract_dependency_or_call_append file_path)).
Qed.

Lemma append_entry_lists e d d' :
  classes d = classes d' → methods d = methods d' →
  dependencies d = dependencies d' → call_graph d = call_graph d' →
  append_entry e d = append_entry e d'.
Proof. unfold append_entry. intros Hc Hm Hd Hg. by rewrite Hc, Hm, Hd, Hg. Qed.

Lemma index_tree_lookup file_path t (i : index) :
  index_tree file_path t i !! file_path
  = Some (append_entry (extract_package t (default empty_entry (i !! file_path)))
                       (contribution file_path t)).
Proof.
  unfold index_tree. rewrite lookup_insert_eq. f_equal.
  assert (default empty_entry
            (match i !! file_path with
             | Some _ => i
             | None => <[file_path:=empty_entry]> i
             end !! file_path)
          = default empty_entry (i !! file_path)) as ->.
  { destruct (i !! file_path) eqn:Hi; [by rewrite Hi|by rewrite lookup_insert_eq]. }
  rewrite loops_append. apply append_entry_lists; unfold contribution;
    rewrite loops_append; cbn;
    destruct (extract_package_lists t empty_entry) as (Hc & Hm & Hd & Hg).
  - by rewrite Hc.
  - by rewrite Hm.
  - by rewrite Hd.
  - by rewrite Hg, shift_sequence_0.
Qed.

Lemma index_tree_lookup_ne file_path t (i : index) q :
  q ≠ file_path → index_tree file_path t i !! q = i !! q.
Proof.
  intros Hq. unfold index_tree. rewrite lookup_insert_ne by done.
  destruct (i !! file_path); [done|]. by rewrite lookup_insert_ne.
Qed.

Lemma dom_index_tree file_path t (i : index) :
  dom (index_tree file_path t i) = {[ file_path ]} ∪ dom i.
Proof.
  unfold index_tree. rewrite dom_insert_L.
  destruct (i !! file_path); [done|].
  by rewrite dom_insert_L, (assoc_L (∪)), union_idemp_L.
Qed.

(** Indexing a path that is not in the index stores the contribution of
    its tree. *)
Lemma index_tree_fresh file_path t (i : index) :
  i !! file_path = None →
  index_tree file_path t i !! file_path = Some (contribution file_path t).
Proof.
  intros Hi. rewrite index_tree_lookup, Hi. cbn. f_equal.
  pose proof (loops_append file_path t empty_entry) as Hc.
  fold (contribution file_path t) in Hc.
  destruct (extract_package_lists t empty_entry) as (Hcl & Hm & Hd & Hg).
  unfold append_entry at 1. rewrite Hcl, Hm, Hd, Hg. cbn.
  rewrite shift_sequence_0.
  assert (package (contribution file_path t)
          = package (extract_package t empty_entry)) as <- by (by rewrite Hc).
  by destruct (contribution file_path t).
Qed.

(** Indexing a path a second time appends the contribution of its tree
    once more. *)
Lemma index_tree_again file_path t (i : index) e1 :
  index_tree file_path t i !! file_path = Some e1 →
  index_tree file_path t (index_tree file_path t i) !! file_path
  = Some (append_entry e1 (contribution file_path t)).
Proof.
  intros He1. rewrite index_tree_lookup, He1. cbn. f_equal. f_equal.
  rewrite index_tree_lookup in He1. injection He1 as <-.
  by rewrite extract_package_append, extract_package_idempotent.
Qed.

Lemma app_eq_self {A} (l x : list A) : l ++ x = l → x = [].
Proof. intros Hx. apply (app_inv_head l). by rewrite app_nil_r. Qed.

Lemma append_entry_same e d :
  append_entry e d = e
  ↔ classes d = [] ∧ methods d = [] ∧ dependencies d = [] ∧ call_graph d = [].
Proof.
  split.
  - destruct e as [cs ms ds cg p]. unfold append_entry. cbn.
    intros [= Hc Hm Hd Hg].
    apply app_eq_self in Hc, Hm, Hd, Hg.
    apply fmap_nil_inv in Hg. done.
  - intros (Hc & Hm & Hd & Hg). destruct e. unfold append_entry.
    rewrite Hc, Hm, Hd, Hg. cbn. by rewrite !app_nil_r.
Qed.

End ParseJavaFacts.

Section ParseJavaEffects.
Context `{JsonLib}.
Import ParseJava.

(** A file that opens and parses: one INFO record, the index updated. *)
Lemma parse_java_file_ok w file_path repo_path (index_data : index) t :
  java w !! file_path = Some t →
  parse_java_file file_path repo_path index_data w =
    (Ok (index_tree file_path t index_data),
     World (fs w) (java w) (walk w) (log w ++ [(INFO, ParsingJavaFile file_path)])).
Proof.
  intros Hj. unfold parse_java_file, bind, try_except, logging, open_and_parse, ret.
  cbn. by rewrite Hj.
Qed.

(** A file that does not: the exception is caught inside, one ERROR
    record follows the INFO record, the index is as it was. *)
Lemma parse_java_file_failed w file_path repo_path (index_data : index) :
  java w !! file_path = None →
  parse_java_file file_path repo_path index_data w =
    (Ok index_data,
     World (fs w) (java w) (walk w)
           (log w ++ [(INFO, ParsingJavaFile file_path);
                      (ERROR, ErrorParsing file_path JavaParseError)])).
Proof.
  intros Hj. unfold parse_java_file, bind, try_except, logging, open_and_parse, ret.
  cbn. rewrite Hj. cbn. by rewrite <- app_assoc.
Qed.

(** No exception leaves [parse_java_file]. *)
Lemma parse_java_file_never_raises w file_path repo_path (index_data : index) :
  ∃ i w', parse_java_file file_path repo_path index_data w = (Ok i, w').
Proof.
  destruct (java w !! file_path) as [t|] eqn:Hj.
  - eexists _, _. by apply parse_java_file_ok.
  - eexists _, _. by apply parse_java_file_failed.
Qed.

(** C1, as amended: indexing is additive on a path that is already in the
    index.  Indexing a file that parses, and then indexing the unchanged
    file again, leaves one entry for the path, whose classes, methods,
    dependencies and calls are those of the first entry followed by the
    contribution of the file once more (the calls numbered on), the
    package being kept; the other paths are untouched.  The second entry
    equals the first exactly when the file contributes no class, method,
    dependency or call. *)
Theorem reindex_is_additive w file_path repo_path (index_data : index) t :
  java w !! file_path = Some t →
  ∃ i1 w1 i2 w2 e1 e2,
    parse_java_file file_path repo_path index_data w = (Ok i1, w1)
    ∧ parse_java_file file_path repo_path i1 w1 = (Ok i2, w2)
    ∧ i1 !! file_path = Some e1
    ∧ i2 !! file_path = Some e2
    ∧ e2 = append_entry e1 (contribution file_path t)
    ∧ (index_data !! file_path = None → e1 = contribution file_path t)
    ∧ (∀ q, q ≠ file_path → i2 !! q = index_data !! q)
    ∧ (e2 = e1 ↔ classes (contribution file_path t) = []
                  ∧ methods (contribution file_path t) = []
                  ∧ dependencies (contribution file_path t) = []
                  ∧ call_graph (contribution file_path t) = []).
Proof.
  intros Hj.
  destruct (index_tree file_path t index_data !! file_path) as [e1|] eqn:He1;
    [|by rewrite index_tree_lookup in He1].
  eexists _, _, _, _, e1, _. split; [by apply parse_java_file_ok|].
  split; [by apply parse_java_file_ok|].
  split; [done|]. split; [by apply index_tree_again|].
  split; [done|]. split; [|split].
  - intros Hi. rewrite (index_tree_fresh _ _ _ Hi) in He1. congruence.
  - intros q Hq. by rewrite !index_tree_lookup_ne.
  - apply append_entry_same.
Qed.

End ParseJavaEffects.

(** C1 at a file declaring one class: after the first indexing the entry
    lists the class once, after the second twice. *)
Lemma reindex_is_additive_witness :
  ∃ i1 w1 i2 w2 e1 e2,
    let w := @World value_codec ∅ {[ "A.java" := [([], ClassDeclaration "A")] ]} ∅ [] in
    let c := ParseJava.contribution "A.java" [([], ClassDeclaration "A")] in
    @ParseJava.parse_java_file value_codec "A.java" "." ∅ w = (Ok i1, w1)
    ∧ @ParseJava.parse_java_file value_codec "A.java" "." i1 w1 = (Ok i2, w2)
    ∧ i1 !! "A.java" = Some e1
    ∧ i2 !! "A.java" = Some e2
    ∧ e2 = ParseJava.append_entry e1 c
    ∧ ((∅ : index) !! "A.java" = None → e1 = c)
    ∧ (∀ q, q ≠ "A.java" → i2 !! q = (∅ : index) !! q)
    ∧ (e2 = e1 ↔ classes c = [] ∧ methods c = [] ∧ dependencies c = []
                  ∧ call_graph c = []).
Proof.
  apply (@reindex_is_additive value_codec
           (@World value_codec ∅ {[ "A.java" := [([], ClassDeclaration "A")] ]} ∅ [])
           "A.java" "." ∅ [([], ClassDeclaration "A")]).
  reflexivity.
Defined.

(** C1 as stated fails: the entry of ["A.java"] after the second indexing
    differs from the entry after the first. *)
Lemma reindex_not_idempotent :
  let w := @World value_codec ∅ {[ "A.java" := [([], ClassDeclaration "A")] ]} ∅ [] in
  ∃ i1 w1 i2 w2,
    @ParseJava.parse_java_file value_codec "A.java" "." ∅ w = (Ok i1, w1)
    ∧ @ParseJava.parse_java_file value_codec "A.java" "." i1 w1 = (Ok i2, w2)
    ∧ i1 !! "A.java" = Some (FileData ["A"] [] [] [] "")
    ∧ i2 !! "A.java" = Some (FileData ["A"; "A"] [] [] [] "")
    ∧ i2 !! "A.java" ≠ i1 !! "A.java".
Proof.
  eexists _, _, _, _. split; [reflexivity|]. split; [reflexivity|].
  split; [by vm_compute|]. split; [by vm_compute|]. by vm_compute.
Qed.

(* ===================================================================== *)
(** * Facts: impactanalysis.py *)
(* ===================================================================== *)

Section ImpactAnalysisFacts.
Context `{JsonLib}.
Import ConfigUtils ParseJava ImpactAnalysis.

(** No task raises, so the handler around [future.result()] never runs
    and [errors] is returned as it came. *)
Lemma run_task_spec w directory (i : index) errs f :
  run_task directory (i, errs) f w =
    (Ok (index_after (java w) i [f], errs),
     World (fs w) (java w) (walk w) (log w ++ task_log (java w) f)).
Proof.
  unfold run_task, index_after, task_log. cbn.
  destruct (java w !! f) as [t|] eqn:Hj.
  - erewrite try_except_ok; [done|].
    erewrite bind_ok by (by apply parse_java_file_ok). done.
  - erewrite try_except_ok; [done|].
    erewrite bind_ok by (by apply parse_java_file_failed). done.
Qed.

Lemma run_tasks_spec directory completed : ∀ w (i : index) errs,
  run_tasks directory completed (i, errs) w =
    (Ok (index_after (java w) i completed, errs),
     World (fs w) (java w) (walk w) (log w ++ (completed ≫= task_log (java w)))).
Proof.
  induction completed as [|f rest IH]; intros w i errs.
  - cbn. unfold ret. by rewrite app_nil_r, world_eta.
  - cbn [run_tasks]. erewrite bind_ok by apply run_task_spec.
    rewrite IH. cbn. by rewrite <- app_assoc.
Qed.

Lemma dom_index_after java (completed : list string) : ∀ i : index,
  dom (index_after java i completed)
  = dom i ∪ list_to_set (filter (fun f => is_Some (java !! f)) completed).
Proof.
  induction completed as [|f rest IH]; intros i.
  - cbn. set_solver.
  - unfold index_after in *. cbn [foldl]. rewrite IH, filter_cons.
    destruct (java !! f) as [t|] eqn:Hj.
    + rewrite decide_True by done. rewrite dom_index_tree. cbn. set_solver.
    + rewrite decide_False; [done|]. by intros [? ?].
Qed.

Lemma error_records_app l1 l2 :
  error_records (l1 ++ l2) = error_records l1 ++ error_records l2.
Proof. apply filter_app. Qed.

(** The ERROR records of the pool name the files that did not parse. *)
Lemma error_records_tasks java (completed : list string) :
  error_records (completed ≫= task_log java)
  = (fun f => (ERROR, ErrorParsing f JavaParseError))
      <$> filter (fun f => java !! f = None) completed.
Proof.
  induction completed as [|f rest IH]; [done|].
  cbn [mbind list_bind]. rewrite error_records_app, IH, filter_cons.
  unfold task_log. destruct (java !! f) as [t|] eqn:Hj.
  - rewrite decide_False by done. done.
  - rewrite decide_True by done. done.
Qed.

Lemma filter_none {A} (P : A → Prop) `{∀ x, Decision (P x)} (l : list A) :
  (∀ x, x ∈ l → ¬ P x) → filter P l = [].
Proof.
  induction l as [|x l IH]; intros HP; [done|].
  rewrite filter_cons, decide_False by (apply HP; left).
  apply IH. intros y Hy. apply HP. by right.
Qed.

Lemma filter_only {A} (P : A → Prop) `{∀ x, Decision (P x)} (l : list A) a :
  NoDup l → a ∈ l → (∀ x, x ∈ l → (P x ↔ x = a)) → filter P l = [a].
Proof.
  induction l as [|x l IH]; intros Hnd Ha HP; [by apply elem_of_nil in Ha|].
  apply NoDup_cons in Hnd as [Hx Hnd]. rewrite filter_cons.
  apply elem_of_cons in Ha as [->|Ha].
  - rewrite decide_True by (apply HP; [left|done]). f_equal.
    apply filter_none. intros y Hy HPy.
    apply HP in HPy; [|by right]. by subst.
  - rewrite decide_False.
    + apply IH; [done..|]. intros y Hy. apply HP. by right.
    + intros HPx. apply HP in HPx; [|left]. by subst.
Qed.

Lemma INDEX_JSON_dirname : Py.truthy (Py.dirname INDEX_JSON) = true.
Proof. reflexivity. Qed.

Lemma INDEX_JSON_file : names_directory INDEX_JSON = false.
Proof. reflexivity. Qed.

(** A run on an existing directory with Java files and no snapshot yet:
    the snapshot is created empty, every task runs, nothing is filed in
    [errors], and the index is saved. *)
Lemma scan_directory_incremental_fresh w schedule directory walked :
  walk w !! directory = Some walked →
  fs w !! INDEX_JSON = None →
  java_files_of walked ≠ [] →
  let index_data := index_after (java w) ∅ (schedule (java_files_of walked)) in
  scan_directory_incremental schedule directory w =
    (Ok (Some (index_data, [])),
     World (<[INDEX_JSON := json_dump (Some 4%nat) (json_of_index index_data)]>
              (<[INDEX_JSON := json_dump None (JDict [])]> (fs w)))
           (java w) (walk w)
           (log w ++ [(WARNING, FileNotFoundCreating INDEX_JSON);
                      (INFO, FoundJavaFiles (length (java_files_of walked)) directory)]
                  ++ (schedule (java_files_of walked) ≫= task_log (java w)))).
Proof.
  intros Hwalk Hfs Hne index_data.
  unfold scan_directory_incremental.
  erewrite bind_ok;
    [|unfold os_path_exists_dir;
      rewrite Hwalk, bool_decide_eq_true_2 by done; reflexivity].
  cbn [negb].
  erewrite bind_ok;
    [|by apply load_from_file_missing; [|apply INDEX_JSON_file|apply INDEX_JSON_dirname]].
  erewrite bind_ok; [|unfold os_walk; cbn [walk]; by rewrite Hwalk].
  change (default [] (Some walked)) with walked.
  destruct (java_files_of walked) as [|f0 files] eqn:Hfiles; [done|].
  erewrite bind_ok; [|reflexivity].
  rewrite index_of_json_empty.
  erewrite bind_ok; [|apply run_tasks_spec].
  cbn [snd fst].
  erewrite bind_ok; [|reflexivity].
  erewrite bind_ok; [|by apply save_to_file_ok; [apply INDEX_JSON_file|apply INDEX_JSON_dirname]].
  unfold ret. cbn [fs java walk log fst snd]. subst index_data.
  do 2 f_equal. by rewrite <- !app_assoc.
Qed.

(** C4, as amended: ten files, the fourth of which does not parse, and no
    snapshot yet.  The run comes to its end and saves the index; the
    index holds exactly the nine other paths; the failure is caught
    inside [parse_java_file] and shows as the single ERROR record of the
    log, naming the path; no exception reaches the pool, so the list
    [errors] stays empty. *)
Theorem one_bad_file_of_ten w schedule directory walked bad :
  walk w !! directory = Some walked →
  fs w !! INDEX_JSON = None →
  length (java_files_of walked) = 10 →
  NoDup (java_files_of walked) →
  java_files_of walked !! 3 = Some bad →
  java w !! bad = None →
  (∀ f, f ∈ java_files_of walked → f ≠ bad → is_Some (java w !! f)) →
  schedule (java_files_of walked) ≡ₚ java_files_of walked →
  ∃ (index_data : index) w' added,
    scan_directory_incremental schedule directory w
      = (Ok (Some (index_data, [])), w')
    ∧ dom index_data = list_to_set (java_files_of walked) ∖ {[ bad ]}
    ∧ size index_data = 9
    ∧ log w' = log w ++ added
    ∧ error_records added = [(ERROR, ErrorParsing bad JavaParseError)]
    ∧ fs w' !! INDEX_JSON = Some (json_dump (Some 4) (json_of_index index_data)).
Proof.
  intros Hwalk Hfs Hlen Hnd Hbad Hjbad Hgood Hperm.
  assert (Hin : bad ∈ java_files_of walked) by (by eapply list_elem_of_lookup_2).
  assert (Hne : java_files_of walked ≠ []).
  { intros Hnil. rewrite Hnil in Hlen. done. }
  assert (Hdom : dom (index_after (java w) ∅ (schedule (java_files_of walked)))
                 = list_to_set (java_files_of walked) ∖ {[ bad ]}).
  { rewrite dom_index_after, dom_empty_L, (left_id_L ∅ (∪)).
    apply set_eq. intros f.
    rewrite elem_of_list_to_set, list_elem_of_filter, Hperm.
    rewrite elem_of_difference, elem_of_list_to_set, elem_of_singleton.
    split.
    - intros [[t Ht] Hf]. split; [done|]. intros ->. congruence.
    - intros [Hf Hfb]. split; [by apply Hgood|done]. }
  eexists _, _, _. split; [by apply scan_directory_incremental_fresh|].
  cbn [log fs].
  split; [done|]. split; [|split; [done|split]].
  - rewrite <- size_dom, Hdom, size_difference.
    + rewrite size_list_to_set, size_singleton by done. lia.
    + apply singleton_subseteq_l. by apply elem_of_list_to_set.
  - rewrite error_records_app, error_records_tasks. cbn.
    rewrite (filter_only _ _ bad); [done| |by rewrite Hperm|].
    + by rewrite Hperm.
    + intros f Hf. rewrite Hperm in Hf. split; [|by intros ->].
      intros Hnone. destruct (decide (f = bad)) as [|Hfb]; [done|].
      destruct (Hgood f Hf Hfb) as [t Ht]. congruence.
  - apply lookup_insert_eq.
Qed.

End ImpactAnalysisFacts.

(** C4 at the ten files of [ten_files_world], the tasks completing in
    reverse order. *)
Lemma one_bad_file_of_ten_witness :
  ∃ (index_data : index) w' added,
    @ImpactAnalysis.scan_directory_incremental value_codec reverse "repo" ten_files_world
      = (Ok (Some (index_data, [])), w')
    ∧ dom index_data
      = list_to_set (ImpactAnalysis.java_files_of [("repo", ten_files ++ ["README.md"])])
        ∖ {[ "repo/F4.java" ]}
    ∧ size index_data = 9
    ∧ log w' = log ten_files_world ++ added
    ∧ ImpactAnalysis.error_records added
      = [(ERROR, ErrorParsing "repo/F4.java" JavaParseError)]
    ∧ fs w' !! ParseJava.INDEX_JSON
      = Some (@json_dump value_codec (Some 4) (json_of_index index_data)).
Proof.
  apply (@one_bad_file_of_ten value_codec ten_files_world reverse "repo"
           [("repo", ten_files ++ ["README.md"])] "repo/F4.java").
  - reflexivity.
  - reflexivity.
  - reflexivity.
  - apply (bool_decide_unpack _). vm_compute. reflexivity.
  - reflexivity.
  - reflexivity.
  - apply (Forall_forall
             (fun f => f ≠ "repo/F4.java" → is_Some (java ten_files_world !! f))).
    apply (bool_decide_unpack _). vm_compute. reflexivity.
  - apply reverse_Permutation.
Defined.

(** C4 as stated fails: the fourth of the ten files does not parse, yet
    the list [errors] of the run is empty. *)
Lemma failure_not_in_errors :
  ∃ st w',
    @ImpactAnalysis.scan_directory_incremental value_codec id "repo" ten_files_world
      = (Ok (Some st), w')
    ∧ ten_files !! 3 = Some "F4.java"
    ∧ java ten_files_world !! "repo/F4.java" = None
    ∧ st.2 = []
    ∧ ¬ ∃ e, st.2 = [("repo/F4.java", e)].
Proof.
  eexists _, _. split; [vm_compute; reflexivity|].
  split; [reflexivity|]. split; [reflexivity|]. split; [reflexivity|].
  intros [e He]. discriminate He.
Qed.

(* ===================================================================== *)
(** * Facts: diagrams/generate_class_diagram.py *)
(* ===================================================================== *)

Section ClassDiagramFacts.
Import ClassDiagram.

(** ** The rules, whatever they are given *)

Lemma eqb_false_ne (a b : string) : negb (String.eqb a b) = true → a ≠ b.
Proof.
  intros Hab ->. rewrite String.eqb_refl in Hab. done.
Qed.

(** The field rule never adds an edge from a class to itself, whatever
    the declared type and the final flag. *)
Lemma track_field_no_self_edge package_name full_class_name attr_type is_final r :
  no_self_edge r →
  no_self_edge (track_field package_name full_class_name attr_type is_final r).
Proof.
  intros Hr. unfold track_field.
  repeat match goal with
         | |- no_self_edge (if ?b then _ else _) => destruct b eqn:?
         end; try done.
  all: intros X; destruct (Hr X) as (Hi & Hc & Hg & Ha); cbn;
    repeat split; try done.
  all: rewrite elem_of_union, elem_of_singleton; intros [[= -> HX]|?]; [|done].
  all: match goal with
       | Hb : (negb (String.eqb _ _) && _) = true |- _ =>
           apply andb_prop in Hb as [Hb _]; by apply eqb_false_ne in Hb
       | Hb : negb (String.eqb _ _) = true |- _ => by apply eqb_false_ne in Hb
       end.
Qed.

(** The field rule on the three fields of the order scenario, had they
    been recorded: the non-final [Customer] gives an association and the
    final [OrderId] a composition; [List<Item>] is qualified by the
    package before the test for a collection, so inside a package it is
    no longer recognised and gives an association to the qualified text. *)
Example track_field_customer :
  elements (association (track_field "app" "app.Order" "Customer" false empty_relationships))
  = [("app.Order", "app.Customer")].
Proof. vm_compute. reflexivity. Qed.

Example track_field_order_id :
  elements (composition (track_field "app" "app.Order" "OrderId" true empty_relationships))
  = [("app.Order", "app.OrderId")].
Proof. vm_compute. reflexivity. Qed.

Example track_field_items_in_package :
  aggregation (track_field "app" "app.Order" "List<Item>" false empty_relationships) = ∅
  ∧ elements (association (track_field "app" "app.Order" "List<Item>" false empty_relationships))
    = [("app.Order", "app.List<Item>")].
Proof. split; vm_compute; reflexivity. Qed.

Example track_field_items_no_package :
  elements (aggregation (track_field "" "Order" "List<Item>" false empty_relationships))
  = [("Order", "Item")].
Proof. vm_compute. reflexivity. Qed.

(** The parent rule has no such guard: a class whose parent resolves to
    its own name gets an edge to itself. *)
Example track_parent_self_edge :
  ("app.A", "app.A") ∈ inheritance (track_parent "app" "app.A" "A" empty_relationships).
Proof. vm_compute. set_solver. Qed.

(** The parent rule on a parent that is named and is not a root type,
    and the interface rule. *)
Lemma track_parent_adds package_name full_class_name parent_class r :
  Py.truthy parent_class = true →
  Py.str_in parent_class ["Object"; "java.lang.Object"] = false →
  (full_class_name, qualify package_name parent_class)
    ∈ inheritance (track_parent package_name full_class_name parent_class r).
Proof.
  intros Ht Hroot. unfold track_parent. rewrite Ht, Hroot. cbn. set_solver.
Qed.

Lemma track_interface_adds package_name full_class_name interface r :
  (full_class_name, qualify package_name interface)
    ∈ inheritance (track_interface package_name full_class_name r interface).
Proof. unfold track_interface. cbn. set_solver. Qed.

(** ** The passes, with the placeholders of the source *)

Lemma first_pass_class_tracked package_name st class_info :
  tracked (first_pass_class package_name st class_info) = tracked st.
Proof.
  unfold first_pass_class.
  repeat match goal with
         | |- tracked (if ?b then _ else _) = _ => destruct b
         end; done.
Qed.

Lemma first_pass_tracked (items : list (string * file_data)) : ∀ st,
  tracked (foldl first_pass_file st items) = tracked st.
Proof.
  induction items as [|item items IH]; intros st; [done|].
  cbn [foldl]. rewrite IH. unfold first_pass_file.
  generalize (classes item.2). intros cs. revert st.
  induction cs as [|c cs IHc]; intros st; [done|].
  cbn [foldl]. by rewrite IHc, first_pass_class_tracked.
Qed.

Lemma second_pass_class_id package_name r class_info :
  second_pass_class package_name r class_info = r.
Proof.
  unfold second_pass_class.
  repeat match goal with
         | |- (if ?b then _ else _) = _ => destruct b
         end; done.
Qed.

Lemma second_pass_id (items : list (string * file_data)) : ∀ r,
  foldl second_pass_file r items = r.
Proof.
  induction items as [|item items IH]; intros r; [done|].
  cbn [foldl]. rewrite IH. unfold second_pass_file.
  induction (classes item.2) as [|c cs IHc] in r |- *; [done|].
  cbn [foldl]. by rewrite IHc, second_pass_class_id.
Qed.

(** No class of the index is given a parent, an interface or a field, so
    no relationship is recorded. *)
Lemma classify_tracks_nothing (index_data : index) :
  tracked (classify index_data) = empty_relationships.
Proof.
  unfold classify. cbn [tracked]. by rewrite second_pass_id, first_pass_tracked.
Qed.

(** ** Edges *)

Lemma add_association_edges_take processed cap (pairs : list (string * string)) :
  ∀ count,
    add_association_edges processed cap count pairs
    = take (cap - count) (add_edges processed AssociationEdge pairs).
Proof.
  unfold add_edges.
  induction pairs as [|p pairs IH]; intros count; cbn [add_association_edges].
  - rewrite filter_nil, fmap_nil. by rewrite take_nil.
  - destruct (cap <=? count)%nat eqn:Hcap.
    + apply Nat.leb_le in Hcap. by replace (cap - count) with 0 by lia.
    + apply Nat.leb_gt in Hcap. rewrite filter_cons.
      destruct (both_processed processed p) eqn:Hp.
      * rewrite decide_True by done. rewrite IH, fmap_cons.
        replace (cap - count) with (S (cap - S count)) by lia. done.
      * rewrite decide_False by done. apply IH.
Qed.

Lemma add_edges_kind processed k pairs e :
  e ∈ add_edges processed k pairs → edge_kind_of e = k.
Proof.
  unfold add_edges. intros He. apply list_elem_of_fmap in He as (p & -> & _). done.
Qed.

Lemma add_association_edges_kind processed cap count pairs e :
  e ∈ add_association_edges processed cap count pairs →
  edge_kind_of e = AssociationEdge.
Proof.
  rewrite add_association_edges_take. intros He.
  apply subseteq_take in He. by apply add_edges_kind in He.
Qed.

Lemma filter_kind_none k k' (edges : list edge) :
  k ≠ k' → (∀ e, e ∈ edges → edge_kind_of e = k') →
  filter (fun e => edge_kind_of e = k) edges = [].
Proof.
  intros Hk He. induction edges as [|e edges IH]; [done|].
  rewrite filter_cons, decide_False.
  - apply IH. intros e' He'. apply He. by right.
  - rewrite (He e) by left. done.
Qed.

Lemma filter_kind_all k (edges : list edge) :
  (∀ e, e ∈ edges → edge_kind_of e = k) →
  filter (fun e => edge_kind_of e = k) edges = edges.
Proof.
  intros He. induction edges as [|e edges IH]; [done|].
  rewrite filter_cons, decide_True by (apply He; left).
  f_equal. apply IH. intros e' He'. apply He. by right.
Qed.

(** The association edges of the graph are those of the last loop. *)
Lemma class_graph_association_edges (index_data : index) :
  filter (fun e => edge_kind_of e = AssociationEdge) (graph_edges (class_graph index_data))
  = add_association_edges (processed_classes (classify index_data)) max_associations 0
      (elements (association (tracked (classify index_data)))).
Proof.
  unfold class_graph. cbn [graph_edges]. rewrite !filter_app.
  rewrite (filter_kind_none _ InheritanceEdge) by (done || apply add_edges_kind).
  rewrite (filter_kind_none _ CompositionEdge) by (done || apply add_edges_kind).
  rewrite (filter_kind_none _ AggregationEdge) by (done || apply add_edges_kind).
  cbn. apply filter_kind_all. apply add_association_edges_kind.
Qed.

(** ** Nodes *)

Lemma first_pass_class_processed_mono package_name st class_info x :
  x ∈ processed_classes st →
  x ∈ processed_classes (first_pass_class package_name st class_info).
Proof.
  intros Hx. unfold first_pass_class.
  repeat match goal with
         | |- _ ∈ processed_classes (if ?b then _ else _) => destruct b
         end; try done.
  cbn. set_solver.
Qed.

Lemma first_pass_class_processed package_name st class_name :
  Py.truthy class_name = true →
  Py.startswith_any (full_class_name_of package_name class_name) excluded_patterns = false →
  full_class_name_of package_name class_name
    ∈ processed_classes (first_pass_class package_name st class_name).
Proof.
  intros Ht Hex. unfold first_pass_class. rewrite Ht, Hex. cbn [negb].
  rewrite orb_false_r. case_bool_decide; [done|]. cbn. set_solver.
Qed.

Lemma first_pass_classes_mono package_name cs : ∀ st x,
  x ∈ processed_classes st →
  x ∈ processed_classes (foldl (first_pass_class package_name) st cs).
Proof.
  induction cs as [|c cs IH]; intros st x Hx; [done|].
  cbn [foldl]. by apply IH, first_pass_class_processed_mono.
Qed.

Lemma first_pass_mono (items : list (string * file_data)) : ∀ st x,
  x ∈ processed_classes st →
  x ∈ processed_classes (foldl first_pass_file st items).
Proof.
  induction items as [|item items IH]; intros st x Hx; [done|].
  cbn [foldl]. by apply IH, first_pass_classes_mono.
Qed.

Lemma first_pass_classes_processed package_name cs class_name : ∀ st,
  class_name ∈ cs →
  Py.truthy class_name = true →
  Py.startswith_any (full_class_name_of package_name class_name) excluded_patterns = false →
  full_class_name_of package_name class_name
    ∈ processed_classes (foldl (first_pass_class package_name) st cs).
Proof.
  induction cs as [|c cs IH]; intros st Hin Ht Hex; [by apply elem_of_nil in Hin|].
  cbn [foldl]. apply elem_of_cons in Hin as [<-|Hin].
  - by apply first_pass_classes_mono, first_pass_class_processed.
  - by apply IH.
Qed.

(** Every named class of the index that is not excluded has a node. *)
Lemma classify_processed (index_data : index) file_path data class_name :
  index_data !! file_path = Some data →
  class_name ∈ classes data →
  Py.truthy class_name = true →
  Py.startswith_any (full_class_name_of (package data) class_name) excluded_patterns = false →
  full_class_name_of (package data) class_name
    ∈ processed_classes (classify index_data).
Proof.
  intros Hd Hc Ht Hex. unfold classify. cbn [processed_classes].
  apply elem_of_map_to_list in Hd. revert Hd.
  generalize (FirstPass [] ∅ empty_relationships).
  induction (map_to_list index_data) as [|item items IH]; intros st Hd;
    [by apply elem_of_nil in Hd|].
  cbn [foldl]. apply elem_of_cons in Hd as [<-|Hd].
  - by apply first_pass_mono, first_pass_classes_processed.
  - by apply IH.
Qed.

Lemma class_graph_no_edges (index_data : index) :
  graph_edges (class_graph index_data) = [].
Proof.
  unfold class_graph. cbn [graph_edges].
  rewrite classify_tracks_nothing. cbn.
  by rewrite elements_empty.
Qed.


(** C3, as amended: the parent rule records [(class, parent)] for a
    parent that is named and is neither [Object] nor [java.lang.Object],
    and the interface rule records [(class, interface)], both qualifying
    a name without a dot by the package; the classifier gives them the
    empty parent name and no interface, so for every index the
    inheritance set is empty and the graph has no inheritance edge. *)
Theorem inheritance_rules_unfed (index_data : index)
    package_name full_class_name parent_class interface r :
  Py.truthy parent_class = true →
  Py.str_in parent_class ["Object"; "java.lang.Object"] = false →
  (full_class_name, qualify package_name parent_class)
    ∈ inheritance (track_parent package_name full_class_name parent_class r)
  ∧ (full_class_name, qualify package_name interface)
    ∈ inheritance (track_interface package_name full_class_name r interface)
  ∧ inheritance (tracked (classify index_data)) = ∅
  ∧ filter (fun e => edge_kind_of e = InheritanceEdge)
           (graph_edges (class_graph index_data)) = [].
Proof.
  intros Ht Hroot. split; [by apply track_parent_adds|].
  split; [apply track_interface_adds|].
  by rewrite classify_tracks_nothing, class_graph_no_edges.
Qed.

(** C5: the loop over the association set adds the first [cap] pairs
    whose classes both have a node and leaves the others out, whatever
    the cap and the order of iteration; the cap of the source is 30, so
    the graph of an index has at most 30 association edges. *)
Theorem association_edges_capped (index_data : index)
    (processed : gset string) (cap : nat) (pairs : list (string * string)) :
  add_association_edges processed cap 0 pairs
    = take cap (add_edges processed AssociationEdge pairs)
  ∧ (length (add_association_edges processed cap 0 pairs) ≤ cap)%nat
  ∧ max_associations = 30
  ∧ (length (filter (fun e => edge_kind_of e = AssociationEdge)
                    (graph_edges (class_graph index_data))) ≤ max_associations)%nat.
Proof.
  assert (Hcap : ∀ processed cap pairs,
            (length (add_association_edges processed cap 0 pairs) ≤ cap)%nat).
  { intros pr c ps. rewrite add_association_edges_take, length_take. lia. }
  split; [|split; [apply Hcap|split; [done|]]].
  - by rewrite add_association_edges_take, Nat.sub_0_r.
  - rewrite class_graph_association_edges. apply Hcap.
Qed.

Lemma no_self_edge_empty : no_self_edge empty_relationships.
Proof. intros X. cbn. set_solver. Qed.

(** The loop over the attributes keeps the sets free of such edges,
    however many attributes it is given. *)
Lemma fields_loop_no_self_edge package_name full_class_name attr_type is_final
    (attrs : list string) : ∀ r,
  no_self_edge r →
  no_self_edge
    (foldl (fun r (attr : string) =>
              track_field package_name full_class_name attr_type is_final r)
           r attrs).
Proof.
  induction attrs as [|attr attrs IH]; intros r Hr; [done|].
  cbn [foldl]. by apply IH, track_field_no_self_edge.
Qed.

Lemma second_pass_class_no_self_edge package_name r class_info :
  no_self_edge r → no_self_edge (second_pass_class package_name r class_info).
Proof.
  intros Hr. unfold second_pass_class.
  destruct (negb (Py.truthy class_info)); [done|].
  destruct (Py.startswith_any _ excluded_patterns); [done|].
  by apply (fields_loop_no_self_edge _ _ "String" false []).
Qed.

Lemma second_pass_no_self_edge (items : list (string * file_data)) : ∀ r,
  no_self_edge r → no_self_edge (foldl second_pass_file r items).
Proof.
  induction items as [|item items IH]; intros r Hr; [done|].
  cbn [foldl]. apply IH. unfold second_pass_file.
  induction (classes item.2) as [|c cs IHc] in r, Hr |- *; [done|].
  cbn [foldl]. by apply IHc, second_pass_class_no_self_edge.
Qed.

(** C7: for every index, none of the four relationship sets holds an
    edge from a class to itself, and no edge of the graph does. *)
Theorem no_self_edges (index_data : index) (X : string) :
  ((X, X) ∉ inheritance (tracked (classify index_data)))
  ∧ ((X, X) ∉ composition (tracked (classify index_data)))
  ∧ ((X, X) ∉ aggregation (tracked (classify index_data)))
  ∧ ((X, X) ∉ association (tracked (classify index_data)))
  ∧ ∀ k, Edge k X X ∉ graph_edges (class_graph index_data).
Proof.
  assert (Hr : no_self_edge (tracked (classify index_data))).
  { unfold classify. cbn [tracked]. apply second_pass_no_self_edge.
    rewrite first_pass_tracked. apply no_self_edge_empty. }
  destruct (Hr X) as (Hi & Hc & Hg & Ha). repeat split; try done.
  intros k. rewrite class_graph_no_edges. apply not_elem_of_nil.
Qed.

End ClassDiagramFacts.



(** C3 at [Derived] with parent [Base] and interface [Flag]. *)
Lemma inheritance_rules_unfed_witness :
  ("Derived", "Base")
    ∈ ClassDiagram.inheritance
        (ClassDiagram.track_parent "" "Derived" "Base" ClassDiagram.empty_relationships)
  ∧ ("Derived", "Flag")
    ∈ ClassDiagram.inheritance
        (ClassDiagram.track_interface "" "Derived" ClassDiagram.empty_relationships "Flag")
  ∧ ClassDiagram.inheritance (ClassDiagram.tracked (ClassDiagram.classify base_derived_index)) = ∅
  ∧ filter (fun e => ClassDiagram.edge_kind_of e = ClassDiagram.InheritanceEdge)
           (ClassDiagram.graph_edges (ClassDiagram.class_graph base_derived_index)) = [].
Proof.
  apply (inheritance_rules_unfed base_derived_index "" "Derived" "Base" "Flag"
           ClassDiagram.empty_relationships).
  - reflexivity.
  - reflexivity.
Defined.

(** C3 as stated fails: for [Base] and [Derived extends Base implements
    Flag] neither of the two inheritance edges is recorded. *)
Lemma base_derived_edges_missing :
  base_derived_index !! "Base.java" = Some (FileData ["Base"] [] [] [] "")
  ∧ base_derived_index !! "Derived.java" = Some (FileData ["Derived"] [] [] [] "")
  ∧ (("Derived", "Base")
      ∉ ClassDiagram.inheritance (ClassDiagram.tracked (ClassDiagram.classify base_derived_index)))
  ∧ (("Derived", "Flag")
      ∉ ClassDiagram.inheritance (ClassDiagram.tracked (ClassDiagram.classify base_derived_index))).
Proof.
  split; [by vm_compute|]. split; [by vm_compute|].
  rewrite classify_tracks_nothing. cbn. set_solver.
Qed.

(* ===================================================================== *)
(** * Facts: the snapshot *)
(* ===================================================================== *)

Section SnapshotFacts.
Context `{JsonLib}.
Import ConfigUtils.

(** C6: an index store that is saved and loaded again from the same file
    comes back as the value that was saved, and that value reads as the
    same index: every path with the same record.  The [json] library is
    taken to load what it dumps.  Saved as the snapshot of the program,
    [INDEX_JSON], every store is written and comes back, and nothing is
    logged; under any other path the same holds whenever [save_to_file]
    returns (it raises for a bare file name and for a path that names a
    directory). *)
Theorem snapshot_roundtrip w (store : index) :
  json_roundtrip →
  (∃ w1,
     save_to_file ParseJava.INDEX_JSON (json_of_index store) w = (Ok tt, w1)
     ∧ load_from_file ParseJava.INDEX_JSON w1 = (Ok (json_of_index store), w1)
     ∧ log w1 = log w)
  ∧ index_of_json (json_of_index store) = Some store
  ∧ ∀ file_path w1,
      save_to_file file_path (json_of_index store) w = (Ok tt, w1) →
      load_from_file file_path w1 = (Ok (json_of_index store), w1)
      ∧ log w1 = log w.
Proof.
  intros Hrt.
  assert (Hback : ∀ file_path w1,
            save_to_file file_path (json_of_index store) w = (Ok tt, w1) →
            load_from_file file_path w1 = (Ok (json_of_index store), w1)
            ∧ log w1 = log w).
  { intros file_path w1 Hsave. apply save_to_file_returns in Hsave as ->.
    split; [|done]. eapply load_from_file_wellformed; cbn [fs].
    - apply lookup_insert_eq.
    - apply Hrt. }
  split; [|split; [apply index_of_json_of_index|done]].
  eexists. split; [by apply save_to_file_ok|]. by apply Hback, save_to_file_ok.
Qed.

(** C9: a snapshot that is missing, or that is not JSON, loads as the
    empty index; the function returns normally and leaves a record in
    the log, a warning for a missing file and an error for a malformed
    one, each naming the file. *)
Theorem load_degrades_to_empty w file_path :
  fs w !! file_path = None
  ∨ (∃ t, fs w !! file_path = Some t ∧ json_load t = None) →
  ∃ w' added,
    load_from_file file_path w = (Ok (JDict []), w')
    ∧ index_of_json (JDict []) = Some ∅
    ∧ log w' = log w ++ added
    ∧ ((fs w !! file_path = None
        ∧ (WARNING, FileNotFoundCreating file_path) ∈ added)
       ∨ (is_Some (fs w !! file_path)
          ∧ added = [(ERROR, ErrorLoadingFile file_path JSONDecodeError)])).
Proof.
  intros [Hmissing|(t & Hfs & Hload)].
  - destruct (Py.truthy (Py.dirname file_path)) eqn:Hdir.
    + destruct (names_directory file_path) eqn:Hfile.
      * eexists _, _. split; [by apply load_from_file_missing_directory|].
        split; [done|]. split; [done|]. left. split; [done|]. by left.
      * eexists _, _. split; [by apply load_from_file_missing|].
        split; [done|]. split; [done|]. left. split; [done|]. by left.
    + eexists _, _. split; [by apply load_from_file_missing_bare|].
      split; [done|]. split; [done|]. left. split; [done|]. by left.
  - eexists _, _. split; [by eapply load_from_file_malformed|].
    split; [done|]. split; [done|]. right. by rewrite Hfs.
Qed.

End SnapshotFacts.

(** C6 at the index of the order scenario, saved in an empty file
    system. *)
Lemma snapshot_roundtrip_witness :
  (∃ w1,
     @ConfigUtils.save_to_file value_codec ParseJava.INDEX_JSON (json_of_index order_index)
       empty_world = (Ok tt, w1)
     ∧ @ConfigUtils.load_from_file value_codec ParseJava.INDEX_JSON w1
       = (Ok (json_of_index order_index), w1)
     ∧ log w1 = log empty_world)
  ∧ index_of_json (json_of_index order_index) = Some order_index
  ∧ ∀ file_path w1,
      @ConfigUtils.save_to_file value_codec file_path (json_of_index order_index)
        empty_world = (Ok tt, w1) →
      @ConfigUtils.load_from_file value_codec file_path w1
        = (Ok (json_of_index order_index), w1)
      ∧ log w1 = log empty_world.
Proof.
  apply (@snapshot_roundtrip value_codec empty_world order_index).
  intros indent v. reflexivity.
Defined.

(** C9 at a snapshot whose contents are not JSON. *)
Lemma load_degrades_to_empty_witness :
  ∃ w' added,
    @ConfigUtils.load_from_file value_codec ParseJava.INDEX_JSON corrupt_snapshot_world
      = (Ok (JDict []), w')
    ∧ index_of_json (JDict []) = Some ∅
    ∧ log w' = log corrupt_snapshot_world ++ added
    ∧ ((fs corrupt_snapshot_world !! ParseJava.INDEX_JSON = None
        ∧ (WARNING, FileNotFoundCreating ParseJava.INDEX_JSON) ∈ added)
       ∨ (is_Some (fs corrupt_snapshot_world !! ParseJava.INDEX_JSON)
          ∧ added = [(ERROR, ErrorLoadingFile ParseJava.INDEX_JSON JSONDecodeError)])).
Proof.
  apply (@load_degrades_to_empty value_codec corrupt_snapshot_world ParseJava.INDEX_JSON).
  right. exists None. split; reflexivity.
Defined.

(* ===================================================================== *)
(** * Facts: diagrams/generate_diagrams.py *)
(* ===================================================================== *)

Section SequenceDiagramFacts.
Import SequenceDiagram.

(** ** The first pass *)

Lemma record_call_noise st call : is_noise call = true → record_call st call = st.
Proof.
  intros Hn. unfold record_call. rewrite Hn.
  by destruct (negb _).
Qed.

Lemma utility_caller_noise call :
  Py.str_in (Py.lower (caller_method call)) utility_methods = true →
  is_noise call = true.
Proof. intros Hc. unfold is_noise. rewrite Hc. by rewrite !orb_true_r. Qed.

Lemma utility_callee_noise call :
  Py.str_in (Py.lower (callee_method call)) utility_methods = true →
  is_noise call = true.
Proof.
  intros Hc. unfold is_noise. rewrite Hc. by rewrite !orb_true_r.
Qed.

Lemma record_call_labels_pass st call :
  labels_pass st → labels_pass (record_call st call).
Proof.
  intros Hst. unfold record_call.
  destruct (negb _); [done|].
  destruct (is_noise call) eqn:Hn; [done|].
  destruct (is_trivial_self_call call); [done|].
  intros relation calls c. cbn [calls_by_relation].
  destruct (decide ((caller_class call, callee_class call) = relation)) as [<-|Hne].
  - rewrite lookup_insert_eq. intros [= <-] Hc.
    apply elem_of_app in Hc as [Hc|Hc].
    + destruct (calls_by_relation st !! (caller_class call, callee_class call))
        as [old|] eqn:Hold; [by eapply Hst|by apply elem_of_nil in Hc].
    + apply list_elem_of_singleton in Hc as ->. cbn.
      unfold is_noise in Hn. apply orb_false_elim in Hn as [Hn Hcaller].
      apply orb_false_elim in Hn as [_ Hcallee]. done.
  - rewrite lookup_insert_ne by done. apply Hst.
Qed.

Lemma record_file_labels_pass st d :
  labels_pass st → labels_pass (record_file st d).
Proof.
  unfold record_file. induction (call_graph d) as [|c cs IH] in st |- *; [done|].
  intros Hst. cbn [foldl]. by apply IH, record_call_labels_pass.
Qed.

Lemma first_pass_labels_pass (index_data : index) :
  labels_pass (first_pass index_data).
Proof.
  unfold first_pass.
  assert (Hinit : labels_pass (FirstPass ∅ ∅)) by (by intros ? ? ? ?).
  revert Hinit. generalize (FirstPass ∅ ∅).
  induction ((map_to_list index_data).*2) as [|d ds IH]; intros st Hst; [done|].
  cbn [foldl]. by apply IH, record_file_labels_pass.
Qed.

(** Taking the calls of utility callers out of an entry changes nothing
    in the first pass. *)
Lemma record_file_without_utility_callers st d :
  record_file st (without_utility_callers d) = record_file st d.
Proof.
  unfold record_file, without_utility_callers. cbn [call_graph].
  induction (call_graph d) as [|c cs IH] in st |- *; [done|].
  rewrite filter_cons. cbn [foldl].
  destruct (Py.str_in (Py.lower (caller_method c)) utility_methods) eqn:Hc.
  - rewrite decide_False by done.
    rewrite (record_call_noise st c) by (by apply utility_caller_noise). apply IH.
  - rewrite decide_True by done. cbn [foldl]. apply IH.
Qed.

Lemma first_pass_without_utility_callers (index_data : index) :
  first_pass (without_utility_callers <$> index_data) = first_pass index_data.
Proof.
  unfold first_pass.
  assert ((map_to_list (without_utility_callers <$> index_data)).*2
          = without_utility_callers <$> (map_to_list index_data).*2) as ->.
  { rewrite map_to_list_fmap, <- !list_fmap_compose. by apply list_fmap_ext. }
  generalize (FirstPass ∅ ∅).
  induction ((map_to_list index_data).*2) as [|d ds IH]; intros st; [done|].
  rewrite fmap_cons. cbn [foldl].
  rewrite record_file_without_utility_callers. apply IH.
Qed.

(** ** Edges *)

(** The edges of the items of [calls_by_relation], none for a pair of a
    class with itself. *)
Lemma foldl_add_edge items : ∀ edges,
  foldl add_edge edges items
  = edges ++ (items ≫= fun item =>
                if String.eqb item.1.1 item.1.2 then []
                else [Edge item.1.1 item.1.2 (edge_label item.2)]).
Proof.
  induction items as [|[[a b] calls] items IH]; intros edges.
  - cbn. by rewrite app_nil_r.
  - cbn [foldl]. rewrite IH. cbn.
    destruct (String.eqb a b); [done|]. by rewrite <- app_assoc.
Qed.

Lemma important_calls_take calls : important_calls calls = take 3 calls.
Proof.
  unfold important_calls.
  destruct (decide (3 ≤ length calls)%nat) as [Hle|Hgt].
  - by rewrite Nat.min_l.
  - rewrite Nat.min_r by lia. rewrite !take_ge by lia. done.
Qed.

Lemma edge_label_single c :
  edge_label [c] = label_caller_method c +:+ " -> " +:+ label_callee_method c.
Proof. done. Qed.

Lemma edge_label_multiple calls :
  (2 ≤ length calls)%nat → edge_label calls = pretty (length calls) +:+ " calls".
Proof.
  intros Hlen. destruct calls as [|c1 [|c2 [|c3 rest]]]; cbn in Hlen; try lia; done.
Qed.

(** A class pair is recorded together with a call: its list of calls is
    never empty. *)
Lemma record_call_calls_nonempty st call :
  (∀ relation calls, calls_by_relation st !! relation = Some calls → calls ≠ []) →
  ∀ relation calls,
    calls_by_relation (record_call st call) !! relation = Some calls → calls ≠ [].
Proof.
  intros Hst. unfold record_call.
  destruct (negb _); [done|].
  destruct (is_noise call); [done|].
  destruct (is_trivial_self_call call); [done|].
  intros relation calls. cbn [calls_by_relation].
  destruct (decide ((caller_class call, callee_class call) = relation)) as [<-|Hne].
  - rewrite lookup_insert_eq. intros [= <-]. by destruct (default [] _).
  - rewrite lookup_insert_ne by done. apply Hst.
Qed.

Lemma first_pass_calls_nonempty (index_data : index) relation calls :
  calls_by_relation (first_pass index_data) !! relation = Some calls → calls ≠ [].
Proof.
  revert relation calls. unfold first_pass.
  assert (Hinit : ∀ relation calls,
            calls_by_relation (FirstPass ∅ ∅) !! relation = Some calls → calls ≠ [])
    by (by intros ? ?).
  revert Hinit. generalize (FirstPass ∅ ∅).
  induction ((map_to_list index_data).*2) as [|d ds IH]; intros st Hst; [done|].
  cbn [foldl]. apply IH. clear IH. unfold record_file.
  induction (call_graph d) as [|c cs IHc] in st, Hst |- *; [done|].
  cbn [foldl]. by apply IHc, record_call_calls_nonempty.
Qed.

(** C8: the label of the edge of a class pair.  A pair of distinct
    classes with retained calls has at least one call and one label: with
    one retained call the label is that call, [caller_method ->
    callee_method], and with two calls or more it is the count of all the
    retained calls of the pair, ["<n> calls"], for two and three calls as
    for more.  The first three calls are taken as important only to see
    whether there is a single one; none of them is kept as a label of a
    pair with several calls. *)
Theorem edge_label_single_or_count (index_data : index) caller callee calls :
  calls_by_relation (first_pass index_data) !! (caller, callee) = Some calls →
  caller ≠ callee →
  calls ≠ []
  ∧ ∃ l0,
      Edge caller callee l0 ∈ graph_edges (sequence_graph index_data)
      ∧ (∀ l, Edge caller callee l ∈ graph_edges (sequence_graph index_data) → l = l0)
      ∧ (∀ c, calls = [c] →
              l0 = label_caller_method c +:+ " -> " +:+ label_callee_method c)
      ∧ ((2 ≤ length calls)%nat → l0 = pretty (length calls) +:+ " calls").
Proof.
  intros Hcalls Hne.
  split; [by eapply first_pass_calls_nonempty|].
  exists (edge_label calls).
  unfold sequence_graph. cbn [graph_edges]. rewrite foldl_add_edge. cbn [app].
  split; [|split; [|split]].
  - apply list_elem_of_bind. exists ((caller, callee), calls).
    split; [|by apply elem_of_map_to_list]. cbn.
    apply String.eqb_neq in Hne. rewrite Hne. by left.
  - intros l Hl. apply list_elem_of_bind in Hl as ([[a b] calls'] & Hl & Hitem).
    cbn in Hl. destruct (String.eqb a b); [by apply elem_of_nil in Hl|].
    apply list_elem_of_singleton in Hl. injection Hl as -> -> ->.
    apply elem_of_map_to_list in Hitem. rewrite Hcalls in Hitem.
    by injection Hitem as <-.
  - intros c ->. apply edge_label_single.
  - apply edge_label_multiple.
Qed.

(** C10: a call made from a method whose lowercased name is in the
    utility set is dropped, like a call to such a method: recording it
    leaves the participants and the calls of every class pair as they
    were, none of the labels kept for the index is its label, and the
    graph of the index is the graph of the index without such calls. *)
Theorem utility_caller_dropped (index_data : index) st call :
  Py.str_in (Py.lower (caller_method call)) utility_methods = true →
  record_call st call = st
  ∧ (∀ relation calls,
       calls_by_relation (first_pass index_data) !! relation = Some calls →
       CallLabel (caller_method call) (callee_method call) ∉ calls)
  ∧ sequence_graph (without_utility_callers <$> index_data)
    = sequence_graph index_data.
Proof.
  intros Hc. split; [by apply record_call_noise, utility_caller_noise|]. split.
  - intros relation calls Hcalls Hin.
    destruct (first_pass_labels_pass index_data _ _ _ Hcalls Hin) as [Hcaller _].
    cbn [label_caller_method] in Hcaller. congruence.
  - unfold sequence_graph. by rewrite first_pass_without_utility_callers.
Qed.

End SequenceDiagramFacts.

(** C8 at the pair of [Shop] and [Stock], with four retained calls. *)
Lemma edge_label_single_or_count_witness :
  let calls := [SequenceDiagram.CallLabel "checkout" "reserve";
                SequenceDiagram.CallLabel "checkout" "release";
                SequenceDiagram.CallLabel "refund" "restock";
                SequenceDiagram.CallLabel "checkout" "count"] in
  calls ≠ []
  ∧ ∃ l0,
      SequenceDiagram.Edge "Shop" "Stock" l0
        ∈ SequenceDiagram.graph_edges (SequenceDiagram.sequence_graph shop_index)
      ∧ (∀ l, SequenceDiagram.Edge "Shop" "Stock" l
                ∈ SequenceDiagram.graph_edges (SequenceDiagram.sequence_graph shop_index) →
              l = l0)
      ∧ (∀ c, calls = [c] →
              l0 = SequenceDiagram.label_caller_method c +:+ " -> "
                   +:+ SequenceDiagram.label_callee_method c)
      ∧ ((2 ≤ length calls)%nat → l0 = pretty (length calls) +:+ " calls").
Proof.
  apply (edge_label_single_or_count shop_index "Shop" "Stock").
  - vm_compute. reflexivity.
  - discriminate.
Defined.

(** C8 as stated fails: a pair with two retained calls keeps neither of
    them as a representative label; its edge is labelled with the count. *)
Lemma few_calls_no_representative_label :
  SequenceDiagram.calls_by_relation (SequenceDiagram.first_pass two_calls_index)
    !! ("Shop", "Bank")
    = Some [SequenceDiagram.CallLabel "checkout" "charge";
            SequenceDiagram.CallLabel "refund" "credit"]
  ∧ SequenceDiagram.important_calls
      [SequenceDiagram.CallLabel "checkout" "charge";
       SequenceDiagram.CallLabel "refund" "credit"]
    = [SequenceDiagram.CallLabel "checkout" "charge";
       SequenceDiagram.CallLabel "refund" "credit"]
  ∧ SequenceDiagram.graph_edges (SequenceDiagram.sequence_graph two_calls_index)
    = [SequenceDiagram.Edge "Shop" "Bank" "2 calls"]
  ∧ Py.contains "checkout -> charge" "2 calls" = false
  ∧ Py.contains "refund -> credit" "2 calls" = false.
Proof.
  split; [by vm_compute|]. split; [by vm_compute|]. split; [by vm_compute|].
  split; by vm_compute.
Qed.

(** C10 at the call made from [Save] in the shop scenario. *)
Lemma utility_caller_dropped_witness :
  let call := CallInfo "Shop" "Save" "Stock" "flush" 3 in
  SequenceDiagram.record_call (SequenceDiagram.first_pass shop_index) call
    = SequenceDiagram.first_pass shop_index
  ∧ (∀ relation calls,
       SequenceDiagram.calls_by_relation (SequenceDiagram.first_pass shop_index) !! relation
         = Some calls →
       SequenceDiagram.CallLabel (caller_method call) (callee_method call) ∉ calls)
  ∧ SequenceDiagram.sequence_graph (without_utility_callers <$> shop_index)
    = SequenceDiagram.sequence_graph shop_index.
Proof.
  apply (utility_caller_dropped shop_index (SequenceDiagram.first_pass shop_index)
           (CallInfo "Shop" "Save" "Stock" "flush" 3)).
  vm_compute. reflexivity.
Defined.

(* ===================================================================== *)
(** * More facts: utils/parse_java.py *)
(* ===================================================================== *)

Section ParseJavaMoreFacts.
Import ParseJava.

Lemma foldl_classes_methods_classes t : ∀ e,
  classes (foldl extract_class_or_method e t) = classes e ++ tree_classes t.
Proof.
  induction t as [|[path n] t IH]; intros e; [by rewrite app_nil_r|].
  cbn [foldl]. rewrite IH. unfold extract_class_or_method, tree_classes. cbn.
  destruct n; try done.
  - cbn. by rewrite <- app_assoc.
  - by destruct (Py.truthy_opt (parent_class_of path)).
Qed.

Lemma foldl_classes_methods_dependencies t : ∀ e,
  dependencies (foldl extract_class_or_method e t) = dependencies e.
Proof.
  induction t as [|[path n] t IH]; intros e; [done|].
  cbn [foldl]. rewrite IH. unfold extract_class_or_method. cbn.
  destruct n; try done.
  by destruct (Py.truthy_opt (parent_class_of path)).
Qed.

Lemma foldl_dependencies_calls_classes file_path t : ∀ e,
  classes (foldl (extract_dependency_or_call file_path) e t) = classes e.
Proof.
  induction t as [|[path n] t IH]; intros e; [done|].
  cbn [foldl]. rewrite IH. unfold extract_dependency_or_call. cbn.
  destruct n; try done.
  - by destruct (Py.startswith path0 "java.").
  - by destruct (caller_context (rev path) None None).
Qed.

Lemma foldl_dependencies_calls_dependencies file_path t : ∀ e,
  dependencies (foldl (extract_dependency_or_call file_path) e t)
  = dependencies e
    ++ filter (fun d => Py.startswith d "java." = false) (tree_imports t).
Proof.
  induction t as [|[path n] t IH]; intros e; [by rewrite app_nil_r|].
  cbn [foldl]. rewrite IH. unfold extract_dependency_or_call, tree_imports. cbn.
  destruct n; try done.
  - rewrite filter_cons. destruct (Py.startswith path0 "java."); cbn.
    + by rewrite decide_False.
    + rewrite decide_True by done. by rewrite <- app_assoc.
  - by destruct (caller_context (rev path) None None).
Qed.

(** X1: what a file adds to the index.  Its classes are the names of all
    its class declarations, nested ones included, in the order of the
    traversal; its dependencies are the paths of its imports in that
    order, without those that start with ["java."] (an import from
    [javax] stays). *)
Theorem contribution_classes_dependencies file_path t :
  classes (contribution file_path t) = tree_classes t
  ∧ dependencies (contribution file_path t)
    = filter (fun d => Py.startswith d "java." = false) (tree_imports t).
Proof.
  unfold contribution.
  destruct (extract_package_lists t empty_entry) as (Hc & _ & Hd & _).
  split.
  - by rewrite foldl_dependencies_calls_classes, foldl_classes_methods_classes, Hc.
  - by rewrite foldl_dependencies_calls_dependencies,
      foldl_classes_methods_dependencies, Hd.
Qed.

(** ** The numbering of the calls *)

Lemma well_numbered_snoc calls c :
  well_numbered calls →
  sequence c = (Z.of_nat (length calls) + 1)%Z →
  well_numbered (calls ++ [c]).
Proof.
  intros Hw Hc k c' Hk.
  apply lookup_app_Some in Hk as [Hk|[Hlen Hk]]; [by apply Hw|].
  apply list_lookup_singleton_Some in Hk as [Hk <-].
  rewrite Hc. do 2 f_equal. lia.
Qed.

Lemma extract_dependency_or_call_numbered file_path e item :
  well_numbered (call_graph e) →
  well_numbered (call_graph (extract_dependency_or_call file_path e item)).
Proof.
  intros Hw. destruct item as [path n]. unfold extract_dependency_or_call. cbn.
  destruct n; try done.
  - by destruct (Py.startswith path0 "java.").
  - destruct (caller_context (rev path) None None). cbn.
    by apply well_numbered_snoc.
Qed.

Lemma foldl_classes_methods_call_graph t : ∀ e,
  call_graph (foldl extract_class_or_method e t) = call_graph e.
Proof.
  induction t as [|[path n] t IH]; intros e; [done|].
  cbn [foldl]. rewrite IH. unfold extract_class_or_method. cbn.
  destruct n; try done.
  by destruct (Py.truthy_opt (parent_class_of path)).
Qed.

Lemma foldl_dependencies_calls_numbered file_path t : ∀ e,
  well_numbered (call_graph e) →
  well_numbered (call_graph (foldl (extract_dependency_or_call file_path) e t)).
Proof.
  induction t as [|item t IH]; intros e He; [done|].
  cbn [foldl]. by apply IH, extract_dependency_or_call_numbered.
Qed.

(** X2: the sequence numbers of an entry count its calls.  If the calls
    of the entry a path had before (if it had one) are numbered 1, 2, ...
    by their place, so are the calls of its entry after the file has been
    indexed: within an entry the numbers are distinct and increasing,
    also across repeated indexing. *)
Theorem index_tree_numbered file_path t (i : index) e' :
  (∀ e, i !! file_path = Some e → well_numbered (call_graph e)) →
  index_tree file_path t i !! file_path = Some e' →
  well_numbered (call_graph e').
Proof.
  intros Hi. unfold index_tree. rewrite lookup_insert_eq. intros [= <-].
  apply foldl_dependencies_calls_numbered.
  rewrite foldl_classes_methods_call_graph.
  destruct (extract_package_lists t
              (default empty_entry
                 (match i !! file_path with
                  | Some _ => i
                  | None => <[file_path:=empty_entry]> i
                  end !! file_path))) as (_ & _ & _ & ->).
  destruct (i !! file_path) as [e|] eqn:He.
  - rewrite He. cbn. by apply Hi.
  - rewrite lookup_insert_eq. cbn. by intros k c Hk.
Qed.

End ParseJavaMoreFacts.

(** X2 at a file with two calls, indexed into the empty index. *)
Lemma index_tree_numbered_witness :
  well_numbered
    (call_graph
       (FileData ["A"] []  []
          [CallInfo "A" "run" "A" "step" 1; CallInfo "A" "run" "log" "info" 2] "")).
Proof.
  apply (index_tree_numbered "A.java"
           [([], ClassDeclaration "A");
            ([ClassDeclaration "A"; MethodDeclaration "run" [] None], MethodInvocation "" "step");
            ([ClassDeclaration "A"; MethodDeclaration "run" [] None], MethodInvocation "log" "info")]
           ∅).
  - intros e He. vm_compute in He. discriminate He.
  - vm_compute. reflexivity.
Defined.

Section ParseJavaRecords.
Import ParseJava.

Lemma extract_class_or_method_complete e item :
  Forall method_complete (methods e) →
  Forall method_complete (methods (extract_class_or_method e item)).
Proof.
  intros He. destruct item as [path n]. unfold extract_class_or_method. cbn.
  destruct n; try done.
  destruct (parent_class_of path) as [cls|] eqn:Hp; cbn; [|done].
  destruct (Py.truthy cls) eqn:Hc; [|done]. cbn.
  apply Forall_app. split; [done|]. apply Forall_singleton.
  split; [done|]. by exists parameters.
Qed.

Lemma extract_class_or_method_calls e item :
  call_graph (extract_class_or_method e item) = call_graph e.
Proof.
  destruct item as [path n]. unfold extract_class_or_method. cbn.
  destruct n; try done. by destruct (Py.truthy_opt (parent_class_of path)).
Qed.

Lemma extract_dependency_or_call_methods file_path e item :
  methods (extract_dependency_or_call file_path e item) = methods e.
Proof.
  destruct item as [path n]. unfold extract_dependency_or_call. cbn.
  destruct n; try done.
  - by destruct (Py.startswith path0 "java.").
  - by destruct (caller_context (rev path) None None).
Qed.

Lemma truthy_opt_default o : Py.truthy_opt o = true → Py.truthy (default "" o) = true.
Proof. by destruct o. Qed.

Lemma extract_dependency_or_call_complete file_path e item :
  Py.truthy (Py.replace (Py.basename file_path) ".java" "") = true →
  Forall call_complete (call_graph e) →
  Forall call_complete (call_graph (extract_dependency_or_call file_path e item)).
Proof.
  intros Hbase He. destruct item as [path n]. unfold extract_dependency_or_call. cbn.
  destruct n; try done.
  - by destruct (Py.startswith path0 "java.").
  - destruct (caller_context (rev path) None None) as [fc fm]. cbn.
    apply Forall_app. split; [done|]. apply Forall_singleton.
    assert (Hcc : Py.truthy (if negb (Py.truthy_opt fc)
                             then Py.replace (Py.basename file_path) ".java" ""
                             else default "" fc) = true).
    { destruct (Py.truthy_opt fc) eqn:Hfc; cbn; [by apply truthy_opt_default|done]. }
    unfold call_complete. cbn. split; [done|]. split.
    + destruct (Py.truthy_opt fm) eqn:Hfm; cbn; [by apply truthy_opt_default|done].
    + by destruct (Py.truthy qualifier) eqn:Hq.
Qed.

(** X3: the records of an entry are complete.  Every method recorded has
    a class (a method outside any class declaration is left out) and a
    signature made of its name; and for a file whose name without
    [".java"] is not empty, every call recorded has a caller class, a
    caller method (["unknown"] outside a method) and a callee class (the
    caller class when the call has no qualifier).  This holds after a file
    is indexed if it held for the entry the path had before. *)
Theorem index_tree_records_complete file_path t (i : index) e' :
  Py.truthy (Py.replace (Py.basename file_path) ".java" "") = true →
  (∀ e, i !! file_path = Some e →
        Forall method_complete (methods e) ∧ Forall call_complete (call_graph e)) →
  index_tree file_path t i !! file_path = Some e' →
  Forall method_complete (methods e') ∧ Forall call_complete (call_graph e').
Proof.
  intros Hbase Hi. unfold index_tree. rewrite lookup_insert_eq. intros [= <-].
  set (e0 := default empty_entry _).
  assert (He0 : Forall method_complete (methods e0) ∧ Forall call_complete (call_graph e0)).
  { subst e0. destruct (i !! file_path) as [e|] eqn:He.
    - rewrite He. cbn. by apply Hi.
    - rewrite lookup_insert_eq. cbn. split; constructor. }
  destruct (extract_package_lists t e0) as (_ & Hm & _ & Hg).
  rewrite <- Hm, <- Hg in He0. clear Hm Hg.
  generalize dependent (extract_package t e0). intros e1 [Hm1 Hc1].
  assert (H2 : Forall method_complete (methods (foldl extract_class_or_method e1 t))
               ∧ Forall call_complete (call_graph (foldl extract_class_or_method e1 t))).
  { revert e1 Hm1 Hc1. induction t as [|item t' IH]; intros e1 Hm1 Hc1; [done|].
    cbn [foldl]. apply IH.
    - by apply extract_class_or_method_complete.
    - by rewrite extract_class_or_method_calls. }
  destruct H2 as [Hm2 Hc2].
  generalize dependent (foldl extract_class_or_method e1 t). intros e2 Hm2 Hc2.
  clear Hm1 Hc1. revert e2 Hm2 Hc2.
  generalize t at 1 2. intros t2.
  induction t2 as [|item t' IH]; intros e2 Hm2 Hc2; [done|].
  cbn [foldl]. apply IH.
  - by rewrite extract_dependency_or_call_methods.
  - by apply extract_dependency_or_call_complete.
Qed.

End ParseJavaRecords.

(** X3 at a file with a method and a call outside any method. *)
Lemma index_tree_records_complete_witness :
  Forall method_complete
    (methods (FileData ["A"] [MethodInfo "run" "A" "run(int)" "void"] []
                [CallInfo "A" "unknown" "A" "init" 1] ""))
  ∧ Forall call_complete
      (call_graph (FileData ["A"] [MethodInfo "run" "A" "run(int)" "void"] []
                     [CallInfo "A" "unknown" "A" "init" 1] "")).
Proof.
  apply (index_tree_records_complete "src/A.java"
           [([], ClassDeclaration "A");
            ([ClassDeclaration "A"], MethodDeclaration "run" ["int"] None);
            ([ClassDeclaration "A"], MethodInvocation "" "init")]
           ∅).
  - reflexivity.
  - intros e He. vm_compute in He. discriminate He.
  - vm_compute. reflexivity.
Defined.

(* ===================================================================== *)
(** * More facts: impactanalysis.py *)
(* ===================================================================== *)

Section PoolFacts.
Context `{JsonLib}.
Import ConfigUtils ParseJava ImpactAnalysis.

(** Indexing two different files, one after the other, gives the same
    index in either order. *)
Lemma index_tree_comm f1 t1 f2 t2 (i : index) :
  f1 ≠ f2 →
  index_tree f1 t1 (index_tree f2 t2 i) = index_tree f2 t2 (index_tree f1 t1 i).
Proof.
  intros Hne. apply map_eq. intros k.
  destruct (decide (k = f1)) as [->|Hk1].
  - rewrite index_tree_lookup, (index_tree_lookup_ne f2) by done.
    rewrite (index_tree_lookup_ne f2) by done. by rewrite index_tree_lookup.
  - destruct (decide (k = f2)) as [->|Hk2].
    + rewrite (index_tree_lookup_ne f1) by done. rewrite !index_tree_lookup.
      by rewrite (index_tree_lookup_ne f1) by done.
    + by rewrite !index_tree_lookup_ne.
Qed.

Lemma index_after_perm java (l l' : list string) :
  l ≡ₚ l' → ∀ i : index, index_after java i l = index_after java i l'.
Proof.
  unfold index_after.
  induction 1 as [|x l l' _ IH|x y l|l l' l'' _ IH1 _ IH2]; intros i.
  - done.
  - cbn [foldl]. apply IH.
  - cbn [foldl]. f_equal. destruct (decide (x = y)) as [->|Hne]; [done|].
    destruct (java !! x) as [tx|], (java !! y) as [ty|]; try done.
    by apply index_tree_comm.
  - by rewrite IH1.
Qed.

(** X4: the order in which the tasks of the pool complete does not show in
    the index.  Two runs over the same files, completing in different
    orders, end with the same index and the same list [errors]; their
    logs hold the same records, in a different order. *)
Theorem pool_order_irrelevant w directory (l l' : list string) (i : index) errs :
  l ≡ₚ l' →
  ∃ index_data w1 w2,
    run_tasks directory l (i, errs) w = (Ok (index_data, errs), w1)
    ∧ run_tasks directory l' (i, errs) w = (Ok (index_data, errs), w2)
    ∧ fs w1 = fs w2
    ∧ log w1 ≡ₚ log w2.
Proof.
  intros Hperm. eexists _, _, _. split; [apply run_tasks_spec|].
  split; [rewrite run_tasks_spec; by rewrite (index_after_perm _ _ _ Hperm)|].
  split; [done|]. cbn [log]. by rewrite Hperm.
Qed.

Lemma index_after_lookup_notin java (l : list string) q : ∀ i : index,
  q ∉ l → index_after java i l !! q = i !! q.
Proof.
  unfold index_after. induction l as [|f l IH]; intros i Hq; [done|].
  apply not_elem_of_cons in Hq as [Hqf Hq]. cbn [foldl]. rewrite IH by done.
  destruct (java !! f); [|done]. by rewrite index_tree_lookup_ne.
Qed.

(** A run that finds Java files and a snapshot that holds an index. *)
Lemma scan_directory_incremental_loaded w schedule directory walked t v (i0 : index) :
  walk w !! directory = Some walked →
  fs w !! INDEX_JSON = Some t →
  json_load t = Some v →
  index_of_json v = Some i0 →
  java_files_of walked ≠ [] →
  scan_directory_incremental schedule directory w =
    (Ok (Some (index_after (java w) i0 (schedule (java_files_of walked)), [])),
     World (<[INDEX_JSON := json_dump (Some 4%nat)
                (json_of_index
                   (index_after (java w) i0 (schedule (java_files_of walked))))]> (fs w))
           (java w) (walk w)
           (log w ++ [(INFO, FoundJavaFiles (length (java_files_of walked)) directory)]
                  ++ (schedule (java_files_of walked) ≫= task_log (java w)))).
Proof.
  intros Hwalk Hfs Hload Hidx Hne.
  unfold scan_directory_incremental.
  erewrite bind_ok;
    [|unfold os_path_exists_dir;
      rewrite Hwalk, bool_decide_eq_true_2 by done; reflexivity].
  cbn [negb].
  erewrite bind_ok; [|by eapply load_from_file_wellformed].
  erewrite bind_ok; [|unfold os_walk; cbn [walk]; by rewrite Hwalk].
  change (default [] (Some walked)) with walked.
  destruct (java_files_of walked) as [|f0 files] eqn:Hfiles; [done|].
  erewrite bind_ok; [|reflexivity].
  rewrite Hidx.
  erewrite bind_ok; [|apply run_tasks_spec].
  cbn [snd fst].
  erewrite bind_ok; [|reflexivity].
  erewrite bind_ok; [|by apply save_to_file_ok; [apply INDEX_JSON_file|apply INDEX_JSON_dirname]].
  unfold ret. cbn [fs java walk log fst snd].
  do 2 f_equal. by rewrite <- !app_assoc.
Qed.

(** X5: the scan is incremental.  When the snapshot holds an index and the
    directory has Java files, the run ends normally with an empty list
    [errors]; the index it saves has the entries of the snapshot, as they
    were, for every path that is not scanned, and an entry for every
    scanned file that parses. *)
Theorem scan_keeps_snapshot_entries w schedule directory walked t v (i0 : index) :
  walk w !! directory = Some walked →
  fs w !! INDEX_JSON = Some t →
  json_load t = Some v →
  index_of_json v = Some i0 →
  java_files_of walked ≠ [] →
  schedule (java_files_of walked) ≡ₚ java_files_of walked →
  ∃ (index_data : index) w',
    scan_directory_incremental schedule directory w = (Ok (Some (index_data, [])), w')
    ∧ fs w' !! INDEX_JSON = Some (json_dump (Some 4%nat) (json_of_index index_data))
    ∧ (∀ q, q ∉ java_files_of walked → index_data !! q = i0 !! q)
    ∧ (∀ f, f ∈ java_files_of walked → is_Some (java w !! f) → is_Some (index_data !! f)).
Proof.
  intros Hwalk Hfs Hload Hidx Hne Hperm.
  eexists _, _. split; [by eapply scan_directory_incremental_loaded|].
  cbn [fs]. split; [apply lookup_insert_eq|]. split.
  - intros q Hq. apply index_after_lookup_notin. by rewrite Hperm.
  - intros f Hf Hj. apply elem_of_dom. rewrite dom_index_after.
    apply elem_of_union_r, elem_of_list_to_set, list_elem_of_filter.
    split; [done|]. by rewrite Hperm.
Qed.

(** X6: a directory that does not exist.  The run logs one error and
    returns at once: the snapshot is not read, no file is written. *)
Theorem scan_missing_directory w schedule directory :
  walk w !! directory = None →
  scan_directory_incremental schedule directory w =
    (Ok None,
     World (fs w) (java w) (walk w)
           (log w ++ [(ERROR, DirectoryDoesNotExist directory)])).
Proof.
  intros Hwalk. unfold scan_directory_incremental.
  erewrite bind_ok;
    [|unfold os_path_exists_dir;
      rewrite Hwalk, bool_decide_eq_false_2 by (by intros [? ?]); reflexivity].
  cbn [negb]. reflexivity.
Qed.

(** X7: a directory without Java files.  The run returns early with a
    warning and saves nothing; but the snapshot has been loaded before the
    files are listed, so a snapshot that was missing now exists and holds
    the empty index. *)
Theorem scan_no_java_files w schedule directory walked :
  walk w !! directory = Some walked →
  java_files_of walked = [] →
  fs w !! INDEX_JSON = None →
  scan_directory_incremental schedule directory w =
    (Ok None,
     World (<[INDEX_JSON := json_dump None (JDict [])]> (fs w)) (java w) (walk w)
           (log w ++ [(WARNING, FileNotFoundCreating INDEX_JSON);
                      (WARNING, NoJavaFilesFound directory)])).
Proof.
  intros Hwalk Hfiles Hfs. unfold scan_directory_incremental.
  erewrite bind_ok;
    [|unfold os_path_exists_dir;
      rewrite Hwalk, bool_decide_eq_true_2 by done; reflexivity].
  cbn [negb].
  erewrite bind_ok; [|by apply load_from_file_missing; [|apply INDEX_JSON_file|apply INDEX_JSON_dirname]].
  erewrite bind_ok; [|unfold os_walk; cbn [walk]; by rewrite Hwalk].
  change (default [] (Some walked)) with walked. rewrite Hfiles.
  erewrite bind_ok; [|reflexivity].
  unfold ret. cbn [fs java walk log]. by rewrite <- app_assoc.
Qed.

End PoolFacts.

(* ===================================================================== *)
(** * Facts: strings *)
(* ===================================================================== *)

Section StringFacts.

Lemma append_cons a s t : String a s +:+ t = String a (s +:+ t).
Proof. reflexivity. Qed.

Lemma append_nil_r s : s +:+ "" = s.
Proof. induction s as [|a s IH]; [done|]. by rewrite append_cons, IH. Qed.

Lemma append_assoc s t u : (s +:+ t) +:+ u = s +:+ (t +:+ u).
Proof. induction s as [|a s IH]; [done|]. by rewrite !append_cons, IH. Qed.

Lemma prefix_app p s t :
  String.prefix p s = true → String.prefix p (s +:+ t) = true.
Proof.
  revert s. induction p as [|a p IH]; intros s Hp; [by destruct (s +:+ t)|].
  destruct s as [|b s]; [done|]. rewrite append_cons. cbn in *.
  destruct (Ascii.ascii_dec a b); [by apply IH|done].
Qed.

Lemma rev_app_acc s : ∀ acc, String.rev_app s acc = String.rev_app s "" +:+ acc.
Proof.
  induction s as [|a s IH]; intros acc; [done|].
  cbn. rewrite IH, (IH (String a "")). by rewrite append_assoc.
Qed.

Lemma rev_append s t : String.rev (s +:+ t) = String.rev t +:+ String.rev s.
Proof.
  unfold String.rev. induction s as [|a s IH].
  - change (String.rev_app t "" = String.rev_app t "" +:+ "").
    by rewrite append_nil_r.
  - rewrite append_cons.
    change (String.rev_app (s +:+ t) (String a "")
            = String.rev_app t "" +:+ String.rev_app s (String a "")).
    rewrite rev_app_acc, IH, (rev_app_acc s (String a "")).
    by rewrite append_assoc.
Qed.

Lemma endswith_app t s suffix :
  Py.endswith s suffix = true → Py.endswith (t +:+ s) suffix = true.
Proof.
  unfold Py.endswith. intros Hs. rewrite rev_append. by apply prefix_app.
Qed.

End StringFacts.

Section WalkFacts.
Import ImpactAnalysis.

Lemma path_join_suffix a b : ∃ head, Py.path_join a b = head +:+ b.
Proof.
  unfold Py.path_join.
  destruct (Py.startswith b "/"); [by exists ""|].
  destruct (negb (Py.truthy a) || Py.endswith a "/"); [by exists a|].
  exists (a +:+ "/"). by rewrite append_assoc.
Qed.

(** X8: only Java files are handed to the pool: every path the scan
    submits ends with [".java"], whatever the directories hold. *)
Theorem java_files_end_with_java walked f :
  f ∈ java_files_of walked → Py.endswith f ".java" = true.
Proof.
  unfold java_files_of. intros Hf.
  apply list_elem_of_bind in Hf as ([root files] & Hf & _). cbn in Hf.
  apply list_elem_of_fmap in Hf as (file & -> & Hfile).
  apply list_elem_of_filter in Hfile as [Hjava _].
  destruct (path_join_suffix root file) as [head ->].
  by apply endswith_app.
Qed.

End WalkFacts.

(** X8 at the directory of the ten files, which also holds a README. *)
Lemma java_files_end_with_java_witness : Py.endswith "repo/F7.java" ".java" = true.
Proof.
  apply (java_files_end_with_java [("repo", ten_files ++ ["README.md"])] "repo/F7.java").
  apply (bool_decide_unpack _). vm_compute. reflexivity.
Defined.

(** X4 at two of the ten files, in both orders. *)
Lemma pool_order_irrelevant_witness :
  ∃ index_data w1 w2,
    @ImpactAnalysis.run_tasks value_codec "repo" ["repo/F1.java"; "repo/F2.java"]
      (∅, []) ten_files_world = (Ok (index_data, []), w1)
    ∧ @ImpactAnalysis.run_tasks value_codec "repo" ["repo/F2.java"; "repo/F1.java"]
        (∅, []) ten_files_world = (Ok (index_data, []), w2)
    ∧ fs w1 = fs w2
    ∧ log w1 ≡ₚ log w2.
Proof.
  apply (@pool_order_irrelevant value_codec ten_files_world "repo"
           ["repo/F1.java"; "repo/F2.java"] ["repo/F2.java"; "repo/F1.java"] ∅ []).
  apply perm_swap.
Defined.

(** X5 at a snapshot holding the order scenario and a directory with one
    new file. *)
Lemma scan_keeps_snapshot_entries_witness :
  ∃ (index_data : index) w',
    @ImpactAnalysis.scan_directory_incremental value_codec id "repo" rescan_world
      = (Ok (Some (index_data, [])), w')
    ∧ fs w' !! ParseJava.INDEX_JSON
      = Some (@json_dump value_codec (Some 4%nat) (json_of_index index_data))
    ∧ (∀ q, q ∉ ImpactAnalysis.java_files_of [("repo", ["Invoice.java"; "notes.txt"])] →
            index_data !! q = order_index !! q)
    ∧ (∀ f, f ∈ ImpactAnalysis.java_files_of [("repo", ["Invoice.java"; "notes.txt"])] →
            is_Some (java rescan_world !! f) → is_Some (index_data !! f)).
Proof.
  apply (@scan_keeps_snapshot_entries value_codec rescan_world id "repo"
           [("repo", ["Invoice.java"; "notes.txt"])]
           (Some (json_of_index order_index)) (json_of_index order_index) order_index).
  - reflexivity.
  - reflexivity.
  - reflexivity.
  - apply index_of_json_of_index.
  - vm_compute. discriminate.
  - reflexivity.
Defined.

(** X6 at a directory that is not there. *)
Lemma scan_missing_directory_witness :
  @ImpactAnalysis.scan_directory_incremental value_codec id "./cloned_repo" empty_world =
    (Ok None,
     @World value_codec (fs empty_world) (java empty_world) (walk empty_world)
            (log empty_world ++ [(ERROR, DirectoryDoesNotExist "./cloned_repo")])).
Proof.
  apply (@scan_missing_directory value_codec empty_world id "./cloned_repo").
  reflexivity.
Defined.

(** X7 at a directory that holds a README only. *)
Lemma scan_no_java_files_witness :
  @ImpactAnalysis.scan_directory_incremental value_codec id "docs" no_java_world =
    (Ok None,
     @World value_codec
       (<[ParseJava.INDEX_JSON := @json_dump value_codec None (JDict [])]> (fs no_java_world))
       (java no_java_world) (walk no_java_world)
       (log no_java_world ++ [(WARNING, FileNotFoundCreating ParseJava.INDEX_JSON);
                              (WARNING, NoJavaFilesFound "docs")])).
Proof.
  apply (@scan_no_java_files value_codec no_java_world id "docs" [("docs", ["README.md"])]).
  - reflexivity.
  - reflexivity.
  - reflexivity.
Defined.

(* ===================================================================== *)
(** * More facts: utils/config_utils.py *)
(* ===================================================================== *)

Section ConfigUtilsMoreFacts.
Context `{JsonLib}.
Import ConfigUtils.

(** X9: loading the missing snapshot creates it, so that the next load
    finds the empty index there and has nothing more to do: it returns
    [{}], writes nothing and logs nothing.  Under any other path the
    same holds whenever the first load has created the file (it creates
    none under a bare file name or a path that names a directory). *)
Theorem load_from_file_settles w :
  json_roundtrip →
  fs w !! ParseJava.INDEX_JSON = None →
  (∃ w1,
     load_from_file ParseJava.INDEX_JSON w = (Ok (JDict []), w1)
     ∧ is_Some (fs w1 !! ParseJava.INDEX_JSON)
     ∧ load_from_file ParseJava.INDEX_JSON w1 = (Ok (JDict []), w1))
  ∧ ∀ file_path v w1,
      fs w !! file_path = None →
      load_from_file file_path w = (Ok v, w1) →
      is_Some (fs w1 !! file_path) →
      v = JDict [] ∧ load_from_file file_path w1 = (Ok (JDict []), w1).
Proof.
  intros Hrt Hfs.
  assert (Hnext : ∀ file_path,
            load_from_file file_path
              (World (<[file_path := json_dump None (JDict [])]> (fs w)) (java w) (walk w)
                     (log w ++ [(WARNING, FileNotFoundCreating file_path)]))
            = (Ok (JDict []),
               World (<[file_path := json_dump None (JDict [])]> (fs w)) (java w) (walk w)
                     (log w ++ [(WARNING, FileNotFoundCreating file_path)]))).
  { intros file_path. eapply load_from_file_wellformed; cbn [fs].
    - apply lookup_insert_eq.
    - apply Hrt. }
  split.
  - eexists. split;
      [by apply load_from_file_missing; [|apply INDEX_JSON_file|apply INDEX_JSON_dirname]|].
    cbn [fs]. rewrite lookup_insert_eq. split; [done|]. apply Hnext.
  - intros file_path v w1 Hmissing Hload Hsome.
    destruct (Py.truthy (Py.dirname file_path)) eqn:Hdir.
    + destruct (names_directory file_path) eqn:Hfile.
      * rewrite load_from_file_missing_directory in Hload by done.
        injection Hload as <- <-. cbn [fs] in Hsome.
        rewrite Hmissing in Hsome. by destruct Hsome.
      * rewrite load_from_file_missing in Hload by done.
        injection Hload as <- <-. split; [done|]. apply Hnext.
    + rewrite load_from_file_missing_bare in Hload by done.
      injection Hload as <- <-. cbn [fs] in Hsome.
      rewrite Hmissing in Hsome. by destruct Hsome.
Qed.

(** X10: the last save wins, and a save touches its own file only.  Two
    saves of the snapshot return, and after two saves to one path that
    return, of the snapshot or of another file, loading gives the second
    value; every other file is as it was before, and saving logs
    nothing. *)
Theorem last_save_wins w first second :
  json_roundtrip →
  (∃ w1 w2,
     save_to_file ParseJava.INDEX_JSON first w = (Ok tt, w1)
     ∧ save_to_file ParseJava.INDEX_JSON second w1 = (Ok tt, w2))
  ∧ ∀ file_path w1 w2,
      save_to_file file_path first w = (Ok tt, w1) →
      save_to_file file_path second w1 = (Ok tt, w2) →
      load_from_file file_path w2 = (Ok second, w2)
      ∧ (∀ other, other ≠ file_path → fs w2 !! other = fs w !! other)
      ∧ log w2 = log w.
Proof.
  intros Hrt. split.
  - eexists _, _.
    split; by apply save_to_file_ok; [apply INDEX_JSON_file|apply INDEX_JSON_dirname].
  - intros file_path w1 w2 Hfirst Hsecond.
    apply save_to_file_returns in Hfirst as ->.
    apply save_to_file_returns in Hsecond as ->.
    cbn [fs java walk log]. split; [|split; [|done]].
    + eapply load_from_file_wellformed; cbn [fs]; [apply lookup_insert_eq|apply Hrt].
    + intros other Hne. by rewrite !lookup_insert_ne.
Qed.

(** X11: a snapshot under a bare file name is never persisted.  The
    directory part of such a name is empty and [os.makedirs] refuses it:
    [save_to_file] raises and writes nothing, while [load_from_file]
    catches the same exception, returns [{}] and does not create the
    file. *)
Theorem bare_file_name_not_persisted w file_path data :
  Py.truthy (Py.dirname file_path) = false →
  fs w !! file_path = None →
  save_to_file file_path data w = (Raise FileNotFoundError, w)
  ∧ ∃ w1,
      load_from_file file_path w = (Ok (JDict []), w1)
      ∧ fs w1 = fs w
      ∧ log w1 = log w ++ [(WARNING, FileNotFoundCreating file_path);
                           (ERROR, ErrorLoadingFile file_path FileNotFoundError)].
Proof.
  intros Hdir Hfs. split; [by apply save_to_file_bare|].
  eexists. split; [by apply load_from_file_missing_bare|]. done.
Qed.

End ConfigUtilsMoreFacts.

(** X9 in an empty file system. *)
Lemma load_from_file_settles_witness :
  (∃ w1,
     @ConfigUtils.load_from_file value_codec ParseJava.INDEX_JSON empty_world
       = (Ok (JDict []), w1)
     ∧ is_Some (fs w1 !! ParseJava.INDEX_JSON)
     ∧ @ConfigUtils.load_from_file value_codec ParseJava.INDEX_JSON w1 = (Ok (JDict []), w1))
  ∧ ∀ file_path v w1,
      fs empty_world !! file_path = None →
      @ConfigUtils.load_from_file value_codec file_path empty_world = (Ok v, w1) →
      is_Some (fs w1 !! file_path) →
      v = JDict []
      ∧ @ConfigUtils.load_from_file value_codec file_path w1 = (Ok (JDict []), w1).
Proof.
  apply (@load_from_file_settles value_codec empty_world).
  - intros indent v. reflexivity.
  - reflexivity.
Defined.

(** X10 at two indexes saved one after the other. *)
Lemma last_save_wins_witness :
  (∃ w1 w2,
     @ConfigUtils.save_to_file value_codec ParseJava.INDEX_JSON (json_of_index order_index)
       empty_world = (Ok tt, w1)
     ∧ @ConfigUtils.save_to_file value_codec ParseJava.INDEX_JSON (json_of_index shop_index)
         w1 = (Ok tt, w2))
  ∧ ∀ file_path w1 w2,
      @ConfigUtils.save_to_file value_codec file_path (json_of_index order_index)
        empty_world = (Ok tt, w1) →
      @ConfigUtils.save_to_file value_codec file_path (json_of_index shop_index)
        w1 = (Ok tt, w2) →
      @ConfigUtils.load_from_file value_codec file_path w2
        = (Ok (json_of_index shop_index), w2)
      ∧ (∀ other, other ≠ file_path → fs w2 !! other = fs empty_world !! other)
      ∧ log w2 = log empty_world.
Proof.
  apply (@last_save_wins value_codec empty_world
           (json_of_index order_index) (json_of_index shop_index)).
  intros indent v. reflexivity.
Defined.

(** X11 at the file name ["index.json"]. *)
Lemma bare_file_name_not_persisted_witness :
  @ConfigUtils.save_to_file value_codec "index.json" (json_of_index order_index) empty_world
    = (Raise FileNotFoundError, empty_world)
  ∧ ∃ w1,
      @ConfigUtils.load_from_file value_codec "index.json" empty_world = (Ok (JDict []), w1)
      ∧ fs w1 = fs empty_world
      ∧ log w1 = log empty_world
                 ++ [(WARNING, FileNotFoundCreating "index.json");
                     (ERROR, ErrorLoadingFile "index.json" FileNotFoundError)].
Proof.
  apply (@bare_file_name_not_persisted value_codec empty_world "index.json"
           (json_of_index order_index)).
  - reflexivity.
  - reflexivity.
Defined.

(* ===================================================================== *)
(** * Facts: the diagrams and the snapshot *)
(* ===================================================================== *)

Section DiagramSnapshotFacts.
Context `{JsonLib}.
Import ConfigUtils ParseJava.

(** A snapshot that is missing, is not JSON, or holds an empty value
    loads as a value that counts as no data. *)
Lemma load_from_file_no_data w :
  fs w !! INDEX_JSON = None
  ∨ (∃ t, fs w !! INDEX_JSON = Some t
          ∧ (json_load t = None ∨ ∃ v, json_load t = Some v ∧ falsy v = true)) →
  ∃ v w1 records,
    load_from_file INDEX_JSON w = (Ok v, w1) ∧ falsy v = true
    ∧ log w1 = log w ++ records.
Proof.
  intros [Hfs|(t & Hfs & [Hload|(v & Hload & Hv)])].
  - eexists _, _, _. split; [by apply load_from_file_missing; [|apply INDEX_JSON_file|apply INDEX_JSON_dirname]|].
    by split.
  - eexists _, _, _. split; [by eapply load_from_file_malformed|]. by split.
  - exists v, w, []. split; [by eapply load_from_file_wellformed|].
    split; [done|]. by rewrite app_nil_r.
Qed.

(** X12: without data there is no diagram.  When the snapshot is missing,
    is not JSON, or holds an empty value, the class diagram and the
    sequence diagram are skipped: each returns normally without a graph,
    its last log record being the warning that it is skipped. *)
Theorem diagrams_skipped_without_data w :
  fs w !! INDEX_JSON = None
  ∨ (∃ t, fs w !! INDEX_JSON = Some t
          ∧ (json_load t = None ∨ ∃ v, json_load t = Some v ∧ falsy v = true)) →
  (∃ w' records,
     ClassDiagram.generate_class_diagram INDEX_DIR INDEX_JSON w = (Ok None, w')
     ∧ log w' = log w ++ records ++ [(WARNING, NoDataSkipping "class")])
  ∧ (∃ w' records,
       SequenceDiagram.generate_sequence_diagram w = (Ok None, w')
       ∧ log w' = log w ++ records ++ [(WARNING, NoDataSkipping "sequence")]).
Proof.
  intros Hno. split.
  - destruct (load_from_file_no_data
                (World (fs w) (java w) (walk w) (log w ++ [(INFO, StartingDiagram "class")])))
      as (v & w1 & records & Hload & Hv & Hlog); [done|].
    eexists _, ((INFO, StartingDiagram "class") :: records).
    unfold ClassDiagram.generate_class_diagram.
    erewrite bind_ok; [|reflexivity].
    erewrite bind_ok; [|exact Hload]. rewrite Hv.
    erewrite bind_ok; [|reflexivity]. split; [reflexivity|].
    cbn [log] in *. rewrite Hlog. by rewrite <- !app_assoc.
  - destruct (load_from_file_no_data
                (World (fs w) (java w) (walk w) (log w ++ [(INFO, StartingDiagram "sequence")])))
      as (v & w1 & records & Hload & Hv & Hlog); [done|].
    eexists _, ((INFO, StartingDiagram "sequence") :: records).
    unfold SequenceDiagram.generate_sequence_diagram.
    erewrite bind_ok; [|reflexivity].
    erewrite bind_ok; [|exact Hload]. rewrite Hv.
    erewrite bind_ok; [|reflexivity]. split; [reflexivity|].
    cbn [log] in *. rewrite Hlog. by rewrite <- !app_assoc.
Qed.

Lemma falsy_json_of_index (i : index) : i ≠ ∅ → falsy (json_of_index i) = false.
Proof.
  intros Hi. unfold json_of_index. cbn.
  destruct (map_to_list i) as [|kv l] eqn:Hl; [|done].
  by apply map_to_list_empty_iff in Hl.
Qed.

(** X13: the diagrams draw the index that was saved.  After a non-empty
    index has been saved as the snapshot, the class diagram and the
    sequence diagram are built from exactly that index. *)
Theorem saved_index_is_drawn w (index_data : index) :
  json_roundtrip →
  index_data ≠ ∅ →
  ∃ w1 w2 w3,
    save_to_file INDEX_JSON (json_of_index index_data) w = (Ok tt, w1)
    ∧ ClassDiagram.generate_class_diagram INDEX_DIR INDEX_JSON w1
      = (Ok (Some (ClassDiagram.class_graph index_data)), w2)
    ∧ SequenceDiagram.generate_sequence_diagram w1
      = (Ok (Some (SequenceDiagram.sequence_graph index_data)), w3).
Proof.
  intros Hrt Hne. eexists _, _, _.
  split; [by apply save_to_file_ok; [apply INDEX_JSON_file|apply INDEX_JSON_dirname]|]. split.
  - unfold ClassDiagram.generate_class_diagram.
    erewrite bind_ok; [|reflexivity].
    erewrite bind_ok;
      [|eapply load_from_file_wellformed; cbn [fs]; [apply lookup_insert_eq|apply Hrt]].
    rewrite falsy_json_of_index, index_of_json_of_index by done. reflexivity.
  - unfold SequenceDiagram.generate_sequence_diagram.
    erewrite bind_ok; [|reflexivity].
    erewrite bind_ok;
      [|eapply load_from_file_wellformed; cbn [fs]; [apply lookup_insert_eq|apply Hrt]].
    rewrite falsy_json_of_index, index_of_json_of_index by done. reflexivity.
Qed.

End DiagramSnapshotFacts.

(** X12 at a snapshot that is not JSON. *)
Lemma diagrams_skipped_without_data_witness :
  (∃ w' records,
     @ClassDiagram.generate_class_diagram value_codec ParseJava.INDEX_DIR ParseJava.INDEX_JSON
       corrupt_snapshot_world = (Ok None, w')
     ∧ log w' = log corrupt_snapshot_world ++ records ++ [(WARNING, NoDataSkipping "class")])
  ∧ (∃ w' records,
       @SequenceDiagram.generate_sequence_diagram value_codec corrupt_snapshot_world
         = (Ok None, w')
       ∧ log w' = log corrupt_snapshot_world ++ records
                  ++ [(WARNING, NoDataSkipping "sequence")]).
Proof.
  apply (@diagrams_skipped_without_data value_codec corrupt_snapshot_world).
  right. exists None. split; [reflexivity|]. left. reflexivity.
Defined.

(** X13 at the index of the shop scenario. *)
Lemma saved_index_is_drawn_witness :
  ∃ w1 w2 w3,
    @ConfigUtils.save_to_file value_codec ParseJava.INDEX_JSON (json_of_index shop_index)
      empty_world = (Ok tt, w1)
    ∧ @ClassDiagram.generate_class_diagram value_codec ParseJava.INDEX_DIR ParseJava.INDEX_JSON w1
      = (Ok (Some (ClassDiagram.class_graph shop_index)), w2)
    ∧ @SequenceDiagram.generate_sequence_diagram value_codec w1
      = (Ok (Some (SequenceDiagram.sequence_graph shop_index)), w3).
Proof.
  apply (@saved_index_is_drawn value_codec empty_world shop_index).
  - intros indent v. reflexivity.
  - apply (bool_decide_unpack _). vm_compute. reflexivity.
Defined.

(* ===================================================================== *)
(** * More facts: diagrams/generate_class_diagram.py *)
(* ===================================================================== *)

Section ClassDiagramMoreFacts.
Import ClassDiagram.

(** ** Nodes *)

(** One step of the first pass keeps the list of nodes and the set of
    processed classes in step: the nodes are the processed classes, each
    once. *)
Lemma first_pass_class_nodes package_name st class_info :
  NoDup (nodes st) ∧ (∀ x, x ∈ nodes st ↔ x ∈ processed_classes st) →
  NoDup (nodes (first_pass_class package_name st class_info))
  ∧ (∀ x, x ∈ nodes (first_pass_class package_name st class_info)
          ↔ x ∈ processed_classes (first_pass_class package_name st class_info)).
Proof.
  intros [Hnd Hin]. unfold first_pass_class.
  destruct (negb (Py.truthy class_info)); [done|].
  case_bool_decide as Hp; [done|]. cbn [orb].
  destruct (Py.startswith_any _ excluded_patterns); [done|].
  cbn [nodes processed_classes]. split.
  - apply NoDup_app. split; [done|]. split; [|apply NoDup_singleton].
    intros x Hx Hx'. apply list_elem_of_singleton in Hx' as ->. by apply Hp, Hin.
  - intros x. rewrite elem_of_app, list_elem_of_singleton, elem_of_union,
      elem_of_singleton, Hin. tauto.
Qed.

Lemma first_pass_nodes (items : list (string * file_data)) : ∀ st,
  NoDup (nodes st) ∧ (∀ x, x ∈ nodes st ↔ x ∈ processed_classes st) →
  NoDup (nodes (foldl first_pass_file st items))
  ∧ (∀ x, x ∈ nodes (foldl first_pass_file st items)
          ↔ x ∈ processed_classes (foldl first_pass_file st items)).
Proof.
  induction items as [|item items IH]; intros st Hst; [done|].
  cbn [foldl]. apply IH. unfold first_pass_file.
  induction (classes item.2) as [|c cs IHc] in st, Hst |- *; [done|].
  cbn [foldl]. by apply IHc, first_pass_class_nodes.
Qed.

(** A processed class was processed before, or is a class of the entry:
    named, and not excluded. *)
Lemma first_pass_class_processed_inv package_name st class_info x :
  x ∈ processed_classes (first_pass_class package_name st class_info) →
  x ∈ processed_classes st
  ∨ (Py.truthy class_info = true
     ∧ x = full_class_name_of package_name class_info
     ∧ Py.startswith_any x excluded_patterns = false).
Proof.
  unfold first_pass_class.
  destruct (Py.truthy class_info) eqn:Ht; cbn [negb]; [|by left].
  case_bool_decide as Hp; [by left|]. cbn [orb].
  destruct (Py.startswith_any _ excluded_patterns) eqn:Hex; [by left|].
  cbn [processed_classes]. rewrite elem_of_union, elem_of_singleton.
  intros [->|Hx]; [right|by left]. done.
Qed.

Lemma first_pass_processed_inv (items : list (string * file_data)) x : ∀ st,
  x ∈ processed_classes (foldl first_pass_file st items) →
  x ∈ processed_classes st
  ∨ ∃ item class_name,
      item ∈ items ∧ class_name ∈ classes item.2
      ∧ Py.truthy class_name = true
      ∧ x = full_class_name_of (package item.2) class_name
      ∧ Py.startswith_any x excluded_patterns = false.
Proof.
  induction items as [|item items IH]; intros st Hx; [by left|].
  cbn [foldl] in Hx. apply IH in Hx as [Hx|(it & c & Hit & Hc)].
  - assert (Hcs : x ∈ processed_classes st
                  ∨ ∃ class_name, class_name ∈ classes item.2
                      ∧ Py.truthy class_name = true
                      ∧ x = full_class_name_of (package item.2) class_name
                      ∧ Py.startswith_any x excluded_patterns = false).
    { unfold first_pass_file in Hx. revert st Hx.
      induction (classes item.2) as [|c cs IHc]; intros st Hx; [by left|].
      cbn [foldl] in Hx. apply IHc in Hx as [Hx|(c' & Hc' & Hrest)].
      - apply first_pass_class_processed_inv in Hx as [Hx|Hx]; [by left|].
        right. exists c. split; [by left|done].
      - right. exists c'. split; [by right|done]. }
    destruct Hcs as [Hst|(c & Hc)]; [by left|].
    right. exists item, c. split; [by left|done].
  - right. exists it, c. split; [by right|done].
Qed.

(** X14: the nodes of the class diagram.  A class gets a node exactly if
    it has a name and its full name starts with none of the excluded
    patterns; a full name that is declared in several files, or several
    times in one, gets one node. *)
Theorem class_nodes (index_data : index) :
  NoDup (nodes (classify index_data))
  ∧ (∀ x, x ∈ nodes (classify index_data) ↔ drawn_class index_data x)
  ∧ graph_nodes (class_graph index_data) = nodes (classify index_data) ++ ["legend"].
Proof.
  destruct (first_pass_nodes (map_to_list index_data) (FirstPass [] ∅ empty_relationships))
    as [Hnd Hin].
  { split; [apply NoDup_nil_2|]. intros x. cbn. set_solver. }
  split; [done|]. split; [|done]. intros x.
  unfold classify. cbn [nodes]. rewrite Hin. split.
  - intros Hx. apply first_pass_processed_inv in Hx as [Hx|Hx]; [set_solver|].
    destruct Hx as ([p d] & c & Hit & Hc & Ht & Hfull & Hex).
    apply elem_of_map_to_list in Hit. by exists p, d, c.
  - intros (p & d & c & Hd & Hc & Ht & -> & Hex).
    by apply (classify_processed index_data p d c).
Qed.

(** ** Edges *)

Lemma add_edges_between_nodes processed k pairs e :
  e ∈ add_edges processed k pairs →
  edge_source e ∈ processed ∧ edge_target e ∈ processed
  ∧ (edge_source e, edge_target e) ∈ pairs.
Proof.
  unfold add_edges. intros He.
  apply list_elem_of_fmap in He as ([a b] & -> & Hp).
  apply list_elem_of_filter in Hp as [Hboth Hp].
  unfold both_processed in Hboth. apply andb_prop in Hboth as [Ha Hb].
  apply bool_decide_eq_true_1 in Ha, Hb. done.
Qed.

(** X15: an edge is drawn between two nodes only.  Every edge that the
    loops over the relationship sets add, for the association set with
    its cap as for the three others, comes from a pair of the set and
    joins two classes that both have a node. *)
Theorem edges_join_nodes processed k cap (pairs : list (string * string)) e :
  e ∈ add_edges processed k pairs
  ∨ e ∈ add_association_edges processed cap 0 pairs →
  edge_source e ∈ processed ∧ edge_target e ∈ processed
  ∧ (edge_source e, edge_target e) ∈ pairs.
Proof.
  intros [He|He]; [by eapply add_edges_between_nodes|].
  rewrite add_association_edges_take in He. apply subseteq_take in He.
  by eapply add_edges_between_nodes.
Qed.

(** X16: what the field rule does to the relationship sets.  For one
    field it leaves the sets as they are, or adds one pair to one of the
    composition, aggregation and association sets; the pair goes from the
    owning class to another class; the inheritance set is not touched. *)
Theorem track_field_adds_one_edge package_name full_class_name attr_type is_final r :
  track_field package_name full_class_name attr_type is_final r = r
  ∨ ∃ target,
      target ≠ full_class_name
      ∧ (track_field package_name full_class_name attr_type is_final r
         = Relationships (inheritance r)
             ({[ (full_class_name, target) ]} ∪ composition r)
             (aggregation r) (association r)
         ∨ track_field package_name full_class_name attr_type is_final r
           = Relationships (inheritance r) (composition r)
               ({[ (full_class_name, target) ]} ∪ aggregation r) (association r)
         ∨ track_field package_name full_class_name attr_type is_final r
           = Relationships (inheritance r) (composition r) (aggregation r)
               ({[ (full_class_name, target) ]} ∪ association r)).
Proof.
  unfold track_field.
  repeat match goal with
         | |- context [if ?b then _ else _] => destruct b eqn:?
         end; try (by left).
  all: right; eexists; split; [|eauto].
  all: match goal with
       | Hb : (negb (String.eqb _ _) && _) = true |- _ =>
           apply andb_prop in Hb as [Hb _]; apply eqb_false_ne in Hb; congruence
       | Hb : negb (String.eqb _ _) = true |- _ =>
           apply eqb_false_ne in Hb; congruence
       end.
Qed.

End ClassDiagramMoreFacts.

(** X15 at two nodes and a pair that leads to a class without a node. *)
Lemma edges_join_nodes_witness :
  ClassDiagram.edge_source (ClassDiagram.Edge ClassDiagram.InheritanceEdge "app.A" "app.B")
    ∈ ({[ "app.A"; "app.B" ]} : gset string)
  ∧ ClassDiagram.edge_target (ClassDiagram.Edge ClassDiagram.InheritanceEdge "app.A" "app.B")
    ∈ ({[ "app.A"; "app.B" ]} : gset string)
  ∧ (ClassDiagram.edge_source (ClassDiagram.Edge ClassDiagram.InheritanceEdge "app.A" "app.B"),
     ClassDiagram.edge_target (ClassDiagram.Edge ClassDiagram.InheritanceEdge "app.A" "app.B"))
    ∈ [("app.A", "app.Gone"); ("app.A", "app.B")].
Proof.
  apply (edges_join_nodes {[ "app.A"; "app.B" ]} ClassDiagram.InheritanceEdge 30
           [("app.A", "app.Gone"); ("app.A", "app.B")]).
  left. apply (bool_decide_unpack _). vm_compute. reflexivity.
Defined.

(* ===================================================================== *)
(** * More facts: diagrams/generate_diagrams.py, the sequence diagram *)
(* ===================================================================== *)

Section SequenceDiagramMoreFacts.
Import SequenceDiagram.

(** ** What the first pass keeps *)

(** The participants are the classes of the class pairs, and none of
    them starts with an excluded pattern. *)
Lemma record_call_participants st call :
  (∀ x, x ∈ participants st ↔
        ∃ relation, is_Some (calls_by_relation st !! relation)
                    ∧ (x = relation.1 ∨ x = relation.2)) →
  (∀ x, x ∈ participants st → Py.startswith_any x excluded_patterns = false) →
  (∀ x, x ∈ participants (record_call st call) ↔
        ∃ relation, is_Some (calls_by_relation (record_call st call) !! relation)
                    ∧ (x = relation.1 ∨ x = relation.2))
  ∧ (∀ x, x ∈ participants (record_call st call) →
          Py.startswith_any x excluded_patterns = false).
Proof.
  intros Hrel Hex. unfold record_call.
  destruct (negb _); [done|].
  destruct (is_noise call) eqn:Hn; [done|].
  destruct (is_trivial_self_call call); [done|].
  cbn [participants calls_by_relation]. split.
  - intros x. rewrite !elem_of_union, !elem_of_singleton, Hrel. split.
    + intros [->|[->|(relation & Hsome & Hx)]].
      * exists (caller_class call, callee_class call).
        rewrite lookup_insert_eq. split; [done|by right].
      * exists (caller_class call, callee_class call).
        rewrite lookup_insert_eq. split; [done|by left].
      * exists relation. split; [|done].
        destruct (decide ((caller_class call, callee_class call) = relation)) as [<-|Hne].
        -- by rewrite lookup_insert_eq.
        -- by rewrite lookup_insert_ne.
    + intros (relation & Hsome & Hx).
      destruct (decide ((caller_class call, callee_class call) = relation)) as [<-|Hne].
      * cbn in Hx. destruct Hx as [->| ->]; auto.
      * rewrite lookup_insert_ne in Hsome by done. right. right. by exists relation.
  - intros x. rewrite !elem_of_union, !elem_of_singleton.
    unfold is_noise in Hn. apply orb_false_elim in Hn as [Hn _].
    apply orb_false_elim in Hn as [Hn _]. apply orb_false_elim in Hn as [Hcaller Hcallee].
    intros [->|[->|Hx]]; [done|done|by apply Hex].
Qed.

Lemma first_pass_participants (index_data : index) :
  (∀ x, x ∈ participants (first_pass index_data) ↔
        ∃ relation, is_Some (calls_by_relation (first_pass index_data) !! relation)
                    ∧ (x = relation.1 ∨ x = relation.2))
  ∧ (∀ x, x ∈ participants (first_pass index_data) →
          Py.startswith_any x excluded_patterns = false).
Proof.
  unfold first_pass.
  assert (Hinit :
    (∀ x, x ∈ participants (FirstPass ∅ ∅) ↔
          ∃ relation, is_Some (calls_by_relation (FirstPass ∅ ∅) !! relation)
                      ∧ (x = relation.1 ∨ x = relation.2))
    ∧ (∀ x, x ∈ participants (FirstPass ∅ ∅) →
            Py.startswith_any x excluded_patterns = false)).
  { cbn. split.
    - intros x. split; [set_solver|]. intros (relation & Hsome & _).
      rewrite lookup_empty in Hsome. by destruct Hsome.
    - set_solver. }
  revert Hinit. generalize (FirstPass ∅ ∅).
  induction ((map_to_list index_data).*2) as [|d ds IH]; intros st Hst; [done|].
  cbn [foldl]. apply IH. unfold record_file.
  induction (call_graph d) as [|c cs IHc] in st, Hst |- *; [done|].
  cbn [foldl]. apply IHc. destruct Hst. by apply record_call_participants.
Qed.

(** ** Edges *)

Lemma edge_pairs_of_items (items : list ((string * string) * list call_label)) :
  edge_pair <$> foldl add_edge [] items
  = filter (fun relation : string * string => relation.1 ≠ relation.2) items.*1.
Proof.
  rewrite foldl_add_edge. cbn [app].
  induction items as [|[[a b] calls] items IH]; [done|].
  cbn [mbind list_bind fmap list_fmap]. rewrite fmap_app.
  change ((fix go (l : list ((string * string) * list call_label)) := _) items)
    with (items ≫= fun item : (string * string) * list call_label =>
            if String.eqb item.1.1 item.1.2 then []
            else [Edge item.1.1 item.1.2 (edge_label item.2)]).
  rewrite IH, filter_cons. cbn.
  destruct (String.eqb a b) eqn:Hab.
  - apply String.eqb_eq in Hab. by rewrite decide_False by (by intros ?).
  - apply String.eqb_neq in Hab. by rewrite decide_True.
Qed.

(** X17: the edges of the sequence diagram.  No edge joins a class to
    itself, and an ordered pair of classes has one edge at most, however
    many calls it stands for. *)
Theorem sequence_edges_distinct (index_data : index) :
  (∀ e, e ∈ graph_edges (sequence_graph index_data) → edge_caller e ≠ edge_callee e)
  ∧ NoDup (edge_pair <$> graph_edges (sequence_graph index_data)).
Proof.
  unfold sequence_graph. cbn [graph_edges]. split.
  - intros e He.
    assert (Hp : edge_pair e ∈ edge_pair <$> foldl add_edge []
                   (map_to_list (calls_by_relation (first_pass index_data))))
      by (by apply list_elem_of_fmap_2).
    rewrite edge_pairs_of_items in Hp. by apply list_elem_of_filter in Hp as [Hne _].
  - rewrite edge_pairs_of_items. apply NoDup_filter, NoDup_fst_map_to_list.
Qed.

(** ** Nodes *)

Lemma sequence_graph_node_names (index_data : index) :
  (graph_nodes (sequence_graph index_data)).*1
  = merge_sort (fun a b : string => String.leb a b)
               (elements (participants (first_pass index_data))).
Proof.
  unfold sequence_graph. cbn [graph_nodes].
  rewrite <- list_fmap_compose. apply list_fmap_id.
Qed.

Lemma sequence_graph_node (index_data : index) x :
  x ∈ (graph_nodes (sequence_graph index_data)).*1
  ↔ x ∈ participants (first_pass index_data).
Proof.
  by rewrite sequence_graph_node_names, merge_sort_Permutation, elem_of_elements.
Qed.

Lemma sequence_edge_ends (index_data : index) e :
  e ∈ graph_edges (sequence_graph index_data) →
  edge_caller e ∈ (graph_nodes (sequence_graph index_data)).*1
  ∧ edge_callee e ∈ (graph_nodes (sequence_graph index_data)).*1.
Proof.
  intros He. rewrite !sequence_graph_node.
  destruct (first_pass_participants index_data) as [Hrel _].
  unfold sequence_graph in He. cbn [graph_edges] in He.
  rewrite foldl_add_edge in He. cbn [app] in He.
  apply list_elem_of_bind in He as ([[a b] calls] & He & Hitem). cbn in He.
  destruct (String.eqb a b); [by apply elem_of_nil in He|].
  apply list_elem_of_singleton in He as ->. cbn.
  apply elem_of_map_to_list in Hitem.
  split; apply Hrel; exists (a, b); (split; [by rewrite Hitem|]); auto.
Qed.

(** X18: the nodes of the sequence diagram.  They are listed in
    increasing order of their names (strings compared character by
    character, as [sorted] does), each class once, under the part of the
    class name after its last dot; both ends of every edge are among
    them. *)
Theorem sequence_nodes_sorted (index_data : index) :
  Sorted (fun a b : string => String.leb a b) (graph_nodes (sequence_graph index_data)).*1
  ∧ NoDup (graph_nodes (sequence_graph index_data)).*1
  ∧ (∀ n, n ∈ graph_nodes (sequence_graph index_data) → n.2 = Py.after_last "." "" n.1)
  ∧ (∀ e, e ∈ graph_edges (sequence_graph index_data) →
          edge_caller e ∈ (graph_nodes (sequence_graph index_data)).*1
          ∧ edge_callee e ∈ (graph_nodes (sequence_graph index_data)).*1).
Proof.
  split; [|split; [|split]].
  - rewrite sequence_graph_node_names. apply Sorted_merge_sort.
    intros a b. destruct (String.leb_total a b) as [Hab|Hba].
    + left. by rewrite Hab.
    + right. by rewrite Hba.
  - rewrite sequence_graph_node_names, merge_sort_Permutation. apply NoDup_elements.
  - unfold sequence_graph. cbn [graph_nodes]. intros n Hn.
    by apply list_elem_of_fmap in Hn as (p & -> & _).
  - apply sequence_edge_ends.
Qed.

(** X19: excluded classes stay out of the sequence diagram.  No node and
    no end of an edge is a class whose name starts with one of the
    excluded patterns ([java.], [javax.], [org.springframework], ...). *)
Theorem sequence_diagram_excludes (index_data : index) :
  (∀ n, n ∈ (graph_nodes (sequence_graph index_data)).*1 →
        Py.startswith_any n excluded_patterns = false)
  ∧ (∀ e, e ∈ graph_edges (sequence_graph index_data) →
          Py.startswith_any (edge_caller e) excluded_patterns = false
          ∧ Py.startswith_any (edge_callee e) excluded_patterns = false).
Proof.
  assert (Hnodes : ∀ n, n ∈ (graph_nodes (sequence_graph index_data)).*1 →
                        Py.startswith_any n excluded_patterns = false).
  { intros n Hn. apply sequence_graph_node in Hn.
    by apply (first_pass_participants index_data). }
  split; [done|]. intros e He.
  destruct (sequence_edge_ends index_data e He). split; by apply Hnodes.
Qed.

(** ** The utility set *)

Lemma lower_ascii_idempotent c : Py.lower_ascii (Py.lower_ascii c) = Py.lower_ascii c.
Proof. by destruct c as [[] [] [] [] [] [] [] []]. Qed.

Lemma lower_idempotent s : Py.lower (Py.lower s) = Py.lower s.
Proof.
  induction s as [|c s IH]; [done|]. cbn. by rewrite lower_ascii_idempotent, IH.
Qed.

Lemma str_in_lowercase x (l : list string) :
  Py.lower x = x →
  Py.str_in x l = Py.str_in x (filter (fun u => Py.lower u = u) l).
Proof.
  intros Hx. unfold Py.str_in. induction l as [|u l IH]; [done|].
  rewrite filter_cons. cbn [existsb]. destruct (decide (Py.lower u = u)) as [Hu|Hu].
  - cbn [existsb]. by rewrite IH.
  - rewrite IH. destruct (String.eqb x u) eqn:Hxu; [|done].
    apply String.eqb_eq in Hxu. congruence.
Qed.

(** X20: the entries of the utility set that contain a capital letter
    never match.  The noise test looks up the lowercased method name, so
    it gives the same answer without the six entries [ifPresent],
    [orElse], [forEach], [toString], [hashCode] and [compareTo]; a method
    that bears one of these names passes the lookup. *)
Theorem capital_utility_names_never_match (method : string) :
  Py.str_in (Py.lower method) utility_methods
  = Py.str_in (Py.lower method) lowercase_utility_methods
  ∧ filter (fun u => Py.lower u ≠ u) utility_methods
    = ["ifPresent"; "orElse"; "forEach"; "toString"; "hashCode"; "compareTo"]
  ∧ Forall (fun u => Py.str_in (Py.lower u) utility_methods = false)
           ["ifPresent"; "orElse"; "forEach"; "toString"; "hashCode"; "compareTo"].
Proof.
  split; [apply str_in_lowercase, lower_idempotent|].
  split; [by vm_compute|]. repeat constructor.
Qed.

End SequenceDiagramMoreFacts.

(* ===================================================================== *)
(** * Facts: dotted names *)
(* ===================================================================== *)

Section SplitFacts.
Import PySplit.

Lemma contains_dot_cons c rest :
  Py.contains "." (String c rest) = Ascii.eqb c "." || Py.contains "." rest.
Proof.
  change (Py.contains "." (String c rest))
    with (match Ascii.ascii_dec "." c with
          | left _ => String.prefix "" rest
          | right _ => false
          end || Py.contains "." rest).
  destruct (Ascii.ascii_dec "." c) as [<-|Hne].
  - by destruct rest.
  - assert (Ascii.eqb c "." = false) as -> by (apply Ascii.eqb_neq; congruence).
    done.
Qed.

(** Without a dot in the rest of the string, what has been read since the
    last dot is completed by the rest. *)
Lemma after_last_no_dot s : ∀ acc,
  Py.contains "." s = false → Py.after_last "." acc s = acc +:+ s.
Proof.
  induction s as [|c s IH]; intros acc Hs; [by rewrite append_nil_r|].
  rewrite contains_dot_cons in Hs. apply orb_false_elim in Hs as [Hc Hs].
  cbn [Py.after_last]. rewrite Hc, IH by done. by rewrite append_assoc.
Qed.

Lemma after_last_dot s : ∀ acc,
  Py.contains "." s = true → Py.after_last "." acc s = Py.after_last "." "" s.
Proof.
  induction s as [|c s IH]; intros acc Hs; [done|].
  rewrite contains_dot_cons in Hs. cbn [Py.after_last].
  destruct (Ascii.eqb c ".") eqn:Hc; [done|]. cbn in Hs.
  by rewrite IH, (IH ("" +:+ String c "")).
Qed.

(** Cutting a dotted name at its last dot loses nothing.  For a name
    with a dot, the part before the last dot, a dot, and the part after it
    make up the name again: the [target_id] that the diagrams build from
    [dep.split(".")] is the dependency itself, and the part after the last
    dot has no dot. *)
Theorem split_last_dot_join (dep : string) :
  Py.contains "." dep = true →
  before_last_dot dep +:+ "." +:+ Py.after_last "." "" dep = dep
  ∧ Py.contains "." (Py.after_last "." "" dep) = false.
Proof.
  induction dep as [|c rest IH]; [done|].
  intros Hdep. cbn [before_last_dot].
  destruct (Py.contains "." rest) eqn:Hrest.
  - destruct (IH eq_refl) as [Hjoin Hlast].
    assert (Hafter : Py.after_last "." "" (String c rest) = Py.after_last "." "" rest).
    { cbn [Py.after_last]. destruct (Ascii.eqb c "."); [done|]. by apply after_last_dot. }
    rewrite Hafter. split; [|done]. rewrite append_cons. by rewrite Hjoin.
  - rewrite contains_dot_cons, Hrest, orb_false_r in Hdep.
    apply Ascii.eqb_eq in Hdep as ->.
    cbn [Py.after_last]. rewrite Ascii.eqb_refl.
    rewrite after_last_no_dot by done. by split.
Qed.

(** A name made of a part, a dot and a part without dot is cut back into
    these parts. *)
Lemma before_last_dot_join s : ∀ last,
  Py.contains "." last = false →
  before_last_dot (s +:+ "." +:+ last) = s.
Proof.
  induction s as [|c s IH]; intros last Hlast.
  - change ("" +:+ "." +:+ last) with (String "." last).
    cbn [before_last_dot]. by rewrite Hlast.
  - rewrite append_cons. cbn [before_last_dot].
    assert (Py.contains "." (s +:+ "." +:+ last) = true) as ->.
    { clear. induction s as [|d s IHs].
      - change ("" +:+ "." +:+ last) with (String "." last).
        rewrite contains_dot_cons. done.
      - rewrite append_cons, contains_dot_cons, IHs. by rewrite orb_true_r. }
    by rewrite IH.
Qed.

End SplitFacts.

(** The same at an import. *)
Lemma split_last_dot_join_witness :
  PySplit.before_last_dot "app.model.Item" +:+ "." +:+ Py.after_last "." "" "app.model.Item"
    = "app.model.Item"
  ∧ Py.contains "." (Py.after_last "." "" "app.model.Item") = false.
Proof.
  apply (split_last_dot_join "app.model.Item"). reflexivity.
Defined.

(* ===================================================================== *)
(** * Facts: the container diagram *)
(* ===================================================================== *)

Section ContainerDiagramFacts.
Import ContainerDiagram.

Lemma add_container_spec containers item :
  NoDup containers →
  NoDup (add_container containers item)
  ∧ ∀ x, x ∈ add_container containers item ↔ x ∈ containers ∨ x = package item.2.
Proof.
  intros Hnd. unfold add_container. case_bool_decide as Hin.
  - split; [done|]. intros x. split; [by left|]. by intros [?| ->].
  - split.
    + apply NoDup_app. split; [done|]. split; [|apply NoDup_singleton].
      intros x Hx Hx'. apply list_elem_of_singleton in Hx' as ->. done.
    + intros x. by rewrite elem_of_app, list_elem_of_singleton.
Qed.

Lemma containers_spec (items : list (string * file_data)) : ∀ containers,
  NoDup containers →
  NoDup (foldl add_container containers items)
  ∧ ∀ x, x ∈ foldl add_container containers items
         ↔ x ∈ containers ∨ ∃ item, item ∈ items ∧ x = package item.2.
Proof.
  induction items as [|item items IH]; intros containers Hnd.
  - split; [done|]. intros x. split; [by left|]. intros [?|(item & Hit & _)]; [done|].
    by apply elem_of_nil in Hit.
  - cbn [foldl]. destruct (add_container_spec containers item Hnd) as [Hnd' Hin'].
    destruct (IH _ Hnd') as [Hnd'' Hin'']. split; [done|].
    intros x. rewrite Hin'', Hin'. split.
    + intros [[?| ->]|(it & Hit & ->)]; [by left| |].
      * right. exists item. split; [by left|done].
      * right. exists it. split; [by right|done].
    + intros [?|(it & Hit & ->)]; [by left; left|].
      apply elem_of_cons in Hit as [->|Hit]; [by left; right|].
      right. by exists it.
Qed.

Lemma add_dependency_edge_inv source_package edges dep e :
  e ∈ add_dependency_edge source_package edges dep →
  e ∈ edges
  ∨ (e.1 = source_package
     ∧ Py.startswith_any dep excluded_dependencies = false
     ∧ Py.contains "." dep = true
     ∧ e.2 = PySplit.before_last_dot dep
     ∧ Py.truthy e.2 = true
     ∧ e.2 ≠ e.1).
Proof.
  unfold add_dependency_edge.
  destruct (Py.startswith_any dep excluded_dependencies) eqn:Hex; [by left|].
  destruct (Py.contains "." dep) eqn:Hdot; [|by left].
  destruct (Py.truthy _ && _) eqn:Hok; [|by left].
  rewrite elem_of_union, elem_of_singleton. intros [->|He]; [right|by left].
  apply andb_prop in Hok as [Ht Hne]. apply eqb_false_ne in Hne. done.
Qed.

Lemma add_file_edges_inv (items : list (string * file_data)) e : ∀ edges,
  e ∈ foldl add_file_edges edges items →
  e ∈ edges ∨ from_dependency items e.
Proof.
  induction items as [|item items IH]; intros edges He; [by left|].
  cbn [foldl] in He. apply IH in He as [He|(it & dep & Hit & Hrest)].
  - assert (Hfile : e ∈ edges
                    ∨ ∃ dep, dep ∈ dependencies item.2
                       ∧ e.1 = package item.2
                       ∧ Py.startswith_any dep excluded_dependencies = false
                       ∧ Py.contains "." dep = true
                       ∧ e.2 = PySplit.before_last_dot dep
                       ∧ Py.truthy e.2 = true
                       ∧ e.2 ≠ e.1).
    { unfold add_file_edges in He. revert edges He.
      induction (dependencies item.2) as [|d ds IHd]; intros edges He; [by left|].
      cbn [foldl] in He. apply IHd in He as [He|(d' & Hd' & Hrest)].
      - apply add_dependency_edge_inv in He as [He|He]; [by left|].
        right. exists d. split; [by left|done].
      - right. exists d'. split; [by right|done]. }
    destruct Hfile as [?|(dep & Hdep & Hrest)]; [by left|].
    right. exists item, dep. split; [by left|done].
  - right. exists it, dep. split; [by right|done].
Qed.

Lemma container_node_names (index_data : index) :
  (graph_nodes (container_graph index_data)).*1
  = foldl add_container [] (map_to_list index_data).
Proof.
  unfold container_graph. cbn [graph_nodes].
  rewrite <- list_fmap_compose. apply list_fmap_id.
Qed.

(** X21: the nodes of the container diagram.  There is one node for each
    package of the index, the empty package name of a file without
    package declaration among them, labelled with the package name. *)
Theorem container_nodes (index_data : index) :
  NoDup (graph_nodes (container_graph index_data)).*1
  ∧ (∀ x, x ∈ (graph_nodes (container_graph index_data)).*1
          ↔ ∃ file_path data, index_data !! file_path = Some data ∧ x = package data)
  ∧ (∀ n, n ∈ graph_nodes (container_graph index_data) → n.2 = n.1 +:+ " (Package)").
Proof.
  rewrite container_node_names.
  destruct (containers_spec (map_to_list index_data) [] (NoDup_nil_2)) as [Hnd Hin].
  split; [done|]. split.
  - intros x. rewrite Hin. split.
    + intros [Hx|([p d] & Hit & ->)]; [by apply elem_of_nil in Hx|].
      apply elem_of_map_to_list in Hit. by exists p, d.
    + intros (p & d & Hd & ->). right. exists (p, d).
      split; [by apply elem_of_map_to_list|done].
  - intros n Hn. unfold container_graph in Hn. cbn [graph_nodes] in Hn.
    by apply list_elem_of_fmap in Hn as (c & -> & _).
Qed.

(** X22: the edges of the container diagram.  There is one edge at most
    from a package to another; every edge starts at a node, goes to a
    different package whose name is not empty, and stands for a dotted
    dependency of a file of the source package that starts with none of
    the excluded prefixes, cut before its last dot. *)
Theorem container_edges (index_data : index) :
  NoDup (graph_edges (container_graph index_data))
  ∧ ∀ e, e ∈ graph_edges (container_graph index_data) →
      e.1 ∈ (graph_nodes (container_graph index_data)).*1
      ∧ e.2 ≠ e.1
      ∧ Py.truthy e.2 = true
      ∧ ∃ file_path data dep,
          index_data !! file_path = Some data
          ∧ dep ∈ dependencies data
          ∧ e.1 = package data
          ∧ e.2 = PySplit.before_last_dot dep
          ∧ Py.contains "." dep = true
          ∧ Py.startswith_any dep excluded_dependencies = false.
Proof.
  split; [unfold container_graph; cbn [graph_edges]; apply NoDup_elements|].
  intros e He. unfold container_graph in He. cbn [graph_edges] in He.
  apply elem_of_elements, add_file_edges_inv in He as [He|He]; [set_solver|].
  destruct He as ([p d] & dep & Hit & Hdep & Hsrc & Hex & Hdot & Htgt & Ht & Hne).
  apply elem_of_map_to_list in Hit. cbn [snd] in *.
  split; [|split; [done|split; [done|by exists p, d, dep]]].
  rewrite container_node_names.
  apply (containers_spec (map_to_list index_data) [] (NoDup_nil_2)).
  right. exists (p, d). split; [by apply elem_of_map_to_list|done].
Qed.

End ContainerDiagramFacts.

(* ===================================================================== *)
(** * Facts: the component diagram *)
(* ===================================================================== *)

Section ComponentDiagramFacts.
Import ComponentDiagram.

Lemma add_class_fold_spec (cs : list string) : ∀ class_list,
  NoDup class_list →
  NoDup (foldl add_class class_list cs)
  ∧ ∀ x, x ∈ foldl add_class class_list cs ↔ x ∈ class_list ∨ x ∈ cs.
Proof.
  induction cs as [|c cs IH]; intros class_list Hnd.
  - split; [done|]. intros x. split; [by left|]. intros [?|Hx]; [done|].
    by apply elem_of_nil in Hx.
  - cbn [foldl].
    assert (Hstep : NoDup (add_class class_list c)
                    ∧ ∀ x, x ∈ add_class class_list c ↔ x ∈ class_list ∨ x = c).
    { unfold add_class. case_bool_decide as Hin.
      - split; [done|]. intros x. split; [by left|]. by intros [?| ->].
      - split.
        + apply NoDup_app. split; [done|]. split; [|apply NoDup_singleton].
          intros x Hx Hx'. apply list_elem_of_singleton in Hx' as ->. done.
        + intros x. by rewrite elem_of_app, list_elem_of_singleton. }
    destruct Hstep as [Hnd' Hin']. destruct (IH _ Hnd') as [Hnd'' Hin''].
    split; [done|]. intros x. rewrite Hin'', Hin', elem_of_cons. tauto.
Qed.

Lemma add_file_gathered items packages item :
  packages_gathered items packages →
  packages_gathered (items ++ [item]) (add_file packages item).
Proof.
  intros [Hsome Hent]. unfold add_file. split.
  - intros item' Hitem'. apply lookup_insert_is_Some.
    destruct (decide (package_name_of item.2 = package_name_of item'.2)); [by left|].
    right. split; [done|]. apply Hsome.
    apply elem_of_app in Hitem' as [?|Hitem']; [done|].
    apply list_elem_of_singleton in Hitem' as ->. done.
  - intros p e Hp. apply lookup_insert_Some in Hp as [[<- <-]|[Hne Hp]].
    + cbn [package_classes].
      assert (Hold : NoDup (package_classes
                        (default (PackageEntry [] [] ∅)
                                 (packages !! package_name_of item.2)))
                ∧ ∀ c, c ∈ package_classes
                         (default (PackageEntry [] [] ∅)
                                  (packages !! package_name_of item.2))
                       ↔ ∃ item', item' ∈ items
                           ∧ package_name_of item'.2 = package_name_of item.2
                           ∧ c ∈ classes item'.2).
      { destruct (packages !! package_name_of item.2) as [e|] eqn:Hl.
        - by apply Hent.
        - cbn. split; [apply NoDup_nil_2|]. intros c. split.
          + intros Hc. by apply elem_of_nil in Hc.
          + intros (item' & Hin & Heq & _). apply Hsome in Hin.
            rewrite Heq, Hl in Hin. by destruct Hin. }
      destruct Hold as [Hnd Hin].
      destruct (add_class_fold_spec (classes item.2) _ Hnd) as [Hnd' Hin'].
      split; [done|]. intros c. rewrite Hin', Hin. split.
      * intros [(item' & Hi & Hpk & Hc)|Hc].
        -- exists item'. split; [apply elem_of_app; by left|done].
        -- exists item. split; [apply elem_of_app; right; by left|done].
      * intros (item' & Hi & Hpk & Hc).
        apply elem_of_app in Hi as [Hi|Hi].
        -- left. by exists item'.
        -- apply list_elem_of_singleton in Hi as ->. by right.
    + destruct (Hent p e Hp) as [Hnd Hin]. split; [done|].
      intros c. rewrite Hin. split.
      * intros (item' & Hi & Hpk & Hc). exists item'.
        split; [apply elem_of_app; by left|done].
      * intros (item' & Hi & Hpk & Hc).
        apply elem_of_app in Hi as [Hi|Hi]; [by exists item'|].
        apply list_elem_of_singleton in Hi as ->. done.
Qed.

Lemma add_file_fold_gathered (items : list (string * file_data)) : ∀ seen packages,
  packages_gathered seen packages →
  packages_gathered (seen ++ items) (foldl add_file packages items).
Proof.
  induction items as [|item items IH]; intros seen packages Hg.
  - by rewrite app_nil_r.
  - cbn [foldl]. rewrite (assoc_L (++) seen [item] items : seen ++ item :: items = _).
    apply IH. by apply add_file_gathered.
Qed.

Lemma packages_of_gathered (index_data : index) :
  packages_gathered (map_to_list index_data) (packages_of index_data).
Proof.
  apply (add_file_fold_gathered (map_to_list index_data) [] ∅).
  split; [intros item Hitem; by apply elem_of_nil in Hitem|].
  intros p e Hp. by rewrite lookup_empty in Hp.
Qed.

(** The second pass: the clusters added, and the ids registered. *)
Lemma add_cluster_fold (items : list (string * package_entry)) : ∀ st,
  (foldl add_cluster st items).1
  = st.1 ++ (items ≫= fun item =>
      match package_classes item.2 with
      | [] => []
      | class_list =>
          [Cluster ("cluster_" +:+ Py.replace item.1 "." "_") ("Package: " +:+ item.1)
             ((fun class_name =>
                 (component_id_of item.1 class_name,
                  "[Component]" +:+ String "010" class_name)) <$> class_list)]
      end)
  ∧ dom (foldl add_cluster st items).2
    = dom st.2 ∪ list_to_set (items ≫= fun item =>
                                component_id_of item.1 <$> package_classes item.2).
Proof.
  induction items as [|item items IH]; intros st.
  - cbn. rewrite app_nil_r. split; [done|]. set_solver.
  - cbn [foldl]. destruct (IH (add_cluster st item)) as [-> ->].
    assert (Hdom : ∀ (cs : list string) (m : gmap string string),
              dom (foldl (fun components class_name =>
                            <[component_id_of item.1 class_name := class_name]> components)
                         m cs)
              = dom m ∪ list_to_set (component_id_of item.1 <$> cs)).
    { induction cs as [|c cs IHc]; intros m; cbn [foldl]; [set_solver|].
      rewrite IHc, dom_insert_L. set_solver. }
    unfold add_cluster. rewrite !bind_cons.
    destruct (package_classes item.2) as [|c cs] eqn:Hcl.
    + split; [done|]. set_solver.
    + cbn [fst snd]. rewrite Hdom. rewrite <- (assoc_L (++)).
      split; [done|]. set_solver.
Qed.

Lemma node_ids_listed (index_data : index) :
  node_ids (component_graph index_data)
  = map_to_list (packages_of index_data) ≫= fun item =>
      component_id_of item.1 <$> package_classes item.2.
Proof.
  unfold node_ids, component_graph, clusters_of. cbn [graph_clusters].
  destruct (add_cluster_fold (map_to_list (packages_of index_data)) ([], ∅)) as [-> _].
  cbn [fst app].
  induction (map_to_list (packages_of index_data)) as [|item items IH]; [done|].
  rewrite !bind_cons, bind_app, IH. f_equal.
  destruct (package_classes item.2) as [|c cs]; [done|].
  rewrite bind_cons. cbn [mbind list_bind]. rewrite app_nil_r. cbn [cluster_nodes].
  rewrite <- list_fmap_compose. done.
Qed.

Lemma components_registered (index_data : index) :
  dom (clusters_of index_data).2 = list_to_set (node_ids (component_graph index_data)).
Proof.
  rewrite node_ids_listed. unfold clusters_of.
  destruct (add_cluster_fold (map_to_list (packages_of index_data)) ([], ∅)) as [_ ->].
  set_solver.
Qed.

(** The nodes are the classes of the index, qualified by the package of
    their file, or by "default" where the file declares none. *)
Lemma node_ids_spec (index_data : index) (id : string) :
  id ∈ node_ids (component_graph index_data)
  ↔ ∃ file_path data c,
      index_data !! file_path = Some data
      ∧ c ∈ classes data
      ∧ id = component_id_of (package_name_of data) c.
Proof.
  rewrite node_ids_listed, list_elem_of_bind.
  destruct (packages_of_gathered index_data) as [Hsome Hent]. split.
  - intros ([p e] & Hid & Hpe). apply elem_of_map_to_list in Hpe.
    apply list_elem_of_fmap in Hid as (c & -> & Hc). cbn [fst snd] in *.
    apply (Hent p e Hpe) in Hc as ([path data] & Hi & <- & Hc).
    apply elem_of_map_to_list in Hi. by exists path, data, c.
  - intros (path & data & c & Hl & Hc & ->).
    assert (Hi : (path, data) ∈ map_to_list index_data) by by apply elem_of_map_to_list.
    destruct (Hsome _ Hi) as [e He]. exists (package_name_of data, e).
    split; [|by apply elem_of_map_to_list].
    apply list_elem_of_fmap. exists c. split; [done|].
    apply (Hent _ e He). by exists (path, data).
Qed.

Lemma append_inj_l s : ∀ a b, s +:+ a = s +:+ b → a = b.
Proof.
  induction s as [|c s IH]; intros a b Heq; [done|].
  rewrite !append_cons in Heq. injection Heq as Heq. by apply IH.
Qed.

Lemma cluster_of_package (index_data : index) (cl : cluster) :
  cl ∈ graph_clusters (component_graph index_data)
  ↔ ∃ p e, packages_of index_data !! p = Some e
      ∧ package_classes e ≠ []
      ∧ cl = Cluster ("cluster_" +:+ Py.replace p "." "_") ("Package: " +:+ p)
               ((fun class_name =>
                   (component_id_of p class_name,
                    "[Component]" +:+ String "010" class_name)) <$> package_classes e).
Proof.
  unfold component_graph, clusters_of. cbn [graph_clusters].
  destruct (add_cluster_fold (map_to_list (packages_of index_data)) ([], ∅)) as [-> _].
  cbn [fst app]. rewrite list_elem_of_bind. split.
  - intros ([p e] & Hcl & Hpe). apply elem_of_map_to_list in Hpe. cbn [fst snd] in Hcl.
    exists p, e. split; [done|].
    destruct (package_classes e) as [|c cs]; [by apply elem_of_nil in Hcl|].
    apply list_elem_of_singleton in Hcl. done.
  - intros (p & e & Hpe & Hne & ->). exists (p, e).
    split; [|by apply elem_of_map_to_list]. cbn [fst snd].
    destruct (package_classes e) as [|c cs]; [done|]. by left.
Qed.

Lemma cluster_labels_distinct (items : list (string * package_entry)) :
  NoDup items.*1 →
  NoDup (cluster_label <$> (items ≫= fun item =>
      match package_classes item.2 with
      | [] => []
      | class_list =>
          [Cluster ("cluster_" +:+ Py.replace item.1 "." "_") ("Package: " +:+ item.1)
             ((fun class_name =>
                 (component_id_of item.1 class_name,
                  "[Component]" +:+ String "010" class_name)) <$> class_list)]
      end))
  ∧ ∀ l, l ∈ cluster_label <$> (items ≫= fun item =>
      match package_classes item.2 with
      | [] => []
      | class_list =>
          [Cluster ("cluster_" +:+ Py.replace item.1 "." "_") ("Package: " +:+ item.1)
             ((fun class_name =>
                 (component_id_of item.1 class_name,
                  "[Component]" +:+ String "010" class_name)) <$> class_list)]
      end) → ∃ p, p ∈ items.*1 ∧ l = "Package: " +:+ p.
Proof.
  induction items as [|[p e] items IH]; intros Hnd.
  - split; [apply NoDup_nil_2|]. intros l Hl. by apply elem_of_nil in Hl.
  - cbn [fmap list_fmap fst] in Hnd. apply NoDup_cons in Hnd as [Hp Hnd].
    destruct (IH Hnd) as [IHnd IHin]. rewrite bind_cons, fmap_app. cbn [fst snd].
    destruct (package_classes e) as [|c cs].
    + split; [done|]. intros l Hl. destruct (IHin l Hl) as (q & Hq & ->).
      exists q. split; [by right|done].
    + cbn [fmap list_fmap cluster_label app]. split.
      * apply NoDup_cons. split; [|done]. intros Hl.
        destruct (IHin _ Hl) as (q & Hq & Heq). apply append_inj_l in Heq as ->. done.
      * intros l Hl. apply elem_of_cons in Hl as [->|Hl].
        -- exists p. split; [by left|done].
        -- destruct (IHin l Hl) as (q & Hq & ->). exists q. split; [by right|done].
Qed.

(** X23: the clusters of the component diagram.  There is one cluster for
    each package with a class: every class of a file has its node in a
    cluster labelled with the package of the file ("default" for a file
    without package declaration), and no two clusters have the same
    label.  A cluster is never empty, and its nodes are, once each, the
    classes of the files of its package, also where a class is listed by
    several files. *)
Theorem component_clusters (index_data : index) :
  (∀ file_path data c,
     index_data !! file_path = Some data →
     c ∈ classes data →
     ∃ cl, cl ∈ graph_clusters (component_graph index_data)
       ∧ cluster_id cl = "cluster_" +:+ Py.replace (package_name_of data) "." "_"
       ∧ cluster_label cl = "Package: " +:+ package_name_of data
       ∧ (component_id_of (package_name_of data) c,
          "[Component]" +:+ String "010" c) ∈ cluster_nodes cl)
  ∧ NoDup (cluster_label <$> graph_clusters (component_graph index_data))
  ∧ ∀ cl, cl ∈ graph_clusters (component_graph index_data) →
      cluster_nodes cl ≠ []
      ∧ NoDup (cluster_nodes cl).*1
      ∧ ∃ package_name,
          cluster_id cl = "cluster_" +:+ Py.replace package_name "." "_"
          ∧ cluster_label cl = "Package: " +:+ package_name
          ∧ ∀ n, n ∈ cluster_nodes cl
                 ↔ ∃ file_path data c,
                     index_data !! file_path = Some data
                     ∧ package_name_of data = package_name
                     ∧ c ∈ classes data
                     ∧ n = (component_id_of package_name c,
                            "[Component]" +:+ String "010" c).
Proof.
  split; [|split].
  - intros path data c Hl Hc.
    destruct (packages_of_gathered index_data) as [Hsome Hent].
    assert (Hi : (path, data) ∈ map_to_list index_data) by by apply elem_of_map_to_list.
    destruct (Hsome _ Hi) as [e He]. cbn [snd] in He.
    assert (Hce : c ∈ package_classes e).
    { apply (Hent _ e He). by exists (path, data). }
    eexists. split.
    + apply cluster_of_package. exists (package_name_of data), e.
      split; [done|]. split; [|reflexivity].
      intros Hnil. rewrite Hnil in Hce. by apply elem_of_nil in Hce.
    + cbn [cluster_id cluster_label cluster_nodes]. split; [done|]. split; [done|].
      apply list_elem_of_fmap. by exists c.
  - unfold component_graph, clusters_of. cbn [graph_clusters].
    destruct (add_cluster_fold (map_to_list (packages_of index_data)) ([], ∅)) as [-> _].
    cbn [fst app]. apply cluster_labels_distinct, NoDup_fst_map_to_list.
  - intros cl Hcl. apply cluster_of_package in Hcl as (p & e & Hpe & Hne & ->).
    cbn [cluster_nodes cluster_id cluster_label].
    destruct (packages_of_gathered index_data) as [_ Hent].
    destruct (Hent p e Hpe) as [Hnd Hin].
    split; [by destruct (package_classes e)|]. split.
    + rewrite <- list_fmap_compose. apply NoDup_fmap_2; [|done].
      intros a b Heq. cbn in Heq. unfold component_id_of in Heq.
      by apply append_inj_l, append_inj_l in Heq.
    + exists p. split; [done|]. split; [done|]. intros n.
      rewrite list_elem_of_fmap. split.
      * intros (c & -> & Hc). apply Hin in Hc as ([path data] & Hi & Hpk & Hc).
        apply elem_of_map_to_list in Hi. by exists path, data, c.
      * intros (path & data & c & Hl & Hpk & Hc & ->). exists c. split; [done|].
        apply Hin. exists (path, data). split; [by apply elem_of_map_to_list|done].
Qed.

(** A loop that adds tracked edges, each iteration those it generates,
    adds over a list those its elements generate. *)
Lemma edges_fold {A} (f : list (string * string) * gset (string * string) → A →
                          list (string * string) * gset (string * string))
    (gen : A → string * string → Prop) :
  (∀ st a, edges_tracked st →
     edges_tracked (f st a) ∧ ∀ e, e ∈ (f st a).1 ↔ e ∈ st.1 ∨ gen a e) →
  ∀ l st, edges_tracked st →
    edges_tracked (foldl f st l)
    ∧ ∀ e, e ∈ (foldl f st l).1 ↔ e ∈ st.1 ∨ ∃ a, a ∈ l ∧ gen a e.
Proof.
  intros Hstep. induction l as [|a l IH]; intros st Hst.
  - split; [done|]. intros e. split; [by left|].
    intros [?|(a & Ha & _)]; [done|]. by apply elem_of_nil in Ha.
  - cbn [foldl]. destruct (Hstep st a Hst) as [Hst' Hin'].
    destruct (IH _ Hst') as [Hst'' Hin'']. split; [done|].
    intros e. rewrite Hin'', Hin'. split.
    + intros [[?|Hg]|(b & Hb & Hg)]; [by left| |].
      * right. exists a. split; [by left|done].
      * right. exists b. split; [by right|done].
    + intros [?|(b & Hb & Hg)]; [by left; left|].
      apply elem_of_cons in Hb as [->|Hb]; [by left; right|].
      right. by exists b.
Qed.

Lemma add_edge_spec components source_package source_id st dep :
  edges_tracked st →
  edges_tracked (add_edge components source_package source_id st dep)
  ∧ ∀ e, e ∈ (add_edge components source_package source_id st dep).1
         ↔ e ∈ st.1
           ∨ (Py.startswith_any dep excluded_patterns = false
              ∧ e = (source_id, target_id_of source_package dep)
              ∧ source_id ∈ dom components
              ∧ target_id_of source_package dep ∈ dom components
              ∧ source_id ≠ target_id_of source_package dep).
Proof.
  intros [Hnd Hset]. unfold add_edge.
  destruct (Py.startswith_any dep excluded_patterns) eqn:Hex.
  { split; [done|]. intros e. split; [by left|]. by intros [?|[? _]]. }
  destruct (_ && _) eqn:Hok.
  - apply andb_prop in Hok as [Hok Hnew]. apply andb_prop in Hok as [Hok Hne].
    apply andb_prop in Hok as [Hsrc Htgt].
    apply bool_decide_eq_true_1 in Hsrc, Htgt.
    apply eqb_false_ne in Hne.
    apply negb_true_iff, bool_decide_eq_false_1 in Hnew.
    rewrite Hset, elem_of_list_to_set in Hnew.
    unfold edges_tracked. cbn [fst snd]. split; [split|].
    + apply NoDup_app. split; [done|]. split; [|apply NoDup_singleton].
      intros x Hx Hx'. apply list_elem_of_singleton in Hx' as ->. done.
    + rewrite list_to_set_app_L, Hset. set_solver.
    + intros e. rewrite elem_of_app, list_elem_of_singleton. split.
      * intros [?| ->]; [by left|by right].
      * intros [?|(_ & -> & _)]; [by left|by right].
  - split; [done|]. intros e. split; [by left|].
    intros [?|(_ & -> & Hsrc & Htgt & Hne)]; [done|].
    apply andb_false_iff in Hok as [Hok|Hnew].
    + exfalso. apply andb_false_iff in Hok as [Hok|Hne'].
      * apply andb_false_iff in Hok as [Hok|Hok];
          by apply bool_decide_eq_false_1 in Hok.
      * apply negb_false_iff, String.eqb_eq in Hne'. done.
    + apply negb_false_iff, bool_decide_eq_true_1 in Hnew.
      by rewrite Hset, elem_of_list_to_set in Hnew.
Qed.

Lemma add_file_edges_fold components st item :
  add_file_edges components st item
  = foldl (add_class_edges components item.2) st (classes item.2).
Proof. unfold add_file_edges. by destruct (classes item.2). Qed.

Lemma component_edges_spec (index_data : index) (components : gmap string string) :
  NoDup (foldl (add_file_edges components) ([], ∅) (map_to_list index_data)).1
  ∧ ∀ e, e ∈ (foldl (add_file_edges components) ([], ∅) (map_to_list index_data)).1
         ↔ ∃ file_path data c dep,
             index_data !! file_path = Some data
             ∧ c ∈ classes data
             ∧ dep ∈ dependencies data
             ∧ Py.startswith_any dep excluded_patterns = false
             ∧ e = (component_id_of (package data) c, target_id_of (package data) dep)
             ∧ e.1 ∈ dom components
             ∧ e.2 ∈ dom components
             ∧ e.1 ≠ e.2.
Proof.
  assert (Hinit : edges_tracked (([], ∅) : list (string * string) * gset (string * string))).
  { split; [apply NoDup_nil_2|done]. }
  pose proof (edges_fold (add_file_edges components)
    (fun item e => ∃ c, c ∈ classes item.2 ∧ ∃ dep, dep ∈ dependencies item.2
       ∧ Py.startswith_any dep excluded_patterns = false
       ∧ e = (component_id_of (package item.2) c, target_id_of (package item.2) dep)
       ∧ component_id_of (package item.2) c ∈ dom components
       ∧ target_id_of (package item.2) dep ∈ dom components
       ∧ component_id_of (package item.2) c ≠ target_id_of (package item.2) dep)) as Hfiles.
  destruct (Hfiles) with (l := map_to_list index_data) (st := (([], ∅) : list (string * string) * gset (string * string)))
    as [[Hnd _] Hin]; [|done|].
  { intros st item Hst. rewrite add_file_edges_fold.
    apply (edges_fold (add_class_edges components item.2)
      (fun c e => ∃ dep, dep ∈ dependencies item.2
       ∧ Py.startswith_any dep excluded_patterns = false
       ∧ e = (component_id_of (package item.2) c, target_id_of (package item.2) dep)
       ∧ component_id_of (package item.2) c ∈ dom components
       ∧ target_id_of (package item.2) dep ∈ dom components
       ∧ component_id_of (package item.2) c ≠ target_id_of (package item.2) dep));
      [|done].
    intros st' c Hst'. unfold add_class_edges.
    apply (edges_fold (add_edge components (package item.2)
                         (component_id_of (package item.2) c))
      (fun dep e => Py.startswith_any dep excluded_patterns = false
       ∧ e = (component_id_of (package item.2) c, target_id_of (package item.2) dep)
       ∧ component_id_of (package item.2) c ∈ dom components
       ∧ target_id_of (package item.2) dep ∈ dom components
       ∧ component_id_of (package item.2) c ≠ target_id_of (package item.2) dep));
      [|done].
    intros st'' dep Hst''. by apply add_edge_spec. }
  split; [done|]. intros e. rewrite Hin. split.
  - intros [He|([path data] & Hi & c & Hc & dep & Hdep & Hex & -> & Hs & Ht & Hne)].
    { by apply elem_of_nil in He. }
    apply elem_of_map_to_list in Hi. by exists path, data, c, dep.
  - intros (path & data & c & dep & Hl & Hc & Hdep & Hex & -> & Hs & Ht & Hne).
    right. exists (path, data). split; [by apply elem_of_map_to_list|].
    exists c. split; [done|]. by exists dep.
Qed.

(** X24: the edges of the component diagram.  No edge is drawn twice and
    none joins a node to itself.  There is an edge exactly for each class
    of a file and each dependency of that file that starts with none of
    the excluded prefixes, from the class qualified by the package as the
    file records it to the target of the dependency, where both are nodes
    and differ. *)
Theorem component_edges (index_data : index) :
  NoDup (graph_edges (component_graph index_data))
  ∧ ∀ e, e ∈ graph_edges (component_graph index_data)
         ↔ e.1 ∈ node_ids (component_graph index_data)
           ∧ e.2 ∈ node_ids (component_graph index_data)
           ∧ e.1 ≠ e.2
           ∧ ∃ file_path data c dep,
               index_data !! file_path = Some data
               ∧ c ∈ classes data
               ∧ dep ∈ dependencies data
               ∧ Py.startswith_any dep excluded_patterns = false
               ∧ e = (component_id_of (package data) c,
                      target_id_of (package data) dep).
Proof.
  destruct (component_edges_spec index_data (clusters_of index_data).2) as [Hnd Hin].
  split; [done|]. intros e.
  change (graph_edges (component_graph index_data))
    with (foldl (add_file_edges (clusters_of index_data).2) ([], ∅)
                (map_to_list index_data)).1.
  rewrite Hin, components_registered. setoid_rewrite elem_of_list_to_set. split.
  - intros (path & data & c & dep & Hl & Hc & Hdep & Hex & -> & Hs & Ht & Hne).
    split; [done|]. split; [done|]. split; [done|]. by exists path, data, c, dep.
  - intros (Hs & Ht & Hne & path & data & c & dep & Hl & Hc & Hdep & Hex & ->).
    by exists path, data, c, dep.
Qed.

(** X25: a file without package declaration is no source of edges.  Its
    classes are drawn in the cluster of the package "default", but the
    third pass qualifies them by the package as the file records it, the
    empty name: the source of every edge is a class of a file that
    declares a package, qualified by that package. *)
Theorem component_edges_start_in_declared_package (index_data : index) (e : string * string) :
  e ∈ graph_edges (component_graph index_data) →
  ∃ file_path data c,
    index_data !! file_path = Some data
    ∧ Py.truthy (package data) = true
    ∧ c ∈ classes data
    ∧ e.1 = component_id_of (package data) c.
Proof.
  intros He.
  apply (component_edges_spec index_data (clusters_of index_data).2) in He
    as (path & data & c & dep & Hl & Hc & Hdep & Hex & -> & Hs & _).
  cbn [fst] in *.
  rewrite components_registered, elem_of_list_to_set, node_ids_spec in Hs.
  destruct Hs as (path' & data' & c' & Hl' & Hc' & Heq).
  destruct (Py.truthy (package data)) eqn:Hpk; [by exists path, data, c|].
  unfold package_name_of in Heq.
  destruct (Py.truthy (package data')) eqn:Hpk'; [by exists path', data', c'|].
  exfalso. destruct (package data); [|done].
  unfold component_id_of in Heq. by rewrite append_cons in Heq.
Qed.

(** X26: the cluster "default" has no outgoing edge.  In an index whose
    class names have no dot and where no file declares a package named
    default, a class of a file without package declaration has a node, and
    no edge starts from it. *)
Theorem default_cluster_has_no_outgoing_edge (index_data : index)
    (file_path : string) (data : file_data) (c : string) :
  (∀ p d x, index_data !! p = Some d → x ∈ classes d → Py.contains "." x = false) →
  (∀ p d, index_data !! p = Some d → package d ≠ "default") →
  index_data !! file_path = Some data →
  package data = "" →
  c ∈ classes data →
  component_id_of "default" c ∈ node_ids (component_graph index_data)
  ∧ ∀ e, e ∈ graph_edges (component_graph index_data) →
      e.1 ≠ component_id_of "default" c.
Proof.
  intros Hdot Hdef Hl Hpk Hc. split.
  - apply node_ids_spec. exists file_path, data, c. split; [done|]. split; [done|].
    unfold package_name_of. by rewrite Hpk.
  - intros e He Heq.
    apply (component_edges_spec index_data (clusters_of index_data).2) in He
      as (path' & data' & c' & dep & Hl' & Hc' & _ & _ & -> & _).
    cbn [fst] in Heq. unfold component_id_of in Heq.
    apply (f_equal PySplit.before_last_dot) in Heq.
    rewrite !before_last_dot_join in Heq by eauto.
    by apply (Hdef path' data').
Qed.

End ComponentDiagramFacts.

(** X25 at an edge of an index with two packages and a file without
    package declaration. *)
Lemma component_edges_start_in_declared_package_witness :
  ∃ file_path data c,
    shop_main_index !! file_path = Some data
    ∧ Py.truthy (package data) = true
    ∧ c ∈ classes data
    ∧ ("stock.Stock", "shop.Shop").1 = ComponentDiagram.component_id_of (package data) c.
Proof.
  apply (component_edges_start_in_declared_package shop_main_index
           ("stock.Stock", "shop.Shop")).
  vm_compute. apply list_elem_of_here.
Defined.

(** X26 at the class of the file without package declaration of an index
    with two packages. *)
Lemma default_cluster_has_no_outgoing_edge_witness :
  ComponentDiagram.component_id_of "default" "Main"
    ∈ ComponentDiagram.node_ids (ComponentDiagram.component_graph shop_main_index)
  ∧ ∀ e, e ∈ ComponentDiagram.graph_edges (ComponentDiagram.component_graph shop_main_index) →
      e.1 ≠ ComponentDiagram.component_id_of "default" "Main".
Proof.
  assert (Hfiles : ∀ p d, shop_main_index !! p = Some d →
            d = FileData ["Main"] [] ["shop.Shop"] [] ""
            ∨ d = FileData ["Shop"] [] ["stock.Stock"; "org.slf4j.Logger"; "shop.Cart"] [] "shop"
            ∨ d = FileData ["Stock"] [] ["shop.Shop"; "Helper"] [] "stock").
  { intros p d Hp. unfold shop_main_index, shop_packages_index in Hp.
    apply lookup_insert_Some in Hp as [[_ <-]|[_ Hp]]; [by left|].
    apply lookup_insert_Some in Hp as [[_ <-]|[_ Hp]]; [by right; left|].
    apply lookup_singleton_Some in Hp as [_ <-]. by right; right. }
  apply (default_cluster_has_no_outgoing_edge shop_main_index "Main.java"
           (FileData ["Main"] [] ["shop.Shop"] [] "") "Main").
  - intros p d x Hp Hx.
    destruct (Hfiles p d Hp) as [->|[->| ->]]; cbn [classes] in Hx;
      apply list_elem_of_singleton in Hx as ->; reflexivity.
  - intros p d Hp. by destruct (Hfiles p d Hp) as [->|[->| ->]].
  - reflexivity.
  - reflexivity.
  - by left.
Defined.

(* ===================================================================== *)
(** * Facts: the diagrams built from packages *)
(* ===================================================================== *)

Section PackageDiagramFacts.
Import ComponentDiagram.

Lemma extend_gathered (pn : file_data → string) (cls : file_data → list string)
    (step : gmap string package_entry → string * file_data → gmap string package_entry) :
  (∀ packages item, ∃ e,
      step packages item = <[pn item.2 := e]> packages
      ∧ package_classes e
        = package_classes (default (PackageEntry [] [] ∅) (packages !! pn item.2))
          ++ cls item.2) →
  ∀ items seen packages,
    classes_gathered pn cls seen packages →
    classes_gathered pn cls (seen ++ items) (foldl step packages items).
Proof.
  intros Hstep. induction items as [|item items IH]; intros seen packages Hg.
  { by rewrite app_nil_r. }
  cbn [foldl]. rewrite (assoc_L (++) seen [item] items : seen ++ item :: items = _).
  apply IH. clear IH. destruct Hg as [Hsome Hent].
  destruct (Hstep packages item) as (e' & -> & Hcl). split.
  - intros item' Hitem'. apply lookup_insert_is_Some.
    destruct (decide (pn item.2 = pn item'.2)); [by left|].
    right. split; [done|]. apply Hsome.
    apply elem_of_app in Hitem' as [?|Hitem']; [done|].
    apply list_elem_of_singleton in Hitem' as ->. done.
  - intros p e Hp c. apply lookup_insert_Some in Hp as [[<- <-]|[Hne Hp]].
    + rewrite Hcl, elem_of_app.
      assert (Hold : c ∈ package_classes
                         (default (PackageEntry [] [] ∅) (packages !! pn item.2))
                     ↔ ∃ item', item' ∈ seen ∧ pn item'.2 = pn item.2 ∧ c ∈ cls item'.2).
      { destruct (packages !! pn item.2) as [e|] eqn:Hl.
        - by apply Hent.
        - cbn. split.
          + intros Hc. by apply elem_of_nil in Hc.
          + intros (item' & Hin & Heq & _). apply Hsome in Hin.
            rewrite Heq, Hl in Hin. by destruct Hin. }
      rewrite Hold. split.
      * intros [(item' & Hi & Hpk & Hc)|Hc].
        -- exists item'. split; [apply elem_of_app; by left|done].
        -- exists item. split; [apply elem_of_app; right; by left|done].
      * intros (item' & Hi & Hpk & Hc).
        apply elem_of_app in Hi as [Hi|Hi].
        -- left. by exists item'.
        -- apply list_elem_of_singleton in Hi as ->. by right.
    + rewrite (Hent p e Hp c). split.
      * intros (item' & Hi & Hpk & Hc). exists item'.
        split; [apply elem_of_app; by left|done].
      * intros (item' & Hi & Hpk & Hc).
        apply elem_of_app in Hi as [Hi|Hi]; [by exists item'|].
        apply list_elem_of_singleton in Hi as ->. done.
Qed.

Lemma classes_gathered_nil pn cls : classes_gathered pn cls [] ∅.
Proof.
  split; [intros item Hitem; by apply elem_of_nil in Hitem|].
  intros p e Hp. by rewrite lookup_empty in Hp.
Qed.

(** The ids that a list of packages registers, each with its classes. *)
Lemma gathered_ids pn cls (index_data : index) packages (id : string) :
  classes_gathered pn cls (map_to_list index_data) packages →
  id ∈ (map_to_list packages ≫= fun item =>
          component_id_of item.1 <$> package_classes item.2)
  ↔ ∃ file_path data c,
      index_data !! file_path = Some data
      ∧ c ∈ cls data
      ∧ id = component_id_of (pn data) c.
Proof.
  intros [Hsome Hent]. rewrite list_elem_of_bind. split.
  - intros ([p e] & Hid & Hpe). apply elem_of_map_to_list in Hpe.
    apply list_elem_of_fmap in Hid as (c & -> & Hc). cbn [fst snd] in *.
    apply (Hent p e Hpe) in Hc as ([path data] & Hi & <- & Hc).
    apply elem_of_map_to_list in Hi. by exists path, data, c.
  - intros (path & data & c & Hl & Hc & ->).
    assert (Hi : (path, data) ∈ map_to_list index_data) by by apply elem_of_map_to_list.
    destruct (Hsome _ Hi) as [e He]. exists (pn data, e).
    split; [|by apply elem_of_map_to_list].
    apply list_elem_of_fmap. exists c. split; [done|].
    apply (Hent _ e He). by exists (path, data).
Qed.

(** A loop that appends to a list, each iteration what it generates,
    appends over a list what its elements generate. *)
Lemma appending_fold {A E} (f : list E → A → list E) (gen : A → E → Prop) :
  (∀ acc a e, e ∈ f acc a ↔ e ∈ acc ∨ gen a e) →
  ∀ l acc e, e ∈ foldl f acc l ↔ e ∈ acc ∨ ∃ a, a ∈ l ∧ gen a e.
Proof.
  intros Hstep. induction l as [|a l IH]; intros acc e.
  - split; [by left|]. intros [?|(a & Ha & _)]; [done|]. by apply elem_of_nil in Ha.
  - cbn [foldl]. rewrite IH, Hstep. split.
    + intros [[?|Hg]|(b & Hb & Hg)]; [by left| |].
      * right. exists a. split; [by left|done].
      * right. exists b. split; [by right|done].
    + intros [?|(b & Hb & Hg)]; [by left; left|].
      apply elem_of_cons in Hb as [->|Hb]; [by left; right|].
      right. by exists b.
Qed.

End PackageDiagramFacts.

(* ===================================================================== *)
(** * Facts: the diagram built with the caller's functions *)
(* ===================================================================== *)

Section DiagramFromIndexFacts.
Import ComponentDiagram.
Variable get_package_name : file_data → string.
Variable get_classes : file_data → list string.
Variable get_dependencies : file_data → list string.

Lemma diagram_packages_gathered (index_data : index) :
  classes_gathered (DiagramFromIndex.package_name_of get_package_name) get_classes
    (map_to_list index_data)
    (DiagramFromIndex.packages_of get_package_name get_classes get_dependencies index_data).
Proof.
  apply (extend_gathered _ _
           (DiagramFromIndex.add_file get_package_name get_classes get_dependencies)
           ltac:(intros packages item; eexists; split; [reflexivity|done])
           (map_to_list index_data) [] ∅).
  apply classes_gathered_nil.
Qed.

Lemma diagram_add_cluster_fold (items : list (string * package_entry)) : ∀ st,
  (foldl DiagramFromIndex.add_cluster st items).1 ≫= (fun c => (cluster_nodes c).*1)
  = (st.1 ≫= fun c => (cluster_nodes c).*1)
    ++ (items ≫= fun item => component_id_of item.1 <$> package_classes item.2)
  ∧ dom (foldl DiagramFromIndex.add_cluster st items).2
    = dom st.2 ∪ list_to_set (items ≫= fun item =>
                                component_id_of item.1 <$> package_classes item.2).
Proof.
  induction items as [|item items IH]; intros st.
  - cbn. rewrite app_nil_r. split; [done|]. set_solver.
  - cbn [foldl]. destruct (IH (DiagramFromIndex.add_cluster st item)) as [-> ->].
    assert (Hdom : ∀ (cs : list string) (m : gmap string string),
              dom (foldl (fun components class_name =>
                            <[component_id_of item.1 class_name := class_name]> components)
                         m cs)
              = dom m ∪ list_to_set (component_id_of item.1 <$> cs)).
    { induction cs as [|c cs IHc]; intros m; cbn [foldl]; [set_solver|].
      rewrite IHc, dom_insert_L. set_solver. }
    unfold DiagramFromIndex.add_cluster. rewrite !bind_cons.
    destruct (package_classes item.2) as [|c cs] eqn:Hcl.
    + split; [done|]. set_solver.
    + cbn [fst snd]. rewrite Hdom, bind_app, <- (assoc_L (++)).
      split; [|set_solver]. f_equal. f_equal.
      rewrite bind_cons. cbn [mbind list_bind]. rewrite app_nil_r. cbn [cluster_nodes].
      by rewrite <- list_fmap_compose.
Qed.

Lemma diagram_node_ids_spec (index_data : index) (id : string) :
  id ∈ node_ids (DiagramFromIndex.diagram_graph
                   get_package_name get_classes get_dependencies index_data)
  ↔ ∃ file_path data c,
      index_data !! file_path = Some data
      ∧ c ∈ get_classes data
      ∧ id = component_id_of (DiagramFromIndex.package_name_of get_package_name data) c.
Proof.
  unfold node_ids, DiagramFromIndex.diagram_graph, DiagramFromIndex.clusters_of.
  cbn [graph_clusters].
  destruct (diagram_add_cluster_fold
              (map_to_list (DiagramFromIndex.packages_of
                              get_package_name get_classes get_dependencies index_data))
              ([], ∅)) as [-> _].
  cbn [fst app mbind list_bind].
  apply gathered_ids, diagram_packages_gathered.
Qed.

Lemma diagram_components_registered (index_data : index) :
  dom (DiagramFromIndex.clusters_of
         get_package_name get_classes get_dependencies index_data).2
  = list_to_set (node_ids (DiagramFromIndex.diagram_graph
                             get_package_name get_classes get_dependencies index_data)).
Proof.
  unfold node_ids, DiagramFromIndex.diagram_graph, DiagramFromIndex.clusters_of.
  cbn [graph_clusters].
  destruct (diagram_add_cluster_fold
              (map_to_list (DiagramFromIndex.packages_of
                              get_package_name get_classes get_dependencies index_data))
              ([], ∅)) as [-> ->].
  cbn [fst snd app mbind list_bind]. set_solver.
Qed.

Lemma diagram_edges_spec (index_data : index) (components : gmap string string) e :
  e ∈ foldl (DiagramFromIndex.add_file_edges get_package_name get_classes
               get_dependencies components) [] (map_to_list index_data)
  ↔ ∃ file_path data c rest dep,
      index_data !! file_path = Some data
      ∧ get_classes data = c :: rest
      ∧ dep ∈ get_dependencies data
      ∧ Py.truthy dep = true
      ∧ e = (component_id_of (DiagramFromIndex.package_name_of get_package_name data) c,
             DiagramFromIndex.target_id_of dep)
      ∧ e.1 ∈ dom components
      ∧ e.2 ∈ dom components.
Proof.
  rewrite (appending_fold _
    (fun item e => ∃ c rest dep,
       get_classes item.2 = c :: rest
       ∧ dep ∈ get_dependencies item.2
       ∧ Py.truthy dep = true
       ∧ e = (component_id_of (DiagramFromIndex.package_name_of get_package_name item.2) c,
              DiagramFromIndex.target_id_of dep)
       ∧ e.1 ∈ dom components
       ∧ e.2 ∈ dom components)).
  - split.
    + intros [He|([path data] & Hi & c & rest & dep & Hrest)].
      { by apply elem_of_nil in He. }
      apply elem_of_map_to_list in Hi. by exists path, data, c, rest, dep.
    + intros (path & data & c & rest & dep & Hl & Hrest). right.
      exists (path, data). split; [by apply elem_of_map_to_list|].
      by exists c, rest, dep.
  - clear e. intros acc item e. unfold DiagramFromIndex.add_file_edges.
    destruct (get_classes item.2) as [|c rest].
    { split; [by left|]. by intros [?|(c & rest & dep & Hcl & _)]. }
    rewrite (appending_fold _
      (fun dep e => Py.truthy dep = true
         ∧ e = (component_id_of (DiagramFromIndex.package_name_of get_package_name item.2) c,
                DiagramFromIndex.target_id_of dep)
         ∧ e.1 ∈ dom components
         ∧ e.2 ∈ dom components)).
    + split.
      * intros [?|(dep & Hdep & Hrest)]; [by left|]. right. by exists c, rest, dep.
      * intros [?|(c' & rest' & dep & [= <- <-] & Hdep & Hrest)]; [by left|].
        right. by exists dep.
    + clear e acc. intros acc dep e. unfold DiagramFromIndex.add_edge.
      destruct (Py.truthy dep); [|split; [by left|by intros [?|[? _]]]].
      destruct (_ && _) eqn:Hok.
      * apply andb_prop in Hok as [Hs Ht]. apply bool_decide_eq_true_1 in Hs, Ht.
        rewrite elem_of_app, list_elem_of_singleton. split.
        -- intros [?| ->]; [by left|by right].
        -- intros [?|(_ & -> & _)]; [by left|by right].
      * split; [by left|]. intros [?|(_ & -> & Hs & Ht)]; [done|]. exfalso.
        apply andb_false_iff in Hok as [Hok|Hok];
          by apply bool_decide_eq_false_1 in Hok.
Qed.

(** X27: the diagram built with the caller's functions.  Its nodes are
    the classes of the files, qualified by the package name, or by
    "default" where that is empty.  The source of an edge is the first
    class of a file qualified the same way, so that it is always a node:
    there is an edge for a file with a class and a non-empty dependency
    exactly where the target of the dependency is a node, also from a
    node to itself. *)
Theorem diagram_from_index_edges (index_data : index) :
  (∀ id, id ∈ node_ids (DiagramFromIndex.diagram_graph
                          get_package_name get_classes get_dependencies index_data)
         ↔ ∃ file_path data c,
             index_data !! file_path = Some data
             ∧ c ∈ get_classes data
             ∧ id = component_id_of
                      (DiagramFromIndex.package_name_of get_package_name data) c)
  ∧ ∀ e, e ∈ graph_edges (DiagramFromIndex.diagram_graph
                            get_package_name get_classes get_dependencies index_data)
         ↔ e.2 ∈ node_ids (DiagramFromIndex.diagram_graph
                             get_package_name get_classes get_dependencies index_data)
           ∧ ∃ file_path data c rest dep,
               index_data !! file_path = Some data
               ∧ get_classes data = c :: rest
               ∧ dep ∈ get_dependencies data
               ∧ Py.truthy dep = true
               ∧ e = (component_id_of
                        (DiagramFromIndex.package_name_of get_package_name data) c,
                      DiagramFromIndex.target_id_of dep).
Proof.
  split; [apply diagram_node_ids_spec|]. intros e.
  change (graph_edges (DiagramFromIndex.diagram_graph
                         get_package_name get_classes get_dependencies index_data))
    with (foldl (DiagramFromIndex.add_file_edges get_package_name get_classes
                   get_dependencies
                   (DiagramFromIndex.clusters_of
                      get_package_name get_classes get_dependencies index_data).2)
                [] (map_to_list index_data)).
  rewrite diagram_edges_spec, diagram_components_registered.
  setoid_rewrite elem_of_list_to_set. split.
  - intros (path & data & c & rest & dep & Hl & Hcl & Hdep & Ht & -> & Hs & Htgt).
    split; [done|]. by exists path, data, c, rest, dep.
  - intros (Htgt & path & data & c & rest & dep & Hl & Hcl & Hdep & Ht & ->).
    exists path, data, c, rest, dep.
    split; [done|]. split; [done|]. split; [done|]. split; [done|]. split; [done|].
    split; [|done]. cbn [fst]. apply diagram_node_ids_spec.
    exists path, data, c. split; [done|]. split; [|done]. rewrite Hcl. by left.
Qed.

End DiagramFromIndexFacts.

(* ===================================================================== *)
(** * Facts: the context diagram *)
(* ===================================================================== *)

Section ContextDiagramFacts.
Import ComponentDiagram.

(** X28: the edges of the context diagram.  The dependencies passed on
    are the imports cut before their last dot, and the target of an edge
    is built from such a package part as if it named a class: the part
    itself where it has a dot, and the class of that name in the package
    "default" where it has none.  There is an edge from the first class of
    a file exactly where such a target is a node, as for an import
    [p.C.Inner] of a class nested in the class [C] of the package [p]. *)
Theorem context_edges (index_data : index) (e : string * string) :
  e ∈ graph_edges (ContextDiagram.context_graph index_data)
  ↔ e.2 ∈ node_ids (ContextDiagram.context_graph index_data)
    ∧ ∃ file_path data c rest dep,
        index_data !! file_path = Some data
        ∧ classes data = c :: rest
        ∧ dep ∈ dependencies data
        ∧ Py.truthy (PySplit.before_last_dot dep) = true
        ∧ e.1 = component_id_of (package_name_of data) c
        ∧ e.2 = if Py.contains "." (PySplit.before_last_dot dep)
                then PySplit.before_last_dot dep
                else component_id_of "default" (PySplit.before_last_dot dep).
Proof.
  assert (Htarget : ∀ part,
            DiagramFromIndex.target_id_of part
            = if Py.contains "." part then part else component_id_of "default" part).
  { intros part. unfold DiagramFromIndex.target_id_of.
    destruct (Py.contains "." part) eqn:Hdot; [|done].
    by apply split_last_dot_join. }
  unfold ContextDiagram.context_graph.
  change (graph_edges (DiagramFromIndex.diagram_graph ContextDiagram.get_package_name
                         ContextDiagram.get_classes ContextDiagram.get_dependencies
                         index_data))
    with (foldl (DiagramFromIndex.add_file_edges ContextDiagram.get_package_name
                   ContextDiagram.get_classes ContextDiagram.get_dependencies
                   (DiagramFromIndex.clusters_of ContextDiagram.get_package_name
                      ContextDiagram.get_classes ContextDiagram.get_dependencies
                      index_data).2)
                [] (map_to_list index_data)).
  rewrite diagram_edges_spec, diagram_components_registered.
  setoid_rewrite elem_of_list_to_set. split.
  - intros (path & data & c & rest & part & Hl & Hcl & Hpart & Ht & -> & Hs & Htgt).
    split; [done|]. unfold ContextDiagram.get_dependencies in Hpart.
    apply list_elem_of_fmap in Hpart as (dep & -> & Hdep).
    exists path, data, c, rest, dep. rewrite <- Htarget. done.
  - intros (Htgt & path & data & c & rest & dep & Hl & Hcl & Hdep & Ht & Hsrc & Hdst).
    exists path, data, c, rest, (PySplit.before_last_dot dep).
    split; [done|]. split; [done|].
    split; [by apply list_elem_of_fmap_2|]. split; [done|].
    rewrite Htarget, <- Hdst.
    assert (Hsrc' : e.1 = component_id_of
              (DiagramFromIndex.package_name_of ContextDiagram.get_package_name data) c)
      by done.
    rewrite <- Hsrc'. split; [by destruct e|]. split; [|done].
    rewrite Hsrc'. apply diagram_node_ids_spec. exists path, data, c.
    split; [done|]. split; [|done].
    unfold ContextDiagram.get_classes. rewrite Hcl. by left.
Qed.

End ContextDiagramFacts.

(* ===================================================================== *)
(** * Facts: the C4 diagram *)
(* ===================================================================== *)

Section C4DiagramFacts.
Import ComponentDiagram.

Lemma c4_packages_gathered (index_data : index) :
  classes_gathered package_name_of classes (map_to_list index_data)
    (C4Diagram.packages_of index_data).
Proof.
  apply (extend_gathered _ _ C4Diagram.add_file
           ltac:(intros packages item; eexists; split; [reflexivity|done])
           (map_to_list index_data) [] ∅).
  apply classes_gathered_nil.
Qed.

Lemma c4_node_ids_listed (index_data : index) :
  node_ids (C4Diagram.c4_graph index_data)
  = map_to_list (C4Diagram.packages_of index_data) ≫= fun item =>
      component_id_of item.1 <$> package_classes item.2.
Proof.
  unfold node_ids, C4Diagram.c4_graph, C4Diagram.clusters_of. cbn [graph_clusters].
  destruct (add_cluster_fold (map_to_list (C4Diagram.packages_of index_data)) ([], ∅))
    as [-> _].
  cbn [fst app].
  induction (map_to_list (C4Diagram.packages_of index_data)) as [|item items IH]; [done|].
  rewrite !bind_cons, bind_app, IH. f_equal.
  destruct (package_classes item.2) as [|c cs]; [done|].
  rewrite bind_cons. cbn [mbind list_bind]. rewrite app_nil_r. cbn [cluster_nodes].
  rewrite <- list_fmap_compose. done.
Qed.

Lemma c4_components_registered (index_data : index) :
  dom (C4Diagram.clusters_of index_data).2
  = list_to_set (node_ids (C4Diagram.c4_graph index_data)).
Proof.
  rewrite c4_node_ids_listed. unfold C4Diagram.clusters_of.
  destruct (add_cluster_fold (map_to_list (C4Diagram.packages_of index_data)) ([], ∅))
    as [_ ->].
  set_solver.
Qed.

Lemma c4_edges_spec (index_data : index) (components : gmap string string) e :
  e ∈ foldl (C4Diagram.add_file_edges components) [] (map_to_list index_data)
  ↔ ∃ file_path data c rest dep,
      index_data !! file_path = Some data
      ∧ classes data = c :: rest
      ∧ dep ∈ dependencies data
      ∧ Py.contains "." dep = true
      ∧ e = (component_id_of (package data) c, dep)
      ∧ e.1 ∈ dom components
      ∧ e.2 ∈ dom components.
Proof.
  rewrite (appending_fold _
    (fun item e => ∃ c rest dep,
       classes item.2 = c :: rest
       ∧ dep ∈ dependencies item.2
       ∧ Py.contains "." dep = true
       ∧ e = (component_id_of (package item.2) c, dep)
       ∧ e.1 ∈ dom components
       ∧ e.2 ∈ dom components)).
  - split.
    + intros [He|([path data] & Hi & c & rest & dep & Hrest)].
      { by apply elem_of_nil in He. }
      apply elem_of_map_to_list in Hi. by exists path, data, c, rest, dep.
    + intros (path & data & c & rest & dep & Hl & Hrest). right.
      exists (path, data). split; [by apply elem_of_map_to_list|].
      by exists c, rest, dep.
  - clear e. intros acc item e. unfold C4Diagram.add_file_edges.
    destruct (classes item.2) as [|c rest].
    { split; [by left|]. by intros [?|(c & rest & dep & Hcl & _)]. }
    rewrite (appending_fold _
      (fun dep e => Py.contains "." dep = true
         ∧ e = (component_id_of (package item.2) c, dep)
         ∧ e.1 ∈ dom components
         ∧ e.2 ∈ dom components)).
    + split.
      * intros [?|(dep & Hdep & Hrest)]; [by left|]. right. by exists c, rest, dep.
      * intros [?|(c' & rest' & dep & [= <- <-] & Hdep & Hrest)]; [by left|].
        right. by exists dep.
    + clear e acc. intros acc dep e. unfold C4Diagram.add_edge.
      destruct (Py.contains "." dep) eqn:Hdot; [|split; [by left|by intros [?|[? _]]]].
      assert (Hid : component_id_of (PySplit.before_last_dot dep)
                                    (Py.after_last "." "" dep) = dep)
        by by apply split_last_dot_join.
      rewrite Hid.
      destruct (_ && _) eqn:Hok.
      * apply andb_prop in Hok as [Hs Ht]. apply bool_decide_eq_true_1 in Hs, Ht.
        rewrite elem_of_app, list_elem_of_singleton. split.
        -- intros [?| ->]; [by left|by right].
        -- intros [?|(_ & -> & _)]; [by left|by right].
      * split; [by left|]. intros [?|(_ & -> & Hs & Ht)]; [done|]. exfalso.
        apply andb_false_iff in Hok as [Hok|Hok];
          by apply bool_decide_eq_false_1 in Hok.
Qed.

(** X29: the C4 diagram.  Its nodes are the classes of the files,
    qualified by the package, or by "default" where the file declares
    none.  There is an edge for a file with a class and a dotted
    dependency exactly where the first class of the file, qualified by
    the package as the file records it, and the dependency itself are
    nodes: the target of an edge is the import as written. *)
Theorem c4_edges (index_data : index) :
  (∀ id, id ∈ node_ids (C4Diagram.c4_graph index_data)
         ↔ ∃ file_path data c,
             index_data !! file_path = Some data
             ∧ c ∈ classes data
             ∧ id = component_id_of (package_name_of data) c)
  ∧ ∀ e, e ∈ graph_edges (C4Diagram.c4_graph index_data)
         ↔ e.1 ∈ node_ids (C4Diagram.c4_graph index_data)
           ∧ e.2 ∈ node_ids (C4Diagram.c4_graph index_data)
           ∧ ∃ file_path data c rest dep,
               index_data !! file_path = Some data
               ∧ classes data = c :: rest
               ∧ dep ∈ dependencies data
               ∧ Py.contains "." dep = true
               ∧ e = (component_id_of (package data) c, dep).
Proof.
  split.
  - intros id. rewrite c4_node_ids_listed.
    apply gathered_ids, c4_packages_gathered.
  - intros e.
    change (graph_edges (C4Diagram.c4_graph index_data))
      with (foldl (C4Diagram.add_file_edges (C4Diagram.clusters_of index_data).2)
                  [] (map_to_list index_data)).
    rewrite c4_edges_spec, c4_components_registered.
    setoid_rewrite elem_of_list_to_set. split.
    + intros (path & data & c & rest & dep & Hl & Hcl & Hdep & Hdot & -> & Hs & Ht).
      split; [done|]. split; [done|]. by exists path, data, c, rest, dep.
    + intros (Hs & Ht & path & data & c & rest & dep & Hl & Hcl & Hdep & Hdot & ->).
      by exists path, data, c, rest, dep.
Qed.

End C4DiagramFacts.
